(** * Automatic liquidity rebalancer (AVAX / BTC.b pool)

    A shallow embedding of the position store ([db/database.py]), the pool
    interface ([contracts/pool.py]) and the rebalancing engine
    ([auto_rebalance.py]), followed by the properties proved about them.

    Modelling conventions.
    - Python [int] is [Z]; bin ids are [Z].
    - Python [float] amounts are idealised as exact rationals ([Q]): the
      quotient [balance / 10 ** 18] is the rational [balance # 10^18] and
      comparisons are exact.  Rounding of binary64 is not modelled.
    - The [positions] table is a list of rows in insertion order.  The
      [id INTEGER PRIMARY KEY AUTOINCREMENT] column of a row is its 1-based
      index in that list: the source never deletes a row.  A SELECT returns
      its rows in id order.  The [timestamp] columns are not modelled, and
      the calls on the database do not raise.
    - The blockchain is reached through the [Gateway] interface: a read may
      raise (answer [None]); a transaction returns a receipt, or raises, and
      moves the chain to a successor state.
    - Code runs in the monad [M]: it threads the chain state, the store and
      the log of gateway calls, and yields [None] when a Python exception
      escapes.  [print] statements are dropped. *)

From Stdlib Require Import ZArith QArith Qabs String DecimalString Lia.
From stdpp Require Import base list strings.
Close Scope Q_scope.
Open Scope Z_scope.

(** ** utils/config.py *)

Module Config.

(* The checksum casing applied by [to_checksum] is not modelled. *)
Definition POOL_ADDRESS : string := "0x856b38bf1e2e367f747dd4d3951dda8a35f1bf60".
Definition WAVAX_ADDRESS : string := "0xB31f66AA3C1e785363F0875A1B74E27b85FD66c7".
Definition BTCB_ADDRESS : string := "0x152b9d0fdc40c096757f570a51e494bd4b943e50".
Definition ROUTER_ADDRESS : string := "0x18556DA13313f3532c54711497A8FedAC273220E".

Definition GAS_LIMIT_BASE : Z := 300000.
Definition GAS_LIMIT_LARGE : Z := 1000000.

Definition DEFAULT_BIN_SCAN_RANGE : Z := 10.

Definition WAVAX_DECIMALS : Z := 18.
Definition BTCB_DECIMALS : Z := 8.

End Config.

(** ** Numbers and strings of the host language *)

Module Py.

(* [str(n)] for an int. *)
Definition str (n : Z) : string := NilZero.string_of_int (Z.to_int n).

(* [sep.join(l)] *)
Fixpoint join (sep : string) (l : list string) : string :=
  match l with
  | [] => ""
  | [s] => s
  | s :: t => s +:+ sep +:+ join sep t
  end.

(* [range(start, stop)] *)
Definition range (start stop : Z) : list Z :=
  map (fun i : nat => start + Z.of_nat i) (seq 0 (Z.to_nat (stop - start))).

(* [n / 10 ** d] for an int [n] *)
Definition from_units (n : Z) (d : Z) : Q := (n # Z.to_pos (10 ^ d))%Q.

(* [int(x)]: truncation towards zero *)
Definition int (x : Q) : Z := Z.quot (Qnum x) (Z.pos (Qden x)).

(* [int(x * 10 ** d)] *)
Definition to_units (x : Q) (d : Z) : Z := int (x * inject_Z (10 ^ d))%Q.

(* [a > b] and [a <= b] on floats *)
Definition gt (a b : Q) : bool := negb (Qle_bool a b).
Definition le (a b : Q) : bool := Qle_bool a b.
Definition lt (a b : Q) : bool := negb (Qle_bool b a).

(* [max(0, x)] *)
Definition max0 (x : Q) : Q := if gt x 0 then x else 0%Q.

(* truth value of a list: [if l:] *)
Definition nonempty {A} (l : list A) : bool :=
  match l with [] => false | _ :: _ => true end.

End Py.

(** ** db/database.py : the position store *)

Module Db.

Record PositionRow := {
  wallet_address : string;
  bin_id : Z;
  amount : Q;
  token_x : string;
  token_y : string;
  pool_address : string;
  active : bool
}.

Record OperationRow := {
  operation_type : string;
  op_wallet_address : string;
  op_bin_id : option Z;
  amount_x : option Q;
  amount_y : option Q;
  op_token_x : option string;
  op_token_y : option string;
  op_pool_address : string;
  tx_hash : option string;
  notes : option string
}.

Record Store := {
  positions : list PositionRow;
  operations : list OperationRow
}.

Definition empty : Store := {| positions := []; operations := [] |}.

(* Rows paired with their [id] column, numbered from [n]. *)
Fixpoint with_ids (n : nat) (rows : list PositionRow) : list (nat * PositionRow) :=
  match rows with
  | [] => []
  | r :: rest => (n, r) :: with_ids (S n) rest
  end.

(* The row an INSERT creates: [active] takes its default, 1. *)
Definition new_row (wallet : string) (bin : Z) (amt : Q) (tx ty pool : string) : PositionRow :=
  {| wallet_address := wallet; bin_id := bin; amount := amt;
     token_x := tx; token_y := ty; pool_address := pool;
     active := true |}.

(* INSERT INTO positions ...; returns [lastrowid]. *)
Definition add_position (s : Store) (wallet : string) (bin : Z) (amt : Q)
    (tx ty pool : string) : nat * Store :=
  (S (length (positions s)),
   {| positions := positions s ++ [new_row wallet bin amt tx ty pool];
      operations := operations s |}).

Definition set_amount_active (new_amount : Q) (act : bool) (r : PositionRow) : PositionRow :=
  {| wallet_address := wallet_address r; bin_id := bin_id r; amount := new_amount;
     token_x := token_x r; token_y := token_y r; pool_address := pool_address r;
     active := act |}.

(* UPDATE positions SET amount = ?, active = ? WHERE id = ?
   No row has id 0; an id past the end matches no row. *)
Definition update_rows (position_id : nat) (new_amount : Q) (act : bool)
    (rows : list PositionRow) : list PositionRow :=
  match position_id with
  | O => rows
  | S i => alter (set_amount_active new_amount act) i rows
  end.

Definition update_position (s : Store) (position_id : nat) (new_amount : Q)
    (act : bool) : bool * Store :=
  (true, {| positions := update_rows position_id new_amount act (positions s);
            operations := operations s |}).

Definition deactivate_position (s : Store) (position_id : nat) : bool * Store :=
  update_position s position_id 0%Q false.

(* WHERE wallet_address = ? AND active = 1 [AND pool_address = ?]
   The pool clause is added under [if pool_address:], so neither [None] nor
   the empty string filters. *)
Definition is_active_for (wallet : string) (pool : option string) (r : PositionRow) : bool :=
  bool_decide (wallet_address r = wallet) && active r &&
  match pool with
  | Some p => if bool_decide (p = "") then true else bool_decide (pool_address r = p)
  | None => true
  end.

Definition get_active_positions (s : Store) (wallet : string) (pool : option string)
    : list (nat * PositionRow) :=
  List.filter (fun ir => is_active_for wallet pool (snd ir)) (with_ids 1 (positions s)).

(* WHERE wallet_address = ? AND bin_id = ? AND pool_address = ? AND active = 1 *)
Definition is_active_at (wallet : string) (bin : Z) (pool : string) (r : PositionRow) : bool :=
  bool_decide (wallet_address r = wallet) && (bin_id r =? bin) &&
  bool_decide (pool_address r = pool) && active r.

(* [fetchone()]: the first matching row, if any. *)
Definition get_position_by_bin (s : Store) (wallet : string) (bin : Z) (pool : string)
    : option (nat * PositionRow) :=
  head (List.filter (fun ir => is_active_at wallet bin pool (snd ir)) (with_ids 1 (positions s))).

(* INSERT INTO operations ...; returns [lastrowid]. *)
Definition record_operation (s : Store) (op : OperationRow) : nat * Store :=
  (S (length (operations s)),
   {| positions := positions s; operations := operations s ++ [op] |}).

End Db.

(** ** The pool gateway *)

(* A transaction handed to the chain for signing, sending and mining. *)
Inductive Tx :=
| TxApprove (token spender : string) (amount_wei : Z)
| TxSetApprovalForAll (spender : string)
| TxAddLiquidity (tx ty : string) (bin_ids amounts_x amounts_y : list Z)
                 (deadline : Z) (to : string)
| TxRemoveLiquidity (tx ty to : string) (bin_ids amounts : list Z) (deadline : Z).

Record Receipt := { status : Z; receipt_hash : string }.

(* Calls made to the chain client, in the order they were issued. *)
Inductive Call :=
| CallFromKey (private_key : string)
| CallActiveId
| CallBalanceOf (wallet : string) (bin : Z)
| CallGetBin (bin : Z)
| CallTokenBalance (token : string) (wallet : option string)
| CallAllowance (token owner spender : string)
| CallLatestBlock
| CallTransact (sender : string) (gas : Z) (tx : Tx).

Class Gateway (chain : Type) := {
  (* w3.eth.account.from_key(private_key).address *)
  from_key : string -> option string;
  (* pool_contract.functions.getActiveId().call() *)
  getActiveId : chain -> option Z;
  (* pool_contract.functions.balanceOf(wallet, bin).call() *)
  balanceOf : chain -> string -> Z -> option Z;
  (* pool_contract.functions.getBin(bin).call() *)
  getBin : chain -> Z -> option (Z * Z);
  (* token_contract.functions.balanceOf(wallet).call() *)
  tokenBalanceOf : chain -> string -> option string -> option Z;
  (* token_contract.functions.allowance(owner, spender).call() *)
  allowance : chain -> string -> string -> string -> option Z;
  (* w3.eth.get_block('latest').timestamp *)
  latestTimestamp : chain -> option Z;
  (* build_transaction, sign_transaction, send_raw_transaction and
     wait_for_transaction_receipt, as one step *)
  transact : chain -> string -> string -> Z -> Tx -> option Receipt * chain
}.

(** ** The monad of the engine *)

Record World (chain : Type) := {
  chain_state : chain;
  store : Db.Store;
  trace : list Call
}.
Arguments chain_state {chain} _.
Arguments store {chain} _.
Arguments trace {chain} _.

Definition M (chain A : Type) : Type := World chain -> option A * World chain.

Definition ret {chain A} (a : A) : M chain A := fun w => (Some a, w).

Definition raise {chain A} : M chain A := fun w => (None, w).

Definition bind {chain A B} (m : M chain A) (k : A -> M chain B) : M chain B :=
  fun w =>
    match m w with
    | (Some a, w') => k a w'
    | (None, w') => (None, w')
    end.

(* try: m  except Exception: h *)
Definition try_except {chain A} (m h : M chain A) : M chain A :=
  fun w =>
    match m w with
    | (Some a, w') => (Some a, w')
    | (None, w') => h w'
    end.

Declare Scope py_scope.
Delimit Scope py_scope with py.
Notation "x <- m ;; k" := (bind m (fun x => k))
  (at level 100, m at next level, right associativity) : py_scope.
Notation "m ;; k" := (bind m (fun _ => k))
  (at level 100, right associativity) : py_scope.
Open Scope py_scope.

(* for x in l: acc = body acc x *)
Fixpoint for_each {chain A S} (l : list A) (body : S -> A -> M chain S) (acc : S) : M chain S :=
  match l with
  | [] => ret acc
  | x :: rest => acc' <- body acc x ;; for_each rest body acc'
  end.

Section Primitives.
Context {chain : Type} `{!Gateway chain}.

Definition log (c : Call) (w : World chain) : World chain :=
  {| chain_state := chain_state w; store := store w; trace := trace w ++ [c] |}.

Definition read {A} (c : Call) (f : chain -> option A) : M chain A :=
  fun w => (f (chain_state w), log c w).

Definition call_from_key (private_key : string) : M chain string :=
  read (CallFromKey private_key) (fun _ => from_key private_key).

Definition call_getActiveId : M chain Z :=
  read CallActiveId getActiveId.

Definition call_balanceOf (wallet : string) (bin : Z) : M chain Z :=
  read (CallBalanceOf wallet bin) (fun c => balanceOf c wallet bin).

Definition call_getBin (bin : Z) : M chain (Z * Z) :=
  read (CallGetBin bin) (fun c => getBin c bin).

Definition call_tokenBalanceOf (token : string) (wallet : option string) : M chain Z :=
  read (CallTokenBalance token wallet) (fun c => tokenBalanceOf c token wallet).

Definition call_allowance (token owner spender : string) : M chain Z :=
  read (CallAllowance token owner spender) (fun c => allowance c token owner spender).

Definition call_latestTimestamp : M chain Z :=
  read CallLatestBlock latestTimestamp.

Definition call_transact (sender private_key : string) (gas : Z) (tx : Tx) : M chain Receipt :=
  fun w =>
    let '(r, c') := transact (chain_state w) sender private_key gas tx in
    (r, {| chain_state := c'; store := store w;
           trace := trace w ++ [CallTransact sender gas tx] |}).

(* A call on [self.db]. *)
Definition db {A} (f : Db.Store -> A * Db.Store) : M chain A :=
  fun w =>
    let '(a, s') := f (store w) in
    (Some a, {| chain_state := chain_state w; store := s'; trace := trace w |}).

Definition db_query {A} (f : Db.Store -> A) : M chain A :=
  db (fun s => (f s, s)).

End Primitives.

(** ** contracts/pool.py : class LiquidityPool *)

Module Pool.

(* An entry of the list returned by [get_all_lp_balances]. *)
Record Position := {
  bin_id : Z;
  lp_balance : Q;
  token_x : string;
  token_y : string;
  reserve_x : Z;
  reserve_y : Z;
  distance_from_active : Z
}.

(* The attributes cached by [__init__]. *)
Record LiquidityPool := {
  self_token_x : string;
  self_token_y : string;
  is_wavax_x : bool
}.

Section Methods.
Context {chain : Type} `{!Gateway chain}.
Variable self : LiquidityPool.

Import Config.

Definition get_active_bin : M chain Z := call_getActiveId.

(* The case-insensitive comparison of addresses is plain equality here: the
   callers pass the constants of [Config]. *)
Definition get_balance (token_address : string) (wallet_address : option string) : M chain Q :=
  balance <- call_tokenBalanceOf token_address wallet_address ;;
  if bool_decide (token_address = WAVAX_ADDRESS) then
    ret (Py.from_units balance 18)
  else if bool_decide (token_address = BTCB_ADDRESS) then
    ret (Py.from_units balance BTCB_DECIMALS)
  else
    ret (inject_Z balance).

Definition get_lp_balance (bin : Z) (wallet_address : string) : M chain Q :=
  balance <- call_balanceOf wallet_address bin ;;
  ret (Py.from_units balance 18).

Definition mk_position (bin balance bin_x bin_y active_id : Z) : Position :=
  {| bin_id := bin;
     lp_balance := Py.from_units balance 18;
     token_x := self_token_x self;
     token_y := self_token_y self;
     reserve_x := bin_x;
     reserve_y := bin_y;
     distance_from_active := bin - active_id |}.

(* Body of the loop over [db_positions] (lines 149-175). *)
Definition verify_db_position (wallet_address : string) (active_id : Z)
    (positions : list Position) (pos : nat * Db.PositionRow) : M chain (list Position) :=
  let bin := Db.bin_id (snd pos) in
  try_except
    (balance <- call_balanceOf wallet_address bin ;;
     if 0 <? balance then
       reserves <- call_getBin bin ;;
       let positions := positions ++ [mk_position bin balance (fst reserves) (snd reserves) active_id] in
       (if Py.gt (Qabs (Db.amount (snd pos) - Py.from_units balance 18)) (1 # 1000000)
        then db (fun s => Db.update_position s (fst pos) (Py.from_units balance 18) true)
        else ret true) ;;
       ret positions
     else
       db (fun s => Db.deactivate_position s (fst pos)) ;;
       ret positions)
    (ret positions).

(* Body of the loop over the scanned bins (lines 188-215). *)
Definition scan_bin (wallet_address : string) (use_db_first : bool) (active_id : Z)
    (positions : list Position) (bin : Z) : M chain (list Position) :=
  try_except
    (balance <- call_balanceOf wallet_address bin ;;
     if 0 <? balance then
       reserves <- call_getBin bin ;;
       let positions := positions ++ [mk_position bin balance (fst reserves) (snd reserves) active_id] in
       (if use_db_first then
          pos <- db_query (fun s => Db.get_position_by_bin s wallet_address bin POOL_ADDRESS) ;;
          match pos with
          | None =>
              db (fun s => Db.add_position s wallet_address bin (Py.from_units balance 18)
                             (self_token_x self) (self_token_y self) POOL_ADDRESS) ;;
              ret tt
          | Some _ => ret tt
          end
        else ret tt) ;;
       ret positions
     else ret positions)
    (ret positions).

(* Lines 183-217: the scan of the window around the active bin. *)
Definition scan_blockchain (wallet_address : string) (scan_range : Z) (use_db_first : bool)
    (positions : list Position) : M chain (list Position) :=
  active_id <- get_active_bin ;;
  let start_bin := Z.max 0 (active_id - scan_range) in
  let end_bin := active_id + scan_range in
  for_each (Py.range start_bin (end_bin + 1))
           (scan_bin wallet_address use_db_first active_id) positions.

(* Lines 141-179: the database-first pass.  It yields the positions found;
   the caller returns them at once when there are any. *)
Definition verify_db_positions (wallet_address : string) : M chain (list Position) :=
  db_positions <- db_query (fun s => Db.get_active_positions s wallet_address (Some POOL_ADDRESS)) ;;
  if Py.nonempty db_positions then
    active_id <- get_active_bin ;;
    for_each db_positions (verify_db_position wallet_address active_id) []
  else ret [].

(* [scan_range] defaults to 50 and [use_db_first] to True. *)
Definition get_all_lp_balances (wallet_address : string) (scan_range : Z)
    (use_db_first : bool) : M chain (list Position) :=
  positions <- (if use_db_first then verify_db_positions wallet_address else ret []) ;;
  if Py.nonempty positions then ret positions
  else scan_blockchain wallet_address scan_range use_db_first positions.

Definition approve_token (token_address spender_address : string) (amount : Q)
    (private_key : string) : M chain bool :=
  try_except
    (account_address <- call_from_key private_key ;;
     let amount_wei :=
       if bool_decide (token_address = WAVAX_ADDRESS) then Py.to_units amount 18
       else if bool_decide (token_address = BTCB_ADDRESS) then Py.to_units amount BTCB_DECIMALS
       else Py.to_units amount 18 in
     current_allowance <- call_allowance token_address account_address spender_address ;;
     if amount_wei <=? current_allowance then ret true
     else
       receipt <- call_transact account_address private_key GAS_LIMIT_BASE
                    (TxApprove token_address spender_address amount_wei) ;;
       if status receipt =? 1 then ret true else ret false)
    (ret false).

Definition approve_lp_tokens (spender_address private_key : string) : M chain bool :=
  try_except
    (account_address <- call_from_key private_key ;;
     receipt <- call_transact account_address private_key GAS_LIMIT_BASE
                  (TxSetApprovalForAll spender_address) ;;
     if status receipt =? 1 then ret true else ret false)
    (ret false).

Definition add_liquidity (bin : Z) (avax_amount btc_amount : Q) (private_key : string)
    : M chain bool :=
  try_except
    (account_address <- call_from_key private_key ;;
     avax_ok <- (if Py.gt avax_amount 0
                 then approve_token WAVAX_ADDRESS ROUTER_ADDRESS avax_amount private_key
                 else ret true) ;;
     if negb avax_ok then ret false else
     let avax_wei := if Py.gt avax_amount 0 then Py.to_units avax_amount 18 else 0 in
     btc_ok <- (if Py.gt btc_amount 0
                then approve_token BTCB_ADDRESS ROUTER_ADDRESS btc_amount private_key
                else ret true) ;;
     if negb btc_ok then ret false else
     let btc_wei := if Py.gt btc_amount 0 then Py.to_units btc_amount BTCB_DECIMALS else 0 in
     let amount_x := if is_wavax_x self then avax_wei else btc_wei in
     let amount_y := if is_wavax_x self then btc_wei else avax_wei in
     now <- call_latestTimestamp ;;
     let deadline := now + 300 in
     receipt <- call_transact account_address private_key GAS_LIMIT_LARGE
                  (TxAddLiquidity (self_token_x self) (self_token_y self)
                     [bin] [amount_x] [amount_y] deadline account_address) ;;
     if status receipt =? 1 then
       db (fun s => Db.record_operation s
             {| Db.operation_type := "add";
                Db.op_wallet_address := account_address;
                Db.op_bin_id := Some bin;
                Db.amount_x := Some (if is_wavax_x self then avax_amount else btc_amount);
                Db.amount_y := Some (if is_wavax_x self then btc_amount else avax_amount);
                Db.op_token_x := Some (self_token_x self);
                Db.op_token_y := Some (self_token_y self);
                Db.op_pool_address := POOL_ADDRESS;
                Db.tx_hash := Some (receipt_hash receipt);
                Db.notes := None |}) ;;
       lp <- get_lp_balance bin account_address ;;
       pos <- db_query (fun s => Db.get_position_by_bin s account_address bin POOL_ADDRESS) ;;
       match pos with
       | Some p => db (fun s => Db.update_position s (fst p) lp true) ;; ret true
       | None =>
           db (fun s => Db.add_position s account_address bin lp
                          (self_token_x self) (self_token_y self) POOL_ADDRESS) ;;
           ret true
       end
     else ret false)
    (ret false).

Definition remove_liquidity (bin : Z) (liquidity_amount : Q) (private_key : string)
    : M chain bool :=
  try_except
    (account_address <- call_from_key private_key ;;
     liquidity_amount <- (if Py.le liquidity_amount 0
                          then get_lp_balance bin account_address
                          else ret liquidity_amount) ;;
     if Py.le liquidity_amount 0 then ret false else
     let liquidity_wei := Py.to_units liquidity_amount 18 in
     approval_result <- approve_lp_tokens ROUTER_ADDRESS private_key ;;
     if negb approval_result then ret false else
     now <- call_latestTimestamp ;;
     let deadline := now + 300 in
     receipt <- call_transact account_address private_key GAS_LIMIT_LARGE
                  (TxRemoveLiquidity (self_token_x self) (self_token_y self) account_address
                     [bin] [liquidity_wei] deadline) ;;
     if status receipt =? 1 then
       db (fun s => Db.record_operation s
             {| Db.operation_type := "remove";
                Db.op_wallet_address := account_address;
                Db.op_bin_id := Some bin;
                Db.amount_x := None;
                Db.amount_y := None;
                Db.op_token_x := None;
                Db.op_token_y := None;
                Db.op_pool_address := POOL_ADDRESS;
                Db.tx_hash := Some (receipt_hash receipt);
                (* the source also prints the float amount into the note *)
                Db.notes := Some "Removed LP tokens" |}) ;;
       current_lp_balance <- get_lp_balance bin account_address ;;
       pos <- db_query (fun s => Db.get_position_by_bin s account_address bin POOL_ADDRESS) ;;
       match pos with
       | Some p =>
           (if Py.le current_lp_balance 0
            then db (fun s => Db.deactivate_position s (fst p))
            else db (fun s => Db.update_position s (fst p) current_lp_balance true)) ;;
           ret true
       | None => ret true
       end
     else ret false)
    (ret false).

(* Lines 605-608: mark the removed positions inactive. *)
Definition deactivate_removed (account_address : string) (_ : unit) (pos : Position)
    : M chain unit :=
  db_pos <- db_query (fun s => Db.get_position_by_bin s account_address (bin_id pos) POOL_ADDRESS) ;;
  match db_pos with
  | Some p => db (fun s => Db.deactivate_position s (fst p)) ;; ret tt
  | None => ret tt
  end.

(* [scan_range] defaults to 100; [get_all_lp_balances] is called with its
   default [use_db_first=True]. *)
Definition remove_all_liquidity (private_key : string) (scan_range : Z) : M chain bool :=
  try_except
    (account_address <- call_from_key private_key ;;
     positions <- get_all_lp_balances account_address scan_range true ;;
     if negb (Py.nonempty positions) then ret false else
     approval_result <- approve_lp_tokens ROUTER_ADDRESS private_key ;;
     if negb approval_result then ret false else
     let bin_ids := map bin_id positions in
     let amounts := map (fun pos => Py.to_units (lp_balance pos) 18) positions in
     now <- call_latestTimestamp ;;
     let deadline := now + 300 in
     receipt <- call_transact account_address private_key GAS_LIMIT_LARGE
                  (TxRemoveLiquidity (self_token_x self) (self_token_y self) account_address
                     bin_ids amounts deadline) ;;
     if status receipt =? 1 then
       let bin_id_list := Py.join ", " (map (fun pos => Py.str (bin_id pos)) positions) in
       db (fun s => Db.record_operation s
             {| Db.operation_type := "remove_all";
                Db.op_wallet_address := account_address;
                Db.op_bin_id := None;
                Db.amount_x := None;
                Db.amount_y := None;
                Db.op_token_x := None;
                Db.op_token_y := None;
                Db.op_pool_address := POOL_ADDRESS;
                Db.tx_hash := Some (receipt_hash receipt);
                Db.notes := Some ("Removed liquidity from bins: " +:+ bin_id_list) |}) ;;
       for_each positions (deactivate_removed account_address) tt ;;
       ret true
     else ret false)
    (ret false).

End Methods.

End Pool.

(** ** utils/wallet.py *)

Module Wallet.

Section Wallet.
Context {chain : Type} `{!Gateway chain}.

(* Returns the address, or Python's [None]. *)
Definition get_wallet_address (private_key : string) : M chain (option string) :=
  if bool_decide (private_key = "") then ret None
  else
    try_except
      (address <- call_from_key private_key ;; ret (Some address))
      (ret None).

End Wallet.

End Wallet.

(** ** auto_rebalance.py *)

Module AutoRebalance.

Import Config.

Definition CHECK_INTERVAL : Z := 120.
Definition DISTANCE_THRESHOLD : Z := 2.

Definition get_optimal_bin (pool : Pool.LiquidityPool) (active_id : Z) (token_type : string) : Z :=
  if bool_decide (token_type = "WAVAX") then active_id + 1
  else active_id - 1.

Definition breach_reason (bin distance active_id : Z) : string :=
  "Position in bin " +:+ Py.str bin +:+ " is " +:+ Py.str distance +:+
  " bins away from active bin " +:+ Py.str active_id.

(* The [for pos in positions] loop of [should_rebalance], with its
   [return] from inside the loop and the final [return] after it. *)
Fixpoint first_breach (positions : list Pool.Position) (active_id : Z) : bool * string :=
  match positions with
  | [] => (false, "All positions are within threshold distance")
  | pos :: rest =>
      let bin := Pool.bin_id pos in
      let distance := Z.abs (bin - active_id) in
      if DISTANCE_THRESHOLD <=? distance then (true, breach_reason bin distance active_id)
      else first_breach rest active_id
  end.

Definition should_rebalance (pool : Pool.LiquidityPool) (positions : list Pool.Position)
    (active_id : Z) : bool * string :=
  if negb (Py.nonempty positions) then (false, "No positions found")
  else first_breach positions active_id.

Section Executor.
Context {chain : Type} `{!Gateway chain}.

Definition AVAX_RESERVE : Q := 1 # 1000000.
Definition BTC_RESERVE : Q := 1 # 10000000000.

Definition rebalance_liquidity (pool : Pool.LiquidityPool) (private_key : string)
    (active_id : Z) : M chain bool :=
  account_address <- Wallet.get_wallet_address private_key ;;
  (* Step 1: Remove all liquidity *)
  success <- Pool.remove_all_liquidity pool private_key DEFAULT_BIN_SCAN_RANGE ;;
  if negb success then ret false else
  (* Step 2: Get token balances *)
  avax_balance <- Pool.get_balance WAVAX_ADDRESS account_address ;;
  btc_balance <- Pool.get_balance BTCB_ADDRESS account_address ;;
  let avax_to_add := Py.max0 (avax_balance - AVAX_RESERVE)%Q in
  let btc_to_add := Py.max0 (btc_balance - BTC_RESERVE)%Q in
  (* Step 3: Determine optimal bins *)
  let wavax_bin := get_optimal_bin pool active_id "WAVAX" in
  let btc_bin := get_optimal_bin pool active_id "BTC.b" in
  (* Step 4: Add liquidity to optimal bins *)
  let success_count := 0 in
  success_count <-
    (if Py.gt avax_to_add (1 # 100) then
       added <- Pool.add_liquidity pool wavax_bin avax_to_add 0 private_key ;;
       ret (if added then success_count + 1 else success_count)
     else ret success_count) ;;
  success_count <-
    (if Py.gt btc_to_add (1 # 10000) then
       added <- Pool.add_liquidity pool btc_bin 0 btc_to_add private_key ;;
       ret (if added then success_count + 1 else success_count)
     else ret success_count) ;;
  if 0 <? success_count then
    Pool.get_balance WAVAX_ADDRESS account_address ;;
    Pool.get_balance BTCB_ADDRESS account_address ;;
    ret true
  else ret false.

Definition add_initial_positions (pool : Pool.LiquidityPool) (private_key : string)
    : M chain bool :=
  account_address <- Wallet.get_wallet_address private_key ;;
  active_id <- Pool.get_active_bin ;;
  avax_balance <- Pool.get_balance WAVAX_ADDRESS account_address ;;
  btc_balance <- Pool.get_balance BTCB_ADDRESS account_address ;;
  if Py.lt avax_balance (1 # 100) && Py.lt btc_balance (1 # 10000) then ret false else
  let avax_to_add := Py.max0 (avax_balance - AVAX_RESERVE)%Q in
  let btc_to_add := Py.max0 (btc_balance - BTC_RESERVE)%Q in
  let wavax_bin := get_optimal_bin pool active_id "WAVAX" in
  let btc_bin := get_optimal_bin pool active_id "BTC.b" in
  let success_count := 0 in
  success_count <-
    (if Py.gt avax_to_add (1 # 100) then
       added <- Pool.add_liquidity pool wavax_bin avax_to_add 0 private_key ;;
       ret (if added then success_count + 1 else success_count)
     else ret success_count) ;;
  success_count <-
    (if Py.gt btc_to_add (1 # 10000) then
       added <- Pool.add_liquidity pool btc_bin 0 btc_to_add private_key ;;
       ret (if added then success_count + 1 else success_count)
     else ret success_count) ;;
  if 0 <? success_count then
    Pool.get_balance WAVAX_ADDRESS account_address ;;
    Pool.get_balance BTCB_ADDRESS account_address ;;
    ret true
  else ret false.

(* Lines 300-340 of [main]: one check of the monitoring loop, for the wallet
   address [main] derived from the key.  [get_all_lp_balances] is called with
   its default scan range, 50.  The [except] branch only prints. *)
Definition monitor_check (pool : Pool.LiquidityPool) (private_key account_address : string)
    : M chain unit :=
  try_except
    (active_id <- Pool.get_active_bin ;;
     positions <- Pool.get_all_lp_balances pool account_address 50 true ;;
     if Py.nonempty positions then
       let verdict := should_rebalance pool positions active_id in
       if fst verdict then
         rebalance_liquidity pool private_key active_id ;; ret tt
       else ret tt
     else
       avax_balance <- Pool.get_balance WAVAX_ADDRESS (Some account_address) ;;
       btc_balance <- Pool.get_balance BTCB_ADDRESS (Some account_address) ;;
       if Py.gt avax_balance (1 # 100) || Py.gt btc_balance (1 # 10000) then
         add_initial_positions pool private_key ;; ret tt
       else ret tt)
    (ret tt).

End Executor.

End AutoRebalance.

(** ** main.py : the interactive removal *)

Module Main.

(* Line 275 of [remove_all_liquidity_menu]: "Set scan range for
   remove_all_liquidity to be wide enough". *)
Definition removal_scan_range : Z := Z.max Config.DEFAULT_BIN_SCAN_RANGE 100.

Section Menu.
Context {chain : Type} `{!Gateway chain}.

(* Lines 274-278: the removal itself, once the user has confirmed. *)
Definition remove_all_confirmed (pool : Pool.LiquidityPool) (private_key : string)
    : M chain bool :=
  Pool.remove_all_liquidity pool private_key removal_scan_range.

End Menu.

End Main.

(** ** A small simulated chain, for running the engine on concrete inputs *)

Module Sim.

Record Chain := {
  active_bin : option Z;     (* [None]: the active-id read raises *)
  lp : list (Z * Z);         (* LP balance of the wallet per bin, 0 elsewhere *)
  down : list Z;             (* bins whose balance read raises *)
  no_reserves : list Z;      (* bins whose reserve read raises *)
  wavax : Z;                 (* WAVAX balance of the wallet, in wei *)
  btcb : Z;                  (* BTC.b balance of the wallet, in satoshi *)
  removal_status : Z         (* receipt status of a removeLiquidity *)
}.

Definition wallet : string := "0xA11CE".
Definition private_key : string := "0xkey".

Definition mem (bin : Z) (l : list Z) : bool := existsb (Z.eqb bin) l.

Definition lp_of (c : Chain) (bin : Z) : Z :=
  match find (fun e => fst e =? bin) (lp c) with
  | Some e => snd e
  | None => 0
  end.

Definition with_lp (c : Chain) (l : list (Z * Z)) : Chain :=
  {| active_bin := active_bin c; lp := l; down := down c;
     no_reserves := no_reserves c; wavax := wavax c; btcb := btcb c;
     removal_status := removal_status c |}.

Definition mined (st : Z) : option Receipt :=
  Some {| status := st; receipt_hash := "0xabc" |}.

Definition sim_transact (c : Chain) (sender key : string) (gas : Z) (tx : Tx)
    : option Receipt * Chain :=
  match tx with
  | TxRemoveLiquidity _ _ _ bins _ _ =>
      if removal_status c =? 1
      then (mined 1, with_lp c (List.filter (fun e => negb (mem (fst e) bins)) (lp c)))
      else (mined (removal_status c), c)
  | TxAddLiquidity _ _ bins xs ys _ _ =>
      (mined 1, with_lp c (combine bins (zip_with Z.add xs ys) ++ lp c))
  | TxApprove _ _ _ => (mined 1, c)
  | TxSetApprovalForAll _ => (mined 1, c)
  end.

#[global] Instance sim_gateway : Gateway Chain := {|
  from_key := fun k => if bool_decide (k = private_key) then Some wallet else None;
  getActiveId := active_bin;
  balanceOf := fun c w bin =>
    if mem bin (down c) then None
    else if bool_decide (w = wallet) then Some (lp_of c bin) else Some 0;
  getBin := fun c bin => if mem bin (no_reserves c) then None else Some (1000, 2000);
  tokenBalanceOf := fun c token w =>
    match w with
    | None => None
    | Some _ =>
        if bool_decide (token = Config.WAVAX_ADDRESS) then Some (wavax c)
        else Some (btcb c)
    end;
  allowance := fun _ _ _ _ => Some 0;
  latestTimestamp := fun _ => Some 1700000000;
  transact := sim_transact
|}.

Definition pool : Pool.LiquidityPool :=
  {| Pool.self_token_x := Config.WAVAX_ADDRESS;
     Pool.self_token_y := Config.BTCB_ADDRESS;
     Pool.is_wavax_x := true |}.

Definition chain0 (active : Z) (balances : list (Z * Z)) : Chain :=
  {| active_bin := Some active; lp := balances; down := []; no_reserves := [];
     wavax := 0; btcb := 0; removal_status := 1 |}.

(* As [chain0], with every removeLiquidity transaction reverting. *)
Definition reverting (active : Z) (balances : list (Z * Z)) : Chain :=
  {| active_bin := Some active; lp := balances; down := []; no_reserves := [];
     wavax := 0; btcb := 0; removal_status := 0 |}.

(* As [chain0], with a funded wallet. *)
Definition funded (active : Z) (balances : list (Z * Z)) (avax_wei btc_sat : Z) : Chain :=
  {| active_bin := Some active; lp := balances; down := []; no_reserves := [];
     wavax := avax_wei; btcb := btc_sat; removal_status := 1 |}.

Definition world (c : Chain) (s : Db.Store) : World Chain :=
  {| chain_state := c; store := s; trace := [] |}.

Definition row (bin : Z) (amt : Q) (act : bool) : Db.PositionRow :=
  {| Db.wallet_address := wallet; Db.bin_id := bin; Db.amount := amt;
     Db.token_x := Config.WAVAX_ADDRESS; Db.token_y := Config.BTCB_ADDRESS;
     Db.pool_address := Config.POOL_ADDRESS; Db.active := act |}.

Definition store_of (rows : list Db.PositionRow) : Db.Store :=
  {| Db.positions := rows; Db.operations := [] |}.

Definition position (bin : Z) : Pool.Position :=
  {| Pool.bin_id := bin; Pool.lp_balance := 5%Q;
     Pool.token_x := Config.WAVAX_ADDRESS; Pool.token_y := Config.BTCB_ADDRESS;
     Pool.reserve_x := 0; Pool.reserve_y := 0; Pool.distance_from_active := 0 |}.

End Sim.

(** ** Pure readings of the two resolution loops

    The functions below say, without the monad, what one iteration of each
    loop of [get_all_lp_balances] does for a fixed chain state.  They are
    related to the code by the lemmas [verify_db_position_run] and
    [scan_bin_run]. *)

(* Outcome of the live check of one bin: the two reads of the [try] block. *)
Inductive Probe :=
| Live (balance bin_x bin_y : Z)
| Gone
| Failed.

Section Resolution.
Context {chain : Type} `{!Gateway chain}.
Variable self : Pool.LiquidityPool.
Variable c : chain.
Variable wallet : string.

Definition probe (bin : Z) : Probe :=
  match balanceOf c wallet bin with
  | None => Failed
  | Some balance =>
      if 0 <? balance then
        match getBin c bin with
        | Some reserves => Live balance (fst reserves) (snd reserves)
        | None => Failed
        end
      else Gone
  end.

Definition probe_calls (bin : Z) : list Call :=
  CallBalanceOf wallet bin ::
  match balanceOf c wallet bin with
  | Some balance => if 0 <? balance then [CallGetBin bin] else []
  | None => []
  end.

Definition emit (active_id bin : Z) : list Pool.Position :=
  match probe bin with
  | Live balance x y => [Pool.mk_position self bin balance x y active_id]
  | _ => []
  end.

Definition is_live (bin : Z) : bool :=
  match probe bin with Live _ _ _ => true | _ => false end.

Definition changed (stored : Q) (balance : Z) : bool :=
  Py.gt (Qabs (stored - Py.from_units balance 18)) (1 # 1000000).

(* Effect of the database-first loop body on the row it visits. *)
Definition refresh_row (r : Db.PositionRow) : Db.PositionRow :=
  match probe (Db.bin_id r) with
  | Live balance _ _ =>
      if changed (Db.amount r) balance
      then Db.set_amount_active (Py.from_units balance 18) true r
      else r
  | Gone => Db.set_amount_active 0 false r
  | Failed => r
  end.

(* Effect of the database-first loop body on the store. *)
Definition refresh (s : Db.Store) (pos : nat * Db.PositionRow) : Db.Store :=
  match probe (Db.bin_id (snd pos)) with
  | Live balance _ _ =>
      if changed (Db.amount (snd pos)) balance
      then snd (Db.update_position s (fst pos) (Py.from_units balance 18) true)
      else s
  | Gone => snd (Db.deactivate_position s (fst pos))
  | Failed => s
  end.

(* Effect of the scan loop body on the store. *)
Definition discover (use_db_first : bool) (s : Db.Store) (bin : Z) : Db.Store :=
  match probe bin with
  | Live balance _ _ =>
      if use_db_first then
        match Db.get_position_by_bin s wallet bin Config.POOL_ADDRESS with
        | None => snd (Db.add_position s wallet bin (Py.from_units balance 18)
                         (Pool.self_token_x self) (Pool.self_token_y self)
                         Config.POOL_ADDRESS)
        | Some _ => s
        end
      else s
  | _ => s
  end.

(* The window of bins visited by the scan. *)
Definition scan_window (active_id scan_range : Z) : list Z :=
  Py.range (Z.max 0 (active_id - scan_range)) (active_id + scan_range + 1).

End Resolution.

(* The row the scan inserts for a bin it finds funded. *)
Definition found (self : Pool.LiquidityPool) (wallet : string) (bin balance : Z) : Db.PositionRow :=
  Db.new_row wallet bin (Py.from_units balance 18)
             (Pool.self_token_x self) (Pool.self_token_y self) Config.POOL_ADDRESS.

(* The active rows the database-first pass visits. *)
Definition stored (wallet : string) (s : Db.Store) : list (nat * Db.PositionRow) :=
  Db.get_active_positions s wallet (Some Config.POOL_ADDRESS).

(* The row the database-first pass leaves in place of [r]. *)
Definition refreshed {chain} `{!Gateway chain} (c : chain) (wallet : string)
    (r : Db.PositionRow) : Db.PositionRow :=
  if Db.is_active_for wallet (Some Config.POOL_ADDRESS) r then refresh_row c wallet r else r.

(* What one row contributes to the database-first pass. *)
Definition row_emits {chain} `{!Gateway chain} (self : Pool.LiquidityPool) (c : chain)
    (wallet : string) (active_id : Z) (r : Db.PositionRow) : list Pool.Position :=
  if Db.is_active_for wallet (Some Config.POOL_ADDRESS) r
  then emit self c wallet active_id (Db.bin_id r) else [].

(* What the database-first pass emits and the store it leaves. *)
Definition cached {chain} `{!Gateway chain} (self : Pool.LiquidityPool) (c : chain)
    (wallet : string) (active_id : Z) (s : Db.Store) : list Pool.Position :=
  flat_map (fun pos => emit self c wallet active_id (Db.bin_id (snd pos))) (stored wallet s).

Definition refresh_store {chain} `{!Gateway chain} (c : chain) (wallet : string)
    (s : Db.Store) : Db.Store :=
  {| Db.positions := map (refreshed c wallet) (Db.positions s);
     Db.operations := Db.operations s |}.

(* [get_all_lp_balances] as a function of the chain state and the store:
   its result ([None] when the active-id read raises) and the store it
   leaves.  Related to the code by [get_all_lp_balances_run]. *)
Definition resolved {chain} `{!Gateway chain} (self : Pool.LiquidityPool) (c : chain)
    (wallet : string) (scan_range : Z) (use_db_first : bool) (s : Db.Store)
    : option (list Pool.Position) * Db.Store :=
  match getActiveId c with
  | None => (None, s)
  | Some A =>
      let s1 := if use_db_first then refresh_store c wallet s else s in
      let found_in_db := if use_db_first then cached self c wallet A s else [] in
      if Py.nonempty found_in_db then (Some found_in_db, s1)
      else (Some (flat_map (emit self c wallet A) (scan_window A scan_range)),
            foldl (discover self c wallet use_db_first) s1 (scan_window A scan_range))
  end.

(* The store a failed [remove_all_liquidity] leaves: the one position
   resolution left, or the initial one when the key has no address. *)
Definition store_after_resolution {chain} `{!Gateway chain} (self : Pool.LiquidityPool)
    (key : string) (scan_range : Z) (w : World chain) : Db.Store :=
  match from_key key with
  | Some account => snd (resolved self (chain_state w) account scan_range true (store w))
  | None => store w
  end.

(* The world after some database writes and some logged calls. *)
Definition after {chain} (w : World chain) (s : Db.Store) (calls : list Call) : World chain :=
  {| chain_state := chain_state w; store := s; trace := trace w ++ calls |}.

(* The balance reads recorded in a log, in order. *)
Definition balance_checks (t : list Call) : list (string * Z) :=
  omap (fun e => match e with CallBalanceOf w b => Some (w, b) | _ => None end) t.

(* The add-liquidity transactions recorded in a log. *)
Definition is_add_liquidity (e : Call) : bool :=
  match e with
  | CallTransact _ _ (TxAddLiquidity _ _ _ _ _ _ _) => true
  | _ => false
  end.

Definition add_liquidity_calls (t : list Call) : list Call :=
  List.filter is_add_liquidity t.

(** ** The store invariant *)

(* For a given (wallet, pool, bin) at most one row has active = true. *)
Definition same_key (r1 r2 : Db.PositionRow) : Prop :=
  Db.wallet_address r1 = Db.wallet_address r2 /\
  Db.pool_address r1 = Db.pool_address r2 /\
  Db.bin_id r1 = Db.bin_id r2.

Definition one_active_per_bin (s : Db.Store) : Prop :=
  forall (i j : nat) (ri rj : Db.PositionRow),
    Db.positions s !! i = Some ri ->
    Db.positions s !! j = Some rj ->
    Db.active ri = true -> Db.active rj = true ->
    same_key ri rj -> i = j.

(** ** Relations between the world before and after a computation *)

(* [m] takes every world [w] to a world related to [w] by [R], whether it
   returns or raises. *)
Definition steps {chain A} (R : World chain -> World chain -> Prop) (m : M chain A) : Prop :=
  forall w, R w (snd (m w)).

Definition same_store {chain} (w w' : World chain) : Prop :=
  store w' = store w.

Definition keeps_invariant {chain} (w w' : World chain) : Prop :=
  one_active_per_bin (store w) -> one_active_per_bin (store w').

Definition no_add_liquidity {chain} (w w' : World chain) : Prop :=
  add_liquidity_calls (trace w') = add_liquidity_calls (trace w).

(** ** Further relations between worlds, and the engine's entry points *)

(* The transactions recorded in a log. *)
Definition is_transact (e : Call) : bool :=
  match e with
  | CallTransact _ _ _ => true
  | _ => false
  end.

Definition transactions (t : list Call) : list Call :=
  List.filter is_transact t.

(* Nothing was sent to the chain: its state is the same and the log holds
   no new transaction. *)
Definition sends_nothing {chain} (w w' : World chain) : Prop :=
  chain_state w' = chain_state w /\ transactions (trace w') = transactions (trace w).

(* The columns of a position row that no UPDATE of the source sets. *)
Definition same_columns (r r' : Db.PositionRow) : Prop :=
  Db.wallet_address r' = Db.wallet_address r /\
  Db.bin_id r' = Db.bin_id r /\
  Db.token_x r' = Db.token_x r /\
  Db.token_y r' = Db.token_y r /\
  Db.pool_address r' = Db.pool_address r.

(* The operation log of [s'] continues that of [s]. *)
Definition log_extends (s s' : Db.Store) : Prop :=
  exists extra, Db.operations s' = Db.operations s ++ extra.

(* Every row of [s] is still in [s'], under the same id and with the same
   wallet, bin, tokens and pool. *)
Definition rows_kept (s s' : Db.Store) : Prop :=
  forall i r, Db.positions s !! i = Some r ->
    exists r', Db.positions s' !! i = Some r' /\ same_columns r r'.

Definition store_grows {chain} (w w' : World chain) : Prop :=
  log_extends (store w) (store w') /\ rows_kept (store w) (store w').

(* The calls a user of the engine can make. *)
Inductive EngineOp :=
| OpResolve (wallet : string) (scan_range : Z) (use_db_first : bool)
| OpAddLiquidity (bin : Z) (avax_amount btc_amount : Q) (private_key : string)
| OpRemoveLiquidity (bin : Z) (liquidity_amount : Q) (private_key : string)
| OpRemoveAll (private_key : string) (scan_range : Z)
| OpRebalance (private_key : string) (active_id : Z)
| OpAddInitial (private_key : string)
| OpMonitorCheck (private_key account_address : string).

(* The world a call leaves, whether it returns or raises. *)
Definition world_after {chain} `{!Gateway chain} (pool : Pool.LiquidityPool)
    (op : EngineOp) (w : World chain) : World chain :=
  match op with
  | OpResolve wallet scan_range use_db_first =>
      snd (Pool.get_all_lp_balances pool wallet scan_range use_db_first w)
  | OpAddLiquidity bin avax_amount btc_amount private_key =>
      snd (Pool.add_liquidity pool bin avax_amount btc_amount private_key w)
  | OpRemoveLiquidity bin liquidity_amount private_key =>
      snd (Pool.remove_liquidity pool bin liquidity_amount private_key w)
  | OpRemoveAll private_key scan_range =>
      snd (Pool.remove_all_liquidity pool private_key scan_range w)
  | OpRebalance private_key active_id =>
      snd (AutoRebalance.rebalance_liquidity pool private_key active_id w)
  | OpAddInitial private_key =>
      snd (AutoRebalance.add_initial_positions pool private_key w)
  | OpMonitorCheck private_key account_address =>
      snd (AutoRebalance.monitor_check pool private_key account_address w)
  end.

(* What a successful add-liquidity leaves behind: one logged operation and
   a tracked row holding the live balance. *)
Definition add_recorded {chain} `{!Gateway chain} (bin : Z) (key : string)
    (w w' : World chain) : Prop :=
  exists account op balance id r,
    from_key key = Some account /\
    Db.operations (store w') = Db.operations (store w) ++ [op] /\
    Db.operation_type op = "add" /\
    Db.op_bin_id op = Some bin /\
    Db.op_wallet_address op = account /\
    balanceOf (chain_state w') account bin = Some balance /\
    Db.get_position_by_bin (store w') account bin Config.POOL_ADDRESS = Some (id, r) /\
    Db.amount r = Py.from_units balance 18.

(* What a successful remove-liquidity leaves behind: one logged operation,
   and the bin's row brought in line with the balance read after the
   transaction. *)
Definition remove_recorded {chain} `{!Gateway chain} (bin : Z) (key : string)
    (w w' : World chain) : Prop :=
  exists account op balance,
    from_key key = Some account /\
    Db.operations (store w') = Db.operations (store w) ++ [op] /\
    Db.operation_type op = "remove" /\
    Db.op_bin_id op = Some bin /\
    Db.op_wallet_address op = account /\
    balanceOf (chain_state w') account bin = Some balance /\
    (0 < balance ->
     forall id r,
       Db.get_position_by_bin (store w) account bin Config.POOL_ADDRESS = Some (id, r) ->
       Db.get_position_by_bin (store w') account bin Config.POOL_ADDRESS =
         Some (id, Db.set_amount_active (Py.from_units balance 18) true r)) /\
    (balance <= 0 ->
     one_active_per_bin (store w) ->
     Db.get_position_by_bin (store w') account bin Config.POOL_ADDRESS = None) /\
    (Db.get_position_by_bin (store w) account bin Config.POOL_ADDRESS = None ->
     Db.positions (store w') = Db.positions (store w)).

(* Effect on the store of one iteration of the loop that marks removed
   positions inactive (lines 605-608 of remove_all_liquidity). *)
Definition untrack (account : string) (s : Db.Store) (bin : Z) : Db.Store :=
  match Db.get_position_by_bin s account bin Config.POOL_ADDRESS with
  | Some p => snd (Db.deactivate_position s (fst p))
  | None => s
  end.

(* The worlds the engine can be in: it starts on an empty database, makes
   calls, and the chain may move on its own between calls. *)
Inductive reachable {chain} `{!Gateway chain} (pool : Pool.LiquidityPool)
    : World chain -> Prop :=
| reach_fresh (c : chain) (t : list Call) :
    reachable pool {| chain_state := c; store := Db.empty; trace := t |}
| reach_call (op : EngineOp) (w : World chain) :
    reachable pool w -> reachable pool (world_after pool op w)
| reach_chain (c : chain) (w : World chain) :
    reachable pool w ->
    reachable pool {| chain_state := c; store := store w; trace := trace w |}.

(** * Properties *)

(** ** Running the monad *)

Section Run.
Context {chain : Type} `{!Gateway chain}.

Lemma bind_ok {A B} (m : M chain A) (k : A -> M chain B) w a w' :
  m w = (Some a, w') -> bind m k w = k a w'.
Proof. unfold bind. now intros ->. Qed.

Lemma bind_raise {A B} (m : M chain A) (k : A -> M chain B) w w' :
  m w = (None, w') -> bind m k w = (None, w').
Proof. unfold bind. now intros ->. Qed.

Lemma try_ok {A} (m h : M chain A) w a w' :
  m w = (Some a, w') -> try_except m h w = (Some a, w').
Proof. unfold try_except. now intros ->. Qed.

Lemma try_raise {A} (m h : M chain A) w w' :
  m w = (None, w') -> try_except m h w = h w'.
Proof. unfold try_except. now intros ->. Qed.

End Run.

(** ** The resolution loops, iteration by iteration *)

Section Loops.
Context {chain : Type} `{!Gateway chain}.
Variable self : Pool.LiquidityPool.
Variable wallet : string.

Lemma verify_db_position_run active_id positions pos w :
  Pool.verify_db_position self wallet active_id positions pos w =
  (Some (positions ++ emit self (chain_state w) wallet active_id (Db.bin_id (snd pos))),
   after w (refresh (chain_state w) wallet (store w) pos)
           (probe_calls (chain_state w) wallet (Db.bin_id (snd pos)))).
Proof.
  destruct w as [c s t].
  unfold Pool.verify_db_position, emit, refresh, probe_calls, probe, after, changed,
    try_except, bind, call_balanceOf, call_getBin, read, db, ret, log; simpl.
  destruct (balanceOf c wallet (Db.bin_id (snd pos))) as [balance|]; simpl.
  - destruct (0 <? balance); simpl.
    + destruct (getBin c (Db.bin_id (snd pos))) as [[x y]|]; simpl.
      * destruct (Py.gt _ _); simpl; rewrite <- ?app_assoc; reflexivity.
      * rewrite <- app_assoc, app_nil_r. reflexivity.
    + rewrite app_nil_r. reflexivity.
  - rewrite app_nil_r. reflexivity.
Qed.

Lemma scan_bin_run use_db_first active_id positions bin w :
  Pool.scan_bin self wallet use_db_first active_id positions bin w =
  (Some (positions ++ emit self (chain_state w) wallet active_id bin),
   after w (discover self (chain_state w) wallet use_db_first (store w) bin)
           (probe_calls (chain_state w) wallet bin)).
Proof.
  destruct w as [c s t].
  unfold Pool.scan_bin, emit, discover, probe_calls, probe, after,
    try_except, bind, call_balanceOf, call_getBin, read, db_query, db, ret, log; simpl.
  destruct (balanceOf c wallet bin) as [balance|]; simpl.
  - destruct (0 <? balance); simpl.
    + destruct (getBin c bin) as [[x y]|]; simpl.
      * destruct use_db_first; simpl; rewrite <- ?app_assoc; [|reflexivity].
        destruct (Db.get_position_by_bin s wallet bin Config.POOL_ADDRESS); reflexivity.
      * rewrite <- app_assoc, app_nil_r. reflexivity.
    + rewrite app_nil_r. reflexivity.
  - rewrite app_nil_r. reflexivity.
Qed.

Lemma after_after (w : World chain) s1 t1 s2 t2 :
  after (after w s1 t1) s2 t2 = after w s2 (t1 ++ t2).
Proof. unfold after. simpl. now rewrite app_assoc. Qed.

Lemma verify_loop_run active_id (l : list (nat * Db.PositionRow)) positions w :
  for_each l (Pool.verify_db_position self wallet active_id) positions w =
  (Some (positions ++
         flat_map (fun pos => emit self (chain_state w) wallet active_id (Db.bin_id (snd pos))) l),
   after w (foldl (refresh (chain_state w) wallet) (store w) l)
           (flat_map (fun pos => probe_calls (chain_state w) wallet (Db.bin_id (snd pos))) l)).
Proof.
  revert positions w. induction l as [|pos l IH]; intros positions w; simpl.
  - unfold ret, after. rewrite !app_nil_r. now destruct w.
  - erewrite bind_ok by apply verify_db_position_run.
    rewrite IH. simpl. rewrite after_after, <- app_assoc. reflexivity.
Qed.

Lemma scan_loop_run use_db_first active_id (l : list Z) positions w :
  for_each l (Pool.scan_bin self wallet use_db_first active_id) positions w =
  (Some (positions ++ flat_map (emit self (chain_state w) wallet active_id) l),
   after w (foldl (discover self (chain_state w) wallet use_db_first) (store w) l)
           (flat_map (probe_calls (chain_state w) wallet) l)).
Proof.
  revert positions w. induction l as [|bin l IH]; intros positions w; simpl.
  - unfold ret, after. rewrite !app_nil_r. now destruct w.
  - erewrite bind_ok by apply scan_bin_run.
    rewrite IH. simpl. rewrite after_after, <- app_assoc. reflexivity.
Qed.

End Loops.
(** ** The two passes of [get_all_lp_balances] *)

Section Passes.
Context {chain : Type} `{!Gateway chain}.
Variable self : Pool.LiquidityPool.
Variable wallet : string.

Lemma scan_blockchain_raise scan_range use_db_first positions (w : World chain) :
  getActiveId (chain_state w) = None ->
  Pool.scan_blockchain self wallet scan_range use_db_first positions w =
  (None, after w (store w) [CallActiveId]).
Proof.
  intros HA. unfold Pool.scan_blockchain, Pool.get_active_bin, call_getActiveId, read, bind.
  now rewrite HA.
Qed.

Lemma scan_blockchain_run scan_range use_db_first positions (w : World chain) A :
  getActiveId (chain_state w) = Some A ->
  Pool.scan_blockchain self wallet scan_range use_db_first positions w =
  (Some (positions ++ flat_map (emit self (chain_state w) wallet A) (scan_window A scan_range)),
   after w (foldl (discover self (chain_state w) wallet use_db_first) (store w)
                  (scan_window A scan_range))
           (CallActiveId :: flat_map (probe_calls (chain_state w) wallet)
                                     (scan_window A scan_range))).
Proof.
  intros HA. unfold Pool.scan_blockchain, Pool.get_active_bin, call_getActiveId, read, bind.
  rewrite HA. rewrite scan_loop_run. unfold after, log, scan_window. simpl.
  now rewrite <- app_assoc.
Qed.

Lemma verify_db_positions_none (w : World chain) :
  stored wallet (store w) = [] ->
  Pool.verify_db_positions self wallet w = (Some [], w).
Proof.
  intros Hs. unfold Pool.verify_db_positions, db_query, db, bind, ret. simpl.
  unfold stored in Hs. rewrite Hs. now destruct w.
Qed.

Lemma verify_db_positions_raise (w : World chain) :
  stored wallet (store w) <> [] ->
  getActiveId (chain_state w) = None ->
  Pool.verify_db_positions self wallet w = (None, after w (store w) [CallActiveId]).
Proof.
  intros Hs HA. unfold Pool.verify_db_positions, db_query, db, bind, ret. simpl.
  unfold stored in Hs.
  destruct (Db.get_active_positions (store w) wallet (Some Config.POOL_ADDRESS)) as [|pos l];
    [congruence|].
  simpl. unfold Pool.get_active_bin, call_getActiveId, read. simpl. now rewrite HA.
Qed.

Lemma verify_db_positions_run (w : World chain) A :
  stored wallet (store w) <> [] ->
  getActiveId (chain_state w) = Some A ->
  Pool.verify_db_positions self wallet w =
  (Some (flat_map (fun pos => emit self (chain_state w) wallet A (Db.bin_id (snd pos)))
                  (stored wallet (store w))),
   after w (foldl (refresh (chain_state w) wallet) (store w) (stored wallet (store w)))
           (CallActiveId ::
            flat_map (fun pos => probe_calls (chain_state w) wallet (Db.bin_id (snd pos)))
                     (stored wallet (store w)))).
Proof.
  intros Hs HA. unfold Pool.verify_db_positions, db_query, db, bind, ret. simpl.
  unfold stored in *.
  destruct (Db.get_active_positions (store w) wallet (Some Config.POOL_ADDRESS)) as [|pos l] eqn:E;
    [congruence|].
  cbn [Py.nonempty]. unfold Pool.get_active_bin, call_getActiveId, read. cbn [chain_state].
  rewrite HA. rewrite verify_loop_run. unfold after, log. simpl.
  now rewrite <- !app_assoc.
Qed.

End Passes.

(** ** The store as a list of numbered rows *)

Lemma with_ids_In n rows id r :
  In (id, r) (Db.with_ids n rows) <-> (n <= id)%nat /\ rows !! (id - n)%nat = Some r.
Proof.
  revert n. induction rows as [|r0 rows IH]; intros n; simpl.
  - split; [tauto | intros [_ Hl]; discriminate].
  - rewrite IH. split.
    + intros [Heq | [Hle Hl]].
      * inversion Heq; subst. split; [lia|]. now rewrite Nat.sub_diag.
      * split; [lia|]. replace (id - n)%nat with (S (id - S n)) by lia. exact Hl.
    + intros [Hle Hl]. destruct (id - n)%nat as [|k] eqn:Ek.
      * left. simpl in Hl. inversion Hl; subst. f_equal. lia.
      * right. split; [lia|]. simpl in Hl. replace (id - S n)%nat with k by lia. exact Hl.
Qed.


Section RefreshFold.
Context {chain : Type} `{!Gateway chain}.
Variable c : chain.
Variable wallet : string.

Lemma update_rows_at done r todo amt act :
  Db.update_rows (S (length done)) amt act (done ++ r :: todo) =
  done ++ Db.set_amount_active amt act r :: todo.
Proof.
  unfold Db.update_rows.
  replace (length done) with (length done + 0)%nat by lia.
  now rewrite alter_app_r.
Qed.

Lemma refresh_at done r todo ops :
  Db.is_active_for wallet (Some Config.POOL_ADDRESS) r = true ->
  refresh c wallet {| Db.positions := done ++ r :: todo; Db.operations := ops |}
          (S (length done), r) =
  {| Db.positions := done ++ refreshed c wallet r :: todo; Db.operations := ops |}.
Proof.
  intros Hact. unfold refresh, refreshed, refresh_row, Db.deactivate_position, Db.update_position.
  rewrite Hact. cbn [fst snd Db.positions Db.operations].
  destruct (probe c wallet (Db.bin_id r)) as [balance x y| |].
  - destruct (changed (Db.amount r) balance); [|reflexivity].
    now rewrite update_rows_at.
  - now rewrite update_rows_at.
  - reflexivity.
Qed.

Lemma refresh_fold done todo ops :
  foldl (refresh c wallet) {| Db.positions := done ++ todo; Db.operations := ops |}
        (List.filter (fun ir => Db.is_active_for wallet (Some Config.POOL_ADDRESS) (snd ir))
                     (Db.with_ids (S (length done)) todo)) =
  {| Db.positions := done ++ map (refreshed c wallet) todo; Db.operations := ops |}.
Proof.
  revert done. induction todo as [|r todo IH]; intros done; simpl; [reflexivity|].
  destruct (Db.is_active_for wallet (Some Config.POOL_ADDRESS) r) eqn:Hact; simpl.
  - rewrite refresh_at by exact Hact.
    specialize (IH (done ++ [refreshed c wallet r])).
    rewrite length_app, <- !app_assoc in IH. simpl in IH.
    replace (length done + 1)%nat with (S (length done)) in IH by lia.
    exact IH.
  - specialize (IH (done ++ [r])).
    rewrite length_app, <- !app_assoc in IH. simpl in IH.
    replace (length done + 1)%nat with (S (length done)) in IH by lia.
    assert (refreshed c wallet r = r) as -> by (unfold refreshed; now rewrite Hact).
    exact IH.
Qed.

(* The database-first loop rewrites each visited row in place. *)
Lemma refresh_all s :
  foldl (refresh c wallet) s (stored wallet s) =
  {| Db.positions := map (refreshed c wallet) (Db.positions s);
     Db.operations := Db.operations s |}.
Proof.
  destruct s as [rows ops]. unfold stored, Db.get_active_positions. simpl.
  exact (refresh_fold [] rows ops).
Qed.

End RefreshFold.

(** ** The log of balance reads *)

Lemma balance_checks_app t1 t2 :
  balance_checks (t1 ++ t2) = balance_checks t1 ++ balance_checks t2.
Proof. apply omap_app. Qed.

Lemma balance_checks_probe_calls {chain : Type} `{!Gateway chain} (c : chain) wallet (l : list Z) :
  balance_checks (flat_map (probe_calls c wallet) l) = map (pair wallet) l.
Proof.
  induction l as [|bin l IH]; [reflexivity|].
  cbn [flat_map]. rewrite balance_checks_app, IH.
  unfold probe_calls. destruct (balanceOf c wallet bin) as [b|]; [destruct (0 <? b)|]; reflexivity.
Qed.

Lemma balance_checks_In t wallet bin :
  In (wallet, bin) (balance_checks t) -> In (CallBalanceOf wallet bin) t.
Proof.
  unfold balance_checks. rewrite <- !list_elem_of_In, list_elem_of_omap.
  intros (e & He & Hf). destruct e; try discriminate. now inversion Hf; subst.
Qed.

Lemma range_In a b x : In x (Py.range a b) <-> a <= x < b.
Proof.
  unfold Py.range. rewrite List.in_map_iff. split.
  - intros (i & <- & Hi). apply List.in_seq in Hi. lia.
  - intros Hx. exists (Z.to_nat (x - a)). split; [lia|]. apply List.in_seq. lia.
Qed.

(** C5 (as amended): the full scan reads the balance of every bin from
    [max(0, A - w)] to [A + w], each once and in ascending order, whatever
    the reads answer; so every non-negative bin of the window around the
    active bin is checked, and no other. *)
Theorem scan_blockchain_balance_checks {chain : Type} `{!Gateway chain}
    (self : Pool.LiquidityPool) (wallet : string) (scan_range : Z) (use_db_first : bool)
    (positions : list Pool.Position) (w : World chain) (A : Z) :
  getActiveId (chain_state w) = Some A ->
  let w' := snd (Pool.scan_blockchain self wallet scan_range use_db_first positions w) in
  balance_checks (trace w') =
    balance_checks (trace w) ++
    map (pair wallet) (Py.range (Z.max 0 (A - scan_range)) (A + scan_range + 1)) /\
  (forall bin, Z.max 0 (A - scan_range) <= bin <= A + scan_range ->
     In (CallBalanceOf wallet bin) (trace w')).
Proof.
  intros HA w'.
  assert (Hchecks : balance_checks (trace w') =
    balance_checks (trace w) ++
    map (pair wallet) (Py.range (Z.max 0 (A - scan_range)) (A + scan_range + 1))).
  { subst w'. rewrite (scan_blockchain_run self wallet scan_range use_db_first positions w A HA).
    simpl. rewrite balance_checks_app. f_equal.
    change (balance_checks (CallActiveId :: ?t)) with (balance_checks t).
    apply balance_checks_probe_calls. }
  split; [exact Hchecks|].
  intros bin Hbin. apply balance_checks_In. rewrite Hchecks.
  apply List.in_or_app. right. apply List.in_map. apply range_In. lia.
Qed.

Lemma scan_blockchain_balance_checks_witness :
  let w' := snd (Pool.scan_blockchain Sim.pool Sim.wallet 10 true []
                   (Sim.world (Sim.chain0 5 [(7, 3)]) Db.empty)) in
  balance_checks (trace w') =
    map (pair Sim.wallet) (Py.range (Z.max 0 (5 - 10)) (5 + 10 + 1)) /\
  (forall bin, Z.max 0 (5 - 10) <= bin <= 5 + 10 ->
     In (CallBalanceOf Sim.wallet bin) (trace w')).
Proof.
  apply (scan_blockchain_balance_checks Sim.pool Sim.wallet 10 true []
           (Sim.world (Sim.chain0 5 [(7, 3)]) Db.empty) 5).
  reflexivity.
Defined.

(* C5 as stated fails: below bin 0 the window is cut. *)
Lemma scan_window_cut_at_zero :
  ~ (forall bin, 5 - 10 <= bin <= 5 + 10 ->
       In (CallBalanceOf Sim.wallet bin)
          (trace (snd (Pool.scan_blockchain Sim.pool Sim.wallet 10 true []
                         (Sim.world (Sim.chain0 5 [(7, 3)]) Db.empty))))).
Proof.
  intros Hall. specialize (Hall (-1) ltac:(lia)).
  vm_compute in Hall.
  repeat (destruct Hall as [Hall|Hall]; [discriminate Hall|]).
  exact Hall.
Qed.

(** ** The database-first pass, row by row *)




(** ** Looking a bin up in the store *)

Lemma with_ids_app n l1 l2 :
  Db.with_ids n (l1 ++ l2) = Db.with_ids n l1 ++ Db.with_ids (n + length l1) l2.
Proof.
  revert n. induction l1 as [|r l1 IH]; intros n; simpl.
  - now rewrite Nat.add_0_r.
  - rewrite IH. do 3 f_equal. lia.
Qed.

Lemma head_filter_None {A} (P : A -> bool) (l : list A) :
  head (List.filter P l) = None <-> forall x, In x l -> P x = false.
Proof.
  induction l as [|x l IH]; simpl.
  - split; [intros _ y [] | reflexivity].
  - destruct (P x) eqn:HP; simpl.
    + split; [discriminate|]. intros Hall. specialize (Hall x (or_introl eq_refl)). congruence.
    + rewrite IH. split.
      * intros Hall y [<-|Hy]; auto.
      * intros Hall y Hy. apply Hall. now right.
Qed.

Lemma head_filter_app {A} (P : A -> bool) (l1 l2 : list A) :
  head (List.filter P (l1 ++ l2)) =
  match head (List.filter P l1) with
  | Some x => Some x
  | None => head (List.filter P l2)
  end.
Proof.
  rewrite List.filter_app. destruct (List.filter P l1); reflexivity.
Qed.

Lemma get_position_by_bin_None s wallet bin pool :
  Db.get_position_by_bin s wallet bin pool = None <->
  forall r, In r (Db.positions s) -> Db.is_active_at wallet bin pool r = false.
Proof.
  unfold Db.get_position_by_bin. rewrite head_filter_None. split.
  - intros Hall r Hr. apply list_elem_of_In, list_elem_of_lookup in Hr. destruct Hr as [i Hi].
    apply (Hall (S i, r)). apply with_ids_In. split; [lia|].
    now replace (S i - 1)%nat with i by lia.
  - intros Hall [id r] Hin. apply with_ids_In in Hin. destruct Hin as [_ Hl].
    apply Hall. apply list_elem_of_In, list_elem_of_lookup. eauto.
Qed.

Lemma get_position_by_bin_Some s wallet bin pool id r :
  Db.get_position_by_bin s wallet bin pool = Some (id, r) ->
  (1 <= id)%nat /\ Db.positions s !! (id - 1)%nat = Some r /\
  Db.is_active_at wallet bin pool r = true.
Proof.
  unfold Db.get_position_by_bin. intros Hh.
  assert (Hin : In (id, r) (List.filter (fun ir => Db.is_active_at wallet bin pool (snd ir))
                              (Db.with_ids 1 (Db.positions s)))).
  { destruct (List.filter _ _) as [|p l]; [discriminate|]. inversion Hh; subst. now left. }
  apply List.filter_In in Hin. destruct Hin as [Hin HP]. apply with_ids_In in Hin. tauto.
Qed.

Lemma get_position_by_bin_app rows extra ops wallet bin pool :
  Db.get_position_by_bin {| Db.positions := rows ++ extra; Db.operations := ops |} wallet bin pool =
  match Db.get_position_by_bin {| Db.positions := rows; Db.operations := ops |} wallet bin pool with
  | Some p => Some p
  | None => head (List.filter (fun ir => Db.is_active_at wallet bin pool (snd ir))
                              (Db.with_ids (S (length rows)) extra))
  end.
Proof.
  unfold Db.get_position_by_bin. cbn [Db.positions].
  now rewrite with_ids_app, head_filter_app.
Qed.

Lemma is_active_at_new_row wallet bin amt tx ty pool bin' :
  Db.is_active_at wallet bin' pool (Db.new_row wallet bin amt tx ty pool) = (bin =? bin').
Proof.
  unfold Db.is_active_at, Db.new_row.
  cbn [Db.wallet_address Db.bin_id Db.pool_address Db.active].
  rewrite (bool_decide_eq_true_2 (wallet = wallet)) by reflexivity.
  rewrite (bool_decide_eq_true_2 (pool = pool)) by reflexivity.
  now rewrite !andb_true_r.
Qed.

(** ** The scan pass, bin by bin *)

Section Discover.
Context {chain : Type} `{!Gateway chain}.
Variable self : Pool.LiquidityPool.
Variable c : chain.
Variable wallet : string.

(* The scan only ever appends rows, and only for bins it visits. *)
Lemma discover_appends use_db_first s bin :
  exists extra,
    discover self c wallet use_db_first s bin =
      {| Db.positions := Db.positions s ++ extra; Db.operations := Db.operations s |} /\
    Forall (fun r => Db.bin_id r = bin) extra.
Proof.
  unfold discover. destruct s as [rows ops]. cbn [Db.positions Db.operations].
  destruct (probe c wallet bin) as [balance x y| |];
    try (exists []; rewrite app_nil_r; split; [reflexivity | constructor]).
  destruct use_db_first;
    [|exists []; rewrite app_nil_r; split; [reflexivity | constructor]].
  destruct (Db.get_position_by_bin _ wallet bin Config.POOL_ADDRESS);
    [exists []; rewrite app_nil_r; split; [reflexivity | constructor]|].
  eexists. split; [reflexivity|]. repeat constructor.
Qed.

Lemma discover_fold_appends use_db_first (l : list Z) s :
  exists extra,
    foldl (discover self c wallet use_db_first) s l =
      {| Db.positions := Db.positions s ++ extra; Db.operations := Db.operations s |} /\
    Forall (fun r => In (Db.bin_id r) l) extra.
Proof.
  revert s. induction l as [|bin l IH]; intros s.
  - exists []. rewrite app_nil_r. destruct s. split; [reflexivity | constructor].
  - cbn [foldl]. destruct (discover_appends use_db_first s bin) as (e1 & -> & H1).
    destruct (IH {| Db.positions := Db.positions s ++ e1; Db.operations := Db.operations s |})
      as (e2 & -> & H2).
    cbn [Db.positions Db.operations]. exists (e1 ++ e2). rewrite app_assoc. split; [reflexivity|].
    apply Forall_app. split.
    + eapply Forall_impl; [exact H1|]. intros r <-. now left.
    + eapply Forall_impl; [exact H2|]. intros r Hr. now right.
Qed.

Lemma untracked_after_others (l : list Z) s bin use_db_first :
  ~ In bin l ->
  Db.get_position_by_bin s wallet bin Config.POOL_ADDRESS = None ->
  Db.get_position_by_bin (foldl (discover self c wallet use_db_first) s l)
     wallet bin Config.POOL_ADDRESS = None.
Proof.
  intros Hnotin Hnone.
  destruct (discover_fold_appends use_db_first l s) as (extra & -> & Hextra).
  rewrite get_position_by_bin_app.
  destruct s as [rows ops]. cbn [Db.positions Db.operations]. rewrite Hnone.
  apply head_filter_None. intros [id r] Hin. apply with_ids_In in Hin. destruct Hin as [_ Hl].
  cbn [snd]. rewrite Forall_forall in Hextra.
  assert (Hr : In (Db.bin_id r) l).
  { apply Hextra. apply list_elem_of_lookup. eauto. }
  unfold Db.is_active_at.
  destruct (Z.eqb_spec (Db.bin_id r) bin) as [Heq|Hne]; [congruence|].
  now rewrite andb_false_r.
Qed.

Lemma tracked_stays (l : list Z) s bin use_db_first p :
  Db.get_position_by_bin s wallet bin Config.POOL_ADDRESS = Some p ->
  Db.get_position_by_bin (foldl (discover self c wallet use_db_first) s l)
     wallet bin Config.POOL_ADDRESS = Some p.
Proof.
  intros Hsome.
  destruct (discover_fold_appends use_db_first l s) as (extra & -> & _).
  rewrite get_position_by_bin_app.
  destruct s as [rows ops]. cbn [Db.positions Db.operations]. now rewrite Hsome.
Qed.

Lemma discover_new s bin balance x y :
  probe c wallet bin = Live balance x y ->
  Db.get_position_by_bin s wallet bin Config.POOL_ADDRESS = None ->
  discover self c wallet true s bin =
    {| Db.positions := Db.positions s ++ [found self wallet bin balance];
       Db.operations := Db.operations s |} /\
  Db.get_position_by_bin (discover self c wallet true s bin) wallet bin Config.POOL_ADDRESS =
    Some (S (length (Db.positions s)), found self wallet bin balance).
Proof.
  intros Hlive Hnone. unfold discover. rewrite Hlive, Hnone.
  unfold Db.add_position. cbn [snd]. split; [reflexivity|].
  rewrite get_position_by_bin_app. destruct s as [rows ops]. cbn [Db.positions Db.operations].
  rewrite Hnone. cbn [Db.with_ids List.filter snd]. unfold found.
  rewrite is_active_at_new_row, Z.eqb_refl. reflexivity.
Qed.

End Discover.

Lemma seq_offsets (a : Z) (k m : nat) :
  map (fun i : nat => a + Z.of_nat i) (seq k m) =
  map (fun i : nat => a + Z.of_nat k + Z.of_nat i) (seq 0 m).
Proof.
  revert a k. induction m as [|m IH]; intros a k; [reflexivity|].
  cbn [seq map]. f_equal; [lia|].
  rewrite (IH a (S k)), (IH (a + Z.of_nat k) 1%nat). apply List.map_ext. intros i. lia.
Qed.

Lemma range_split a b x :
  a <= x < b -> Py.range a b = Py.range a x ++ x :: Py.range (x + 1) b.
Proof.
  intros Hx. unfold Py.range.
  replace (Z.to_nat (b - a)) with (Z.to_nat (x - a) + S (Z.to_nat (b - (x + 1))))%nat by lia.
  rewrite List.seq_app, List.map_app. f_equal.
  cbn [seq map]. f_equal; [lia|].
  rewrite seq_offsets. apply List.map_ext. intros i. lia.
Qed.

Lemma discover_off {chain : Type} `{!Gateway chain} self (c : chain) wallet (l : list Z) s :
  foldl (discover self c wallet false) s l = s.
Proof.
  induction l as [|bin l IH]; [reflexivity|].
  cbn [foldl]. replace (discover self c wallet false s bin) with s; [exact IH|].
  unfold discover. now destruct (probe c wallet bin).
Qed.

(* A scan that was asked not to use the database leaves the store alone. *)
Lemma scan_without_db_keeps_store {chain : Type} `{!Gateway chain}
    self wallet scan_range positions (w : World chain) :
  store (snd (Pool.scan_blockchain self wallet scan_range false positions w)) = store w.
Proof.
  destruct (getActiveId (chain_state w)) as [A|] eqn:HA.
  - rewrite (scan_blockchain_run self wallet scan_range false positions w A HA).
    cbn [snd after store]. apply discover_off.
  - now rewrite (scan_blockchain_raise self wallet scan_range false positions w HA).
Qed.

(** C6 (as amended): in a scan run with [use_db_first] set, every bin of the
    scanned window whose balance read is positive and whose reserves are
    read, and which has no active row in the store, gets a new active row
    holding the live balance, and that row is what a later lookup of the bin
    finds. *)
Theorem scan_blockchain_upserts_untracked {chain : Type} `{!Gateway chain}
    (self : Pool.LiquidityPool) (wallet : string) (scan_range : Z)
    (positions : list Pool.Position) (w : World chain) (A bin balance x y : Z) :
  getActiveId (chain_state w) = Some A ->
  Z.max 0 (A - scan_range) <= bin <= A + scan_range ->
  balanceOf (chain_state w) wallet bin = Some balance ->
  0 < balance ->
  getBin (chain_state w) bin = Some (x, y) ->
  Db.get_position_by_bin (store w) wallet bin Config.POOL_ADDRESS = None ->
  let w' := snd (Pool.scan_blockchain self wallet scan_range true positions w) in
  exists id,
    (length (Db.positions (store w)) < id)%nat /\
    Db.get_position_by_bin (store w') wallet bin Config.POOL_ADDRESS =
      Some (id, {| Db.wallet_address := wallet;
                   Db.bin_id := bin;
                   Db.amount := Py.from_units balance 18;
                   Db.token_x := Pool.self_token_x self;
                   Db.token_y := Pool.self_token_y self;
                   Db.pool_address := Config.POOL_ADDRESS;
                   Db.active := true |}).
Proof.
  intros HA Hbin Hbal Hpos Hres Hnone w'. subst w'.
  rewrite (scan_blockchain_run self wallet scan_range true positions w A HA).
  cbn [snd after store]. unfold scan_window.
  rewrite (range_split _ _ bin) by lia.
  rewrite foldl_app. cbn [foldl].
  set (c := chain_state w).
  set (s1 := foldl (discover self c wallet true) (store w) _).
  assert (Hlive : probe c wallet bin = Live balance x y).
  { unfold probe. subst c. rewrite Hbal. destruct (Z.ltb_spec 0 balance); [|lia]. now rewrite Hres. }
  assert (Hnone1 : Db.get_position_by_bin s1 wallet bin Config.POOL_ADDRESS = None).
  { apply untracked_after_others; [|exact Hnone]. rewrite range_In. lia. }
  destruct (discover_new self c wallet s1 bin balance x y Hlive Hnone1) as [_ Hfound].
  exists (S (length (Db.positions s1))). split.
  - destruct (discover_fold_appends self c wallet true
                (Py.range (Z.max 0 (A - scan_range)) bin) (store w)) as (extra & Hs1 & _).
    fold s1 in Hs1. rewrite Hs1. cbn [Db.positions]. rewrite length_app. lia.
  - apply tracked_stays. exact Hfound.
Qed.

Lemma scan_blockchain_upserts_untracked_witness :
  let w := Sim.world (Sim.chain0 100 [(101, 7000000000000000000)]) Db.empty in
  exists id,
    (0 < id)%nat /\
    Db.get_position_by_bin
      (store (snd (Pool.scan_blockchain Sim.pool Sim.wallet 10 true [] w)))
      Sim.wallet 101 Config.POOL_ADDRESS =
    Some (id, Sim.row 101 (Py.from_units 7000000000000000000 18) true).
Proof.
  intros w.
  apply (scan_blockchain_upserts_untracked Sim.pool Sim.wallet 10 [] w
           100 101 7000000000000000000 1000 2000);
    [reflexivity | lia | reflexivity | lia | reflexivity | reflexivity].
Defined.

(* C6 as stated fails: a scan run with [use_db_first] unset reads bin 101,
   finds it funded and untracked, and writes nothing. *)
Lemma scan_without_db_does_not_upsert :
  let w := Sim.world (Sim.chain0 100 [(101, 7000000000000000000)]) Db.empty in
  let w' := snd (Pool.get_all_lp_balances Sim.pool Sim.wallet 10 false w) in
  In (CallBalanceOf Sim.wallet 101) (trace w') /\
  balanceOf (chain_state w) Sim.wallet 101 = Some 7000000000000000000 /\
  Db.get_position_by_bin (store w) Sim.wallet 101 Config.POOL_ADDRESS = None /\
  Db.get_position_by_bin (store w') Sim.wallet 101 Config.POOL_ADDRESS = None /\
  store w' = store w.
Proof.
  vm_compute. repeat split. do 12 right. now left.
Qed.

(** ** [get_all_lp_balances] as a function of chain and store *)

Section Resolved.
Context {chain : Type} `{!Gateway chain}.
Variable self : Pool.LiquidityPool.
Variable wallet : string.

Lemma refresh_store_none c s : stored wallet s = [] -> refresh_store c wallet s = s.
Proof.
  intros Hs. unfold refresh_store. rewrite <- refresh_all, Hs. reflexivity.
Qed.

(* When the database-first pass is skipped or emits nothing, the call is the
   scan of lines 183-217, started in the world that pass left. *)
Lemma get_all_lp_balances_falls_back scan_range (use_db_first : bool) (w w1 : World chain) :
  (if use_db_first then Pool.verify_db_positions self wallet
   else ret (@nil Pool.Position)) w = (Some [], w1) ->
  Pool.get_all_lp_balances self wallet scan_range use_db_first w =
  Pool.scan_blockchain self wallet scan_range use_db_first [] w1.
Proof.
  intros Hpass. unfold Pool.get_all_lp_balances.
  erewrite bind_ok by exact Hpass. reflexivity.
Qed.

Lemma get_all_lp_balances_run scan_range use_db_first (w : World chain) :
  let out := Pool.get_all_lp_balances self wallet scan_range use_db_first w in
  let pure := resolved self (chain_state w) wallet scan_range use_db_first (store w) in
  fst out = fst pure /\ store (snd out) = snd pure /\ chain_state (snd out) = chain_state w.
Proof.
  cbv zeta. unfold Pool.get_all_lp_balances, resolved.
  destruct use_db_first.
  - destruct (list_eq_nil_dec (stored wallet (store w))) as [Hs|Hs].
    + erewrite bind_ok by (apply verify_db_positions_none; exact Hs).
      cbn [Py.nonempty]. unfold cached. rewrite Hs, (refresh_store_none _ _ Hs).
      cbn [flat_map Py.nonempty].
      destruct (getActiveId (chain_state w)) as [A|] eqn:HA.
      * rewrite (scan_blockchain_run self wallet scan_range true [] w A HA). now cbn.
      * rewrite (scan_blockchain_raise self wallet scan_range true [] w HA). now cbn.
    + destruct (getActiveId (chain_state w)) as [A|] eqn:HA.
      * erewrite bind_ok by (apply verify_db_positions_run; [exact Hs | exact HA]).
        fold (cached self (chain_state w) wallet A (store w)).
        rewrite refresh_all. fold (refresh_store (chain_state w) wallet (store w)).
        destruct (cached self (chain_state w) wallet A (store w)) as [|p ps] eqn:Hc.
        -- cbn [Py.nonempty].
           erewrite scan_blockchain_run by (cbn; exact HA). now cbn.
        -- now cbn.
      * erewrite bind_raise by (apply verify_db_positions_raise; [exact Hs | exact HA]).
        now cbn.
  - erewrite bind_ok by reflexivity. cbn [Py.nonempty].
    destruct (getActiveId (chain_state w)) as [A|] eqn:HA.
    + rewrite (scan_blockchain_run self wallet scan_range false [] w A HA). now cbn.
    + rewrite (scan_blockchain_raise self wallet scan_range false [] w HA). now cbn.
Qed.

End Resolved.

(** ** Resolving twice *)

Lemma range_NoDup a b : List.NoDup (Py.range a b).
Proof.
  unfold Py.range. generalize (Z.to_nat (b - a)) 0%nat.
  intros n. induction n as [|n IH]; intros k; cbn [seq map]; constructor.
  - rewrite List.in_map_iff. intros (i & Hi & Hin). apply List.in_seq in Hin. lia.
  - apply IH.
Qed.

Section Twice.
Context {chain : Type} `{!Gateway chain}.
Variable self : Pool.LiquidityPool.
Variable c : chain.
Variable wallet : string.
Variable A : Z.

Lemma cached_rows_from n rows :
  flat_map (fun pos => emit self c wallet A (Db.bin_id (snd pos)))
    (List.filter (fun ir => Db.is_active_for wallet (Some Config.POOL_ADDRESS) (snd ir))
                 (Db.with_ids n rows)) =
  flat_map (row_emits self c wallet A) rows.
Proof.
  revert n. induction rows as [|r rows IH]; intros n; [reflexivity|].
  cbn [Db.with_ids List.filter flat_map snd]. unfold row_emits at 1.
  destruct (Db.is_active_for wallet (Some Config.POOL_ADDRESS) r).
  - cbn [flat_map snd]. now rewrite IH.
  - now rewrite IH.
Qed.

Lemma cached_rows s :
  cached self c wallet A s = flat_map (row_emits self c wallet A) (Db.positions s).
Proof. apply cached_rows_from. Qed.

Lemma is_active_for_set_amount amt r :
  Db.is_active_for wallet (Some Config.POOL_ADDRESS) (Db.set_amount_active amt true r) =
  Db.is_active_for wallet (Some Config.POOL_ADDRESS) r || 
  (bool_decide (Db.wallet_address r = wallet) &&
   bool_decide (Db.pool_address r = Config.POOL_ADDRESS)).
Proof.
  unfold Db.is_active_for, Db.set_amount_active.
  cbn [Db.wallet_address Db.pool_address Db.active].
  destruct (bool_decide (Db.wallet_address r = wallet)),
           (bool_decide (Db.pool_address r = Config.POOL_ADDRESS)), (Db.active r); reflexivity.
Qed.

Lemma row_emits_refreshed r :
  row_emits self c wallet A (refreshed c wallet r) = row_emits self c wallet A r.
Proof.
  unfold refreshed.
  destruct (Db.is_active_for wallet (Some Config.POOL_ADDRESS) r) eqn:Hact; [|reflexivity].
  unfold refresh_row, row_emits. rewrite Hact.
  unfold emit. destruct (probe c wallet (Db.bin_id r)) as [balance x y| |] eqn:Hp.
  - destruct (changed (Db.amount r) balance).
    + rewrite is_active_for_set_amount, Hact. cbn [orb Db.set_amount_active Db.bin_id].
      now rewrite Hp.
    + now rewrite Hact, Hp.
  - unfold Db.is_active_for, Db.set_amount_active. cbn [Db.wallet_address Db.active].
    now rewrite andb_false_r.
  - now rewrite Hact, Hp.
Qed.

(* The pass changes no answer it would give again. *)
Lemma cached_refresh_store s :
  cached self c wallet A (refresh_store c wallet s) = cached self c wallet A s.
Proof.
  rewrite !cached_rows. unfold refresh_store. cbn [Db.positions].
  induction (Db.positions s) as [|r rows IH]; [reflexivity|].
  cbn [map flat_map]. now rewrite row_emits_refreshed, IH.
Qed.

Lemma emit_not_live bin : is_live c wallet bin = false -> emit self c wallet A bin = [].
Proof. unfold is_live, emit. now destruct (probe c wallet bin). Qed.

Lemma is_active_at_for bin r :
  Db.is_active_at wallet bin Config.POOL_ADDRESS r =
  Db.is_active_for wallet (Some Config.POOL_ADDRESS) r && (Db.bin_id r =? bin).
Proof.
  unfold Db.is_active_at, Db.is_active_for.
  destruct (bool_decide (Db.wallet_address r = wallet)),
           (bool_decide (Db.pool_address r = Config.POOL_ADDRESS)), (Db.active r),
           (Db.bin_id r =? bin); reflexivity.
Qed.

(* When the database-first pass finds nothing, no funded bin is tracked. *)
Lemma nothing_cached_untracked s bin :
  cached self c wallet A s = [] ->
  is_live c wallet bin = true ->
  Db.get_position_by_bin s wallet bin Config.POOL_ADDRESS = None.
Proof.
  rewrite cached_rows. intros Hnil Hlive. apply get_position_by_bin_None.
  intros r Hr. rewrite is_active_at_for.
  destruct (Db.is_active_for wallet (Some Config.POOL_ADDRESS) r) eqn:Hact; [|reflexivity].
  destruct (Z.eqb_spec (Db.bin_id r) bin) as [Heq|]; [|reflexivity]. exfalso.
  assert (Hin : forall p, In p (row_emits self c wallet A r) ->
                          In p (flat_map (row_emits self c wallet A) (Db.positions s))).
  { intros p Hp. apply List.in_flat_map. eauto. }
  rewrite Hnil in Hin. unfold row_emits in Hin. rewrite Hact, Heq in Hin.
  unfold is_live in Hlive. unfold emit in Hin.
  destruct (probe c wallet bin); try discriminate.
  exact (Hin _ (or_introl eq_refl)).
Qed.

Lemma row_emits_found bin balance x y :
  probe c wallet bin = Live balance x y ->
  row_emits self c wallet A (found self wallet bin balance) = emit self c wallet A bin.
Proof.
  intros Hp. unfold row_emits, found, Db.new_row, Db.is_active_for.
  cbn [Db.wallet_address Db.pool_address Db.active Db.bin_id].
  rewrite (bool_decide_eq_true_2 (wallet = wallet)) by reflexivity.
  rewrite (bool_decide_eq_true_2 (Config.POOL_ADDRESS = Config.POOL_ADDRESS)) by reflexivity.
  reflexivity.
Qed.

(* A scan that starts with no funded bin tracked records all it emits. *)
Lemma cached_after_scan (l : list Z) s :
  List.NoDup l ->
  (forall bin, In bin l -> is_live c wallet bin = true ->
     Db.get_position_by_bin s wallet bin Config.POOL_ADDRESS = None) ->
  cached self c wallet A (foldl (discover self c wallet true) s l) =
  cached self c wallet A s ++ flat_map (emit self c wallet A) l.
Proof.
  intros Hnd. revert s. induction Hnd as [|bin l Hnotin Hnd IH]; intros s Hun.
  - cbn. now rewrite app_nil_r.
  - cbn [foldl flat_map].
    destruct (probe c wallet bin) as [balance x y| |] eqn:Hp.
    + assert (Hlive : is_live c wallet bin = true) by (unfold is_live; now rewrite Hp).
      pose proof (Hun bin (or_introl eq_refl) Hlive) as Hnone.
      destruct (discover_new self c wallet s bin balance x y Hp Hnone) as [Hs' _].
      rewrite IH.
      * rewrite Hs', !cached_rows. cbn [Db.positions].
        rewrite List.flat_map_app. cbn [flat_map]. rewrite app_nil_r.
        rewrite (row_emits_found bin balance x y Hp). now rewrite <- app_assoc.
      * intros bin' Hin' Hlive'. rewrite Hs', get_position_by_bin_app.
        destruct s as [rows ops]. cbn [Db.positions Db.operations].
        rewrite (Hun bin' (or_intror Hin') Hlive').
        cbn [Db.with_ids List.filter snd]. unfold found. rewrite is_active_at_new_row.
        destruct (Z.eqb_spec bin bin') as [->|]; [contradiction | reflexivity].
    + replace (discover self c wallet true s bin) with s
        by (unfold discover; now rewrite Hp).
      rewrite IH by (intros bin' Hin'; apply Hun; now right).
      rewrite (emit_not_live bin) by (unfold is_live; now rewrite Hp). reflexivity.
    + replace (discover self c wallet true s bin) with s
        by (unfold discover; now rewrite Hp).
      rewrite IH by (intros bin' Hin'; apply Hun; now right).
      rewrite (emit_not_live bin) by (unfold is_live; now rewrite Hp). reflexivity.
Qed.

End Twice.

Lemma resolved_twice {chain : Type} `{!Gateway chain} self (c : chain) wallet
    scan_range use_db_first s :
  fst (resolved self c wallet scan_range use_db_first
         (snd (resolved self c wallet scan_range use_db_first s))) =
  fst (resolved self c wallet scan_range use_db_first s).
Proof.
  unfold resolved. destruct (getActiveId c) as [A|] eqn:HA; [|reflexivity].
  destruct use_db_first.
  - destruct (cached self c wallet A s) as [|p ps] eqn:Hc.
    + cbn [Py.nonempty snd fst].
      assert (Hc1 : cached self c wallet A (refresh_store c wallet s) = [])
        by now rewrite cached_refresh_store.
      rewrite cached_after_scan, Hc1.
      * cbn [app]. destruct (flat_map _ _); reflexivity.
      * apply range_NoDup.
      * intros bin _ Hlive. now apply (nothing_cached_untracked self c wallet A).
    + cbn [Py.nonempty snd fst]. rewrite cached_refresh_store, Hc. reflexivity.
  - reflexivity.
Qed.

(** C8: with the chain answering every read as before, resolving the
    positions a second time right after the first returns the same list of
    positions (or raises again, when the active-bin read raises). *)
Theorem get_all_lp_balances_idempotent {chain : Type} `{!Gateway chain}
    (self : Pool.LiquidityPool) (wallet : string) (scan_range : Z) (use_db_first : bool)
    (w : World chain) :
  let first := Pool.get_all_lp_balances self wallet scan_range use_db_first w in
  let second := Pool.get_all_lp_balances self wallet scan_range use_db_first (snd first) in
  chain_state (snd first) = chain_state w /\
  fst second = fst first.
Proof.
  cbv zeta.
  destruct (get_all_lp_balances_run self wallet scan_range use_db_first w)
    as (Hr1 & Hs1 & Hc1).
  destruct (get_all_lp_balances_run self wallet scan_range use_db_first
              (snd (Pool.get_all_lp_balances self wallet scan_range use_db_first w)))
    as (Hr2 & _ & _).
  split; [exact Hc1|].
  rewrite Hr2, Hr1, Hs1, Hc1. apply resolved_twice.
Qed.


(** ** Decision engine *)

Section Decision.
Import AutoRebalance.
Variable pool : Pool.LiquidityPool.

Lemma first_breach_true (P : list Pool.Position) (A : Z) :
  fst (first_breach P A) = true <->
  exists p, In p P /\ DISTANCE_THRESHOLD <= Z.abs (Pool.bin_id p - A).
Proof.
  induction P as [|q P IH]; simpl.
  - split; [discriminate | intros (p & [] & _)].
  - destruct (Z.leb_spec DISTANCE_THRESHOLD (Z.abs (Pool.bin_id q - A))) as [Hq|Hq]; simpl.
    + split; [intros _; exists q; auto | reflexivity].
    + rewrite IH. split.
      * intros (p & Hp & Hd). exists p; auto.
      * intros (p & [->|Hp] & Hd); [lia | exists p; auto].
Qed.

Lemma first_breach_skip (pre rest : list Pool.Position) (A : Z) :
  (forall q, In q pre -> Z.abs (Pool.bin_id q - A) < DISTANCE_THRESHOLD) ->
  first_breach (pre ++ rest) A = first_breach rest A.
Proof.
  induction pre as [|q pre IH]; intros Hpre; simpl; [reflexivity|].
  destruct (Z.leb_spec DISTANCE_THRESHOLD (Z.abs (Pool.bin_id q - A))) as [Hq|Hq].
  - specialize (Hpre q (or_introl eq_refl)). lia.
  - apply IH. intros q' Hq'. apply Hpre. now right.
Qed.

(** C1: [should_rebalance] answers true exactly when some supplied position
    lies at distance at least 2 (DISTANCE_THRESHOLD) from the active bin,
    and answers false on the empty list. *)
Theorem should_rebalance_iff (P : list Pool.Position) (A : Z) :
  (fst (should_rebalance pool P A) = true <->
   exists p, In p P /\ Z.abs (Pool.bin_id p - A) >= 2) /\
  fst (should_rebalance pool [] A) = false.
Proof.
  split; [|reflexivity].
  unfold should_rebalance. destruct P as [|q P].
  - simpl. split; [discriminate | intros (p & [] & _)].
  - change (negb (Py.nonempty (q :: P))) with false. cbv iota.
    rewrite first_breach_true. unfold DISTANCE_THRESHOLD.
    split; intros (p & Hp & Hd); exists p; split; auto; lia.
Qed.

(** C7: the breach reported is the first one in the order supplied, whatever
    follows it, and the reason names that position's bin and its distance;
    with one position in bin 100 and active bin 103 the answer is true with
    a reason naming bin 100 and distance 3. *)
Theorem should_rebalance_first_breach (pre post : list Pool.Position)
    (p : Pool.Position) (A : Z) :
  ((forall q, In q pre -> Z.abs (Pool.bin_id q - A) < 2) ->
   2 <= Z.abs (Pool.bin_id p - A) ->
   should_rebalance pool (pre ++ p :: post) A =
     (true, "Position in bin " +:+ Py.str (Pool.bin_id p) +:+ " is " +:+
            Py.str (Z.abs (Pool.bin_id p - A)) +:+
            " bins away from active bin " +:+ Py.str A)) /\
  (Pool.bin_id p = 100 ->
   should_rebalance pool [p] 103 =
     (true, "Position in bin 100 is 3 bins away from active bin 103")).
Proof.
  split.
  - intros Hpre Hp. unfold should_rebalance.
    assert (Hne : negb (Py.nonempty (pre ++ p :: post)) = false)
      by (destruct pre; reflexivity).
    rewrite Hne, (first_breach_skip pre (p :: post) A Hpre). simpl.
    destruct (Z.leb_spec DISTANCE_THRESHOLD (Z.abs (Pool.bin_id p - A))) as [_|Hq];
      [reflexivity | unfold DISTANCE_THRESHOLD in Hq; lia].
  - intros Hb. unfold should_rebalance. simpl. rewrite Hb. reflexivity.
Qed.

(** C10: the optimal bin is a function of the active bin and the token side
    alone: one above the active bin for WAVAX, one below for BTC.b. *)
Theorem get_optimal_bin_offsets (A : Z) :
  get_optimal_bin pool A "WAVAX" = A + 1 /\
  get_optimal_bin pool A "BTC.b" = A - 1.
Proof. split; reflexivity. Qed.

End Decision.

(* Scenario of the specification: one position in bin 101, active bin 102. *)
Example should_rebalance_within_threshold :
  AutoRebalance.should_rebalance Sim.pool [Sim.position 101] 102 =
    (false, "All positions are within threshold distance").
Proof. reflexivity. Qed.

Lemma should_rebalance_first_breach_witness :
  AutoRebalance.should_rebalance Sim.pool ([Sim.position 102] ++ Sim.position 100 :: [Sim.position 50]) 103 =
    (true, "Position in bin 100 is 3 bins away from active bin 103") /\
  AutoRebalance.should_rebalance Sim.pool [Sim.position 100] 103 =
    (true, "Position in bin 100 is 3 bins away from active bin 103").
Proof.
  split.
  - apply (proj1 (should_rebalance_first_breach Sim.pool
                    [Sim.position 102] [Sim.position 50] (Sim.position 100) 103)).
    + intros q [<-|[]]. simpl. lia.
    + simpl. lia.
  - apply (proj2 (should_rebalance_first_breach Sim.pool [] [] (Sim.position 100) 103)).
    reflexivity.
Defined.


(** ** Rules for [steps] *)

Section Steps.
Context {chain : Type} `{!Gateway chain}.
Variable R : World chain -> World chain -> Prop.
Hypothesis R_refl : forall w, R w w.
Hypothesis R_trans : forall w1 w2 w3, R w1 w2 -> R w2 w3 -> R w1 w3.

Lemma steps_ret {A} (a : A) : steps R (ret a).
Proof. intros w. apply R_refl. Qed.

Lemma steps_raise {A} : steps R (@raise chain A).
Proof. intros w. apply R_refl. Qed.

Lemma steps_bind {A B} (m : M chain A) (k : A -> M chain B) :
  steps R m -> (forall a, steps R (k a)) -> steps R (bind m k).
Proof.
  intros Hm Hk w. unfold bind. specialize (Hm w).
  destruct (m w) as [[a|] w1]; cbn [snd] in *.
  - eapply R_trans; [exact Hm | apply Hk].
  - exact Hm.
Qed.

Lemma steps_try {A} (m h : M chain A) :
  steps R m -> steps R h -> steps R (try_except m h).
Proof.
  intros Hm Hh w. unfold try_except. specialize (Hm w).
  destruct (m w) as [[a|] w1]; cbn [snd] in *.
  - exact Hm.
  - eapply R_trans; [exact Hm | apply Hh].
Qed.

Lemma steps_for_each {A S} (l : list A) (body : S -> A -> M chain S) acc :
  (forall acc x, steps R (body acc x)) -> steps R (for_each l body acc).
Proof.
  intros Hbody. revert acc. induction l as [|x l IH]; intros acc; cbn [for_each].
  - apply steps_ret.
  - apply steps_bind; [apply Hbody | intros acc'; apply IH].
Qed.

End Steps.

Lemma steps_weaken {chain A} (R1 R2 : World chain -> World chain -> Prop) (m : M chain A) :
  (forall w w', R1 w w' -> R2 w w') -> steps R1 m -> steps R2 m.
Proof. intros Himp Hm w. apply Himp, Hm. Qed.

Lemma same_store_refl {chain} (w : World chain) : same_store w w.
Proof. reflexivity. Qed.

Lemma same_store_trans {chain} (w1 w2 w3 : World chain) :
  same_store w1 w2 -> same_store w2 w3 -> same_store w1 w3.
Proof. unfold same_store. congruence. Qed.

Lemma keeps_invariant_refl {chain} (w : World chain) : keeps_invariant w w.
Proof. intros Hinv. exact Hinv. Qed.

Lemma keeps_invariant_trans {chain} (w1 w2 w3 : World chain) :
  keeps_invariant w1 w2 -> keeps_invariant w2 w3 -> keeps_invariant w1 w3.
Proof. unfold keeps_invariant. auto. Qed.

Lemma no_add_liquidity_refl {chain} (w : World chain) : no_add_liquidity w w.
Proof. reflexivity. Qed.

Lemma no_add_liquidity_trans {chain} (w1 w2 w3 : World chain) :
  no_add_liquidity w1 w2 -> no_add_liquidity w2 w3 -> no_add_liquidity w1 w3.
Proof. unfold no_add_liquidity. congruence. Qed.

Lemma same_store_keeps_invariant {chain} (w w' : World chain) :
  same_store w w' -> keeps_invariant w w'.
Proof. unfold same_store, keeps_invariant. now intros ->. Qed.

(** ** Gateway calls and store reads *)

Section PrimitiveSteps.
Context {chain : Type} `{!Gateway chain}.

Lemma read_same_store {A} (c : Call) (f : chain -> option A) : steps same_store (read c f).
Proof. intros w. reflexivity. Qed.

Lemma transact_same_store sender key gas tx :
  steps same_store (call_transact sender key gas tx).
Proof.
  intros w. unfold call_transact.
  now destruct (transact (chain_state w) sender key gas tx).
Qed.

Lemma db_query_same_store {A} (f : Db.Store -> A) : steps same_store (@db_query chain A f).
Proof. intros w. reflexivity. Qed.

Lemma add_liquidity_calls_snoc t e :
  is_add_liquidity e = false -> add_liquidity_calls (t ++ [e]) = add_liquidity_calls t.
Proof.
  intros He. unfold add_liquidity_calls. rewrite List.filter_app. cbn. rewrite He.
  apply app_nil_r.
Qed.

Lemma read_no_add {A} (c : Call) (f : chain -> option A) :
  is_add_liquidity c = false -> steps no_add_liquidity (read c f).
Proof. intros Hc w. unfold no_add_liquidity, read, log. cbn. now apply add_liquidity_calls_snoc. Qed.

Lemma transact_no_add sender key gas tx :
  is_add_liquidity (CallTransact sender gas tx) = false ->
  steps no_add_liquidity (call_transact sender key gas tx).
Proof.
  intros Hc w. unfold no_add_liquidity, call_transact.
  destruct (transact (chain_state w) sender key gas tx). cbn.
  now apply add_liquidity_calls_snoc.
Qed.

Lemma db_no_add {A} (f : Db.Store -> A * Db.Store) : steps no_add_liquidity (@db chain A f).
Proof. intros w. unfold no_add_liquidity, db. now destruct (f (store w)). Qed.

End PrimitiveSteps.

(** ** Store writes and the invariant *)

Lemma same_key_refl r : same_key r r.
Proof. repeat split. Qed.

Lemma same_key_set_amount amt act r : same_key (Db.set_amount_active amt act r) r.
Proof. repeat split. Qed.

(* Rewriting rows in place keeps the invariant when no row changes key and
   no inactive row becomes active. *)
Lemma invariant_pointwise rows rows' ops ops' :
  (forall i r', rows' !! i = Some r' ->
     exists r, rows !! i = Some r /\ same_key r' r /\ (Db.active r' = true -> Db.active r = true)) ->
  one_active_per_bin {| Db.positions := rows; Db.operations := ops |} ->
  one_active_per_bin {| Db.positions := rows'; Db.operations := ops' |}.
Proof.
  intros Hpt Hinv i j ri rj Hi Hj Hai Haj (Hw & Hp & Hb). cbn [Db.positions] in *.
  destruct (Hpt i ri Hi) as (ri0 & Hi0 & (Hwi & Hpi & Hbi) & Hacti).
  destruct (Hpt j rj Hj) as (rj0 & Hj0 & (Hwj & Hpj & Hbj) & Hactj).
  apply (Hinv i j ri0 rj0 Hi0 Hj0); auto.
  repeat split; congruence.
Qed.

Lemma invariant_update s id amt act :
  (act = true -> forall r, Db.positions s !! (id - 1)%nat = Some r -> Db.active r = true) ->
  one_active_per_bin s ->
  one_active_per_bin (snd (Db.update_position s id amt act)).
Proof.
  intros Hact Hinv. destruct s as [rows ops]. unfold Db.update_position. cbn [snd Db.positions] in *.
  revert Hinv. apply invariant_pointwise. intros i r' Hi.
  unfold Db.update_rows in Hi. destruct id as [|k]; [exists r'; auto using same_key_refl|].
  replace (S k - 1)%nat with k in Hact by lia.
  rewrite list_lookup_alter in Hi. destruct (decide (k = i)) as [->|Hne].
  - destruct (rows !! i) as [r|] eqn:Hr; [|discriminate]. cbn in Hi. inversion Hi; subst.
    exists r. split; [reflexivity|]. split; [apply same_key_set_amount|].
    cbn. intros ->. now apply Hact.
  - exists r'. auto using same_key_refl.
Qed.

Lemma invariant_deactivate s id :
  one_active_per_bin s -> one_active_per_bin (snd (Db.deactivate_position s id)).
Proof. apply invariant_update. discriminate. Qed.

Lemma invariant_record_operation s op :
  one_active_per_bin s -> one_active_per_bin (snd (Db.record_operation s op)).
Proof. intros Hinv. exact Hinv. Qed.

Lemma is_active_at_same_key wallet bin pool amt tx ty r :
  Db.active r = true ->
  same_key r (Db.new_row wallet bin amt tx ty pool) ->
  Db.is_active_at wallet bin pool r = true.
Proof.
  intros Hact (Hw & Hp & Hb). cbn in Hw, Hp, Hb. unfold Db.is_active_at.
  rewrite Hact, Hb, Z.eqb_refl.
  rewrite (bool_decide_eq_true_2 _ Hw), (bool_decide_eq_true_2 _ Hp). reflexivity.
Qed.

Lemma invariant_add s wallet bin amt tx ty pool :
  Db.get_position_by_bin s wallet bin pool = None ->
  one_active_per_bin s ->
  one_active_per_bin (snd (Db.add_position s wallet bin amt tx ty pool)).
Proof.
  intros Hnone Hinv. rewrite get_position_by_bin_None in Hnone.
  assert (Hfresh : forall i r, Db.positions s !! i = Some r -> Db.active r = true ->
                     ~ same_key r (Db.new_row wallet bin amt tx ty pool)).
  { intros i r Hr Hact Hkey.
    assert (Hin : In r (Db.positions s)) by (apply list_elem_of_In, list_elem_of_lookup; eauto).
    specialize (Hnone r Hin).
    rewrite (is_active_at_same_key wallet bin pool amt tx ty r Hact Hkey) in Hnone.
    discriminate. }
  unfold Db.add_position. cbn [snd].
  intros i j ri rj Hi Hj Hai Haj Hkey. cbn [Db.positions] in Hi, Hj.
  apply lookup_app_Some in Hi. apply lookup_app_Some in Hj.
  destruct Hi as [Hi|[Hli Hi]], Hj as [Hj|[Hlj Hj]].
  - exact (Hinv i j ri rj Hi Hj Hai Haj Hkey).
  - apply list_lookup_singleton_Some in Hj. destruct Hj as [_ <-].
    destruct (Hfresh i ri Hi Hai Hkey).
  - apply list_lookup_singleton_Some in Hi. destruct Hi as [_ <-].
    destruct Hkey as (Hw & Hp & Hb).
    destruct (Hfresh j rj Hj Haj). repeat split; congruence.
  - apply list_lookup_singleton_Some in Hi. apply list_lookup_singleton_Some in Hj. lia.
Qed.

(** ** The invariant through position resolution *)

Section ResolutionInvariant.
Context {chain : Type} `{!Gateway chain}.
Variable self : Pool.LiquidityPool.
Variable c : chain.
Variable wallet : string.

Lemma refreshed_weaker r :
  same_key (refreshed c wallet r) r /\
  (Db.active (refreshed c wallet r) = true -> Db.active r = true).
Proof.
  unfold refreshed.
  destruct (Db.is_active_for wallet (Some Config.POOL_ADDRESS) r) eqn:Hact;
    [|split; [apply same_key_refl | auto]].
  assert (Hr : Db.active r = true).
  { unfold Db.is_active_for in Hact. destruct (Db.active r); [reflexivity|].
    now rewrite andb_false_r in Hact. }
  unfold refresh_row. destruct (probe c wallet (Db.bin_id r)) as [balance x y| |].
  - destruct (changed (Db.amount r) balance); split;
      auto using same_key_refl, same_key_set_amount.
  - split; [apply same_key_set_amount | auto].
  - split; [apply same_key_refl | auto].
Qed.

Lemma invariant_refresh_store s :
  one_active_per_bin s -> one_active_per_bin (refresh_store c wallet s).
Proof.
  destruct s as [rows ops]. unfold refresh_store. cbn [Db.positions Db.operations].
  apply invariant_pointwise. intros i r' Hi.
  rewrite list_lookup_fmap in Hi. destruct (rows !! i) as [r|]; [|discriminate].
  cbn in Hi. inversion Hi; subst. exists r. split; [reflexivity|]. apply refreshed_weaker.
Qed.

Lemma invariant_discover use_db_first s bin :
  one_active_per_bin s -> one_active_per_bin (discover self c wallet use_db_first s bin).
Proof.
  intros Hinv. unfold discover.
  destruct (probe c wallet bin); [|exact Hinv|exact Hinv].
  destruct use_db_first; [|exact Hinv].
  destruct (Db.get_position_by_bin s wallet bin Config.POOL_ADDRESS) eqn:Hq; [exact Hinv|].
  now apply invariant_add.
Qed.

Lemma invariant_discover_fold use_db_first (l : list Z) s :
  one_active_per_bin s ->
  one_active_per_bin (foldl (discover self c wallet use_db_first) s l).
Proof.
  revert s. induction l as [|bin l IH]; intros s Hinv; [exact Hinv|].
  cbn [foldl]. apply IH. now apply invariant_discover.
Qed.

Lemma invariant_resolved scan_range use_db_first s :
  one_active_per_bin s ->
  one_active_per_bin (snd (resolved self c wallet scan_range use_db_first s)).
Proof.
  intros Hinv. unfold resolved. destruct (getActiveId c) as [A|]; [|exact Hinv].
  assert (Hs1 : one_active_per_bin (if use_db_first then refresh_store c wallet s else s))
    by (destruct use_db_first; [now apply invariant_refresh_store | exact Hinv]).
  destruct (Py.nonempty _); cbn [snd]; [exact Hs1|].
  now apply invariant_discover_fold.
Qed.

End ResolutionInvariant.

Lemma get_all_lp_balances_keeps_invariant {chain : Type} `{!Gateway chain}
    self wallet scan_range use_db_first :
  steps (chain := chain) keeps_invariant
        (Pool.get_all_lp_balances self wallet scan_range use_db_first).
Proof.
  intros w Hinv.
  destruct (get_all_lp_balances_run self wallet scan_range use_db_first w) as (_ & -> & _).
  now apply invariant_resolved.
Qed.

(** ** The pool operations, step by step *)

Ltac steps_refl :=
  first [exact same_store_refl | exact keeps_invariant_refl | exact no_add_liquidity_refl].
Ltac steps_trans :=
  first [exact same_store_trans | exact keeps_invariant_trans | exact no_add_liquidity_trans].

(* One structural step through a computation. *)
Ltac steps_structure :=
  lazymatch goal with
  | |- steps _ (ret _) => apply steps_ret; steps_refl
  | |- steps _ raise => apply steps_raise; steps_refl
  | |- steps _ (bind _ _) => apply steps_bind; [steps_trans | | intros ?]
  | |- steps _ (try_except _ _) => apply steps_try; [steps_trans | | ]
  | |- steps _ (for_each _ _ _) => apply steps_for_each; [steps_refl | steps_trans | intros ? ?]
  | |- steps _ (if ?b then _ else _) => destruct b
  | |- steps _ (match ?o with Some _ => _ | None => _ end) => destruct o
  end.

(* Gateway calls and store reads under the three relations. *)
Ltac steps_primitive :=
  unfold call_from_key, call_getActiveId, call_balanceOf, call_getBin,
    call_tokenBalanceOf, call_allowance, call_latestTimestamp;
  first
    [ apply read_same_store
    | apply transact_same_store
    | apply db_query_same_store
    | apply read_no_add; reflexivity
    | apply transact_no_add; reflexivity
    | apply db_no_add
    | unfold db_query; apply db_no_add
    | apply (steps_weaken same_store keeps_invariant);
        [ exact same_store_keeps_invariant
        | first [apply read_same_store | apply transact_same_store | apply db_query_same_store] ] ].

Ltac steps_auto := cbv zeta; repeat (first [steps_structure | steps_primitive]; cbv zeta).

Section PoolSteps.
Context {chain : Type} `{!Gateway chain}.
Variable self : Pool.LiquidityPool.

Lemma get_lp_balance_same_store bin wallet :
  steps (chain := chain) same_store (Pool.get_lp_balance bin wallet).
Proof. unfold Pool.get_lp_balance. steps_auto. Qed.

Lemma get_balance_same_store token wallet :
  steps (chain := chain) same_store (Pool.get_balance token wallet).
Proof. unfold Pool.get_balance. steps_auto. Qed.

Lemma approve_token_same_store token spender amount key :
  steps (chain := chain) same_store (Pool.approve_token token spender amount key).
Proof. unfold Pool.approve_token. steps_auto. Qed.

Lemma approve_lp_tokens_same_store spender key :
  steps (chain := chain) same_store (Pool.approve_lp_tokens spender key).
Proof. unfold Pool.approve_lp_tokens. steps_auto. Qed.

Lemma get_wallet_address_same_store key :
  steps (chain := chain) same_store (Wallet.get_wallet_address key).
Proof. unfold Wallet.get_wallet_address. steps_auto. Qed.

Lemma approve_lp_tokens_no_add spender key :
  steps (chain := chain) no_add_liquidity (Pool.approve_lp_tokens spender key).
Proof. unfold Pool.approve_lp_tokens. steps_auto. Qed.

Lemma get_wallet_address_no_add key :
  steps (chain := chain) no_add_liquidity (Wallet.get_wallet_address key).
Proof. unfold Wallet.get_wallet_address. steps_auto. Qed.

Lemma get_all_lp_balances_no_add wallet scan_range use_db_first :
  steps (chain := chain) no_add_liquidity
        (Pool.get_all_lp_balances self wallet scan_range use_db_first).
Proof.
  unfold Pool.get_all_lp_balances, Pool.verify_db_positions, Pool.scan_blockchain,
    Pool.get_active_bin.
  steps_auto; unfold Pool.verify_db_position, Pool.scan_bin; steps_auto.
Qed.

Lemma deactivate_removed_no_add account u pos :
  steps (chain := chain) no_add_liquidity (Pool.deactivate_removed account u pos).
Proof. unfold Pool.deactivate_removed. steps_auto. Qed.

Lemma remove_all_liquidity_no_add key scan_range :
  steps (chain := chain) no_add_liquidity (Pool.remove_all_liquidity self key scan_range).
Proof.
  unfold Pool.remove_all_liquidity.
  repeat first
    [ apply get_all_lp_balances_no_add
    | apply approve_lp_tokens_no_add
    | apply deactivate_removed_no_add
    | steps_structure
    | steps_primitive ].
Qed.

End PoolSteps.

(** ** The invariant through the writing operations *)

Section InvariantOps.
Context {chain : Type} `{!Gateway chain}.
Variable self : Pool.LiquidityPool.

Lemma found_row_is_active s wallet bin pool id r :
  Db.get_position_by_bin s wallet bin pool = Some (id, r) ->
  forall r', Db.positions s !! (id - 1)%nat = Some r' -> Db.active r' = true.
Proof.
  intros Hq r' Hr'. apply get_position_by_bin_Some in Hq. destruct Hq as (_ & Hr & Hact).
  rewrite Hr in Hr'. inversion Hr'; subst.
  unfold Db.is_active_at in Hact. destruct (Db.active r'); [reflexivity|].
  now rewrite andb_false_r in Hact.
Qed.

Lemma record_operation_keeps_invariant op :
  steps (chain := chain) keeps_invariant (db (fun s => Db.record_operation s op)).
Proof. intros w Hinv. exact Hinv. Qed.

(* Lines 405-413 of add_liquidity: update the row found, or insert one. *)
Lemma upsert_keeps_invariant account bin lp :
  steps (chain := chain) keeps_invariant
    (pos <- db_query (fun s => Db.get_position_by_bin s account bin Config.POOL_ADDRESS) ;;
     match pos with
     | Some p => db (fun s => Db.update_position s (fst p) lp true) ;; ret true
     | None =>
         db (fun s => Db.add_position s account bin lp
                        (Pool.self_token_x self) (Pool.self_token_y self) Config.POOL_ADDRESS) ;;
         ret true
     end).
Proof.
  intros w Hinv. unfold bind, db_query, db, ret. cbn.
  destruct (Db.get_position_by_bin (store w) account bin Config.POOL_ADDRESS) as [[id r]|] eqn:Hq; cbn.
  - apply (invariant_update (store w) id lp true); [|exact Hinv].
    intros _. exact (found_row_is_active _ _ _ _ _ _ Hq).
  - now apply (invariant_add (store w)).
Qed.

(* Lines 506-511 of remove_liquidity. *)
Lemma settle_keeps_invariant account bin lp :
  steps (chain := chain) keeps_invariant
    (pos <- db_query (fun s => Db.get_position_by_bin s account bin Config.POOL_ADDRESS) ;;
     match pos with
     | Some p =>
         (if Py.le lp 0
          then db (fun s => Db.deactivate_position s (fst p))
          else db (fun s => Db.update_position s (fst p) lp true)) ;;
         ret true
     | None => ret true
     end).
Proof.
  intros w Hinv. unfold bind, db_query, db, ret. cbn.
  destruct (Db.get_position_by_bin (store w) account bin Config.POOL_ADDRESS) as [[id r]|] eqn:Hq; cbn;
    [|exact Hinv].
  destruct (Py.le lp 0); cbn.
  - now apply (invariant_deactivate (store w)).
  - apply (invariant_update (store w) id lp true); [|exact Hinv].
    intros _. exact (found_row_is_active _ _ _ _ _ _ Hq).
Qed.

Lemma deactivate_removed_keeps_invariant account u pos :
  steps (chain := chain) keeps_invariant (Pool.deactivate_removed account u pos).
Proof.
  intros w Hinv. unfold Pool.deactivate_removed, bind, db_query, db, ret. cbn.
  destruct (Db.get_position_by_bin (store w) account (Pool.bin_id pos) Config.POOL_ADDRESS)
    as [[id r]|]; cbn; [|exact Hinv].
  now apply (invariant_deactivate (store w)).
Qed.

Ltac keep_same_store lem :=
  apply (steps_weaken same_store keeps_invariant);
  [exact same_store_keeps_invariant | apply lem].

Ltac invariant_step :=
  first
    [ apply upsert_keeps_invariant
    | apply settle_keeps_invariant
    | apply deactivate_removed_keeps_invariant
    | apply record_operation_keeps_invariant
    | apply get_all_lp_balances_keeps_invariant
    | keep_same_store approve_token_same_store
    | keep_same_store approve_lp_tokens_same_store
    | keep_same_store get_lp_balance_same_store
    | keep_same_store get_balance_same_store
    | keep_same_store get_wallet_address_same_store
    | steps_structure
    | steps_primitive ].

Lemma add_liquidity_keeps_invariant bin avax_amount btc_amount key :
  steps (chain := chain) keeps_invariant
        (Pool.add_liquidity self bin avax_amount btc_amount key).
Proof. unfold Pool.add_liquidity. cbv zeta. repeat invariant_step. Qed.

Lemma remove_liquidity_keeps_invariant bin liquidity_amount key :
  steps (chain := chain) keeps_invariant
        (Pool.remove_liquidity self bin liquidity_amount key).
Proof. unfold Pool.remove_liquidity. cbv zeta. repeat invariant_step. Qed.

Lemma remove_all_liquidity_keeps_invariant key scan_range :
  steps (chain := chain) keeps_invariant (Pool.remove_all_liquidity self key scan_range).
Proof. unfold Pool.remove_all_liquidity. cbv zeta. repeat invariant_step. Qed.

Lemma rebalance_liquidity_keeps_invariant key active_id :
  steps (chain := chain) keeps_invariant (AutoRebalance.rebalance_liquidity self key active_id).
Proof.
  unfold AutoRebalance.rebalance_liquidity. cbv zeta.
  repeat first
    [ apply remove_all_liquidity_keeps_invariant
    | apply add_liquidity_keeps_invariant
    | invariant_step ].
Qed.

End InvariantOps.

(** C9: position resolution, add-liquidity, remove-liquidity, remove-all and
    rebalance each leave a store in which every (wallet, pool, bin) has at
    most one active row, when they start from such a store; whatever the
    chain answers and whether the operation returns or raises. *)
Theorem operations_keep_one_active_per_bin {chain : Type} `{!Gateway chain}
    (self : Pool.LiquidityPool) (w : World chain) :
  one_active_per_bin (store w) ->
  (forall wallet scan_range use_db_first,
     one_active_per_bin
       (store (snd (Pool.get_all_lp_balances self wallet scan_range use_db_first w)))) /\
  (forall bin avax_amount btc_amount private_key,
     one_active_per_bin
       (store (snd (Pool.add_liquidity self bin avax_amount btc_amount private_key w)))) /\
  (forall bin liquidity_amount private_key,
     one_active_per_bin
       (store (snd (Pool.remove_liquidity self bin liquidity_amount private_key w)))) /\
  (forall private_key scan_range,
     one_active_per_bin
       (store (snd (Pool.remove_all_liquidity self private_key scan_range w)))) /\
  (forall private_key active_id,
     one_active_per_bin
       (store (snd (AutoRebalance.rebalance_liquidity self private_key active_id w)))).
Proof.
  intros Hinv. repeat split; intros.
  - now apply get_all_lp_balances_keeps_invariant.
  - now apply add_liquidity_keeps_invariant.
  - now apply remove_liquidity_keeps_invariant.
  - now apply remove_all_liquidity_keeps_invariant.
  - now apply rebalance_liquidity_keeps_invariant.
Qed.

(** ** The executor when the withdrawal fails *)

Section Withdrawal.
Context {chain : Type} `{!Gateway chain}.
Variable self : Pool.LiquidityPool.

Lemma deactivate_removed_loop_returns account (l : list Pool.Position) (w : World chain) :
  fst (for_each l (Pool.deactivate_removed account) tt w) = Some tt.
Proof.
  revert w. induction l as [|pos l IH]; intros w; [reflexivity|].
  cbn [for_each]. unfold bind at 1.
  assert (Hd : exists w1, Pool.deactivate_removed account tt pos w = (Some tt, w1)).
  { unfold Pool.deactivate_removed, bind, db_query, db, ret. cbn.
    destruct (Db.get_position_by_bin (store w) account (Pool.bin_id pos) Config.POOL_ADDRESS);
      eauto. }
  destruct Hd as [w1 ->]. apply IH.
Qed.

Lemma resolved_operations c wallet scan_range use_db_first s :
  Db.operations (snd (resolved self c wallet scan_range use_db_first s)) = Db.operations s.
Proof.
  unfold resolved. destruct (getActiveId c) as [A|]; [|reflexivity].
  assert (Hs1 : Db.operations (if use_db_first then refresh_store c wallet s else s) =
                Db.operations s) by now destruct use_db_first.
  destruct (Py.nonempty _); cbn [snd]; [exact Hs1|].
  destruct (discover_fold_appends self c wallet use_db_first (scan_window A scan_range)
              (if use_db_first then refresh_store c wallet s else s)) as (extra & -> & _).
  exact Hs1.
Qed.

Ltac run_call m w a w1 Hm :=
  destruct (m w) as [[a|] w1] eqn:Hm;
  [rewrite (bind_ok _ _ _ _ _ Hm) | rewrite (bind_raise _ _ _ _ Hm)].

Lemma remove_all_liquidity_outcome key scan_range (w : World chain) :
  let out := Pool.remove_all_liquidity self key scan_range w in
  fst out = Some true \/
  (fst out = Some false /\ store (snd out) = store_after_resolution self key scan_range w).
Proof.
  cbv zeta. unfold Pool.remove_all_liquidity, store_after_resolution, try_except.
  destruct (from_key key) as [account|] eqn:Hk.
  2:{ erewrite bind_raise by (unfold call_from_key, read; rewrite Hk; reflexivity).
      right. now split. }
  erewrite bind_ok by (unfold call_from_key, read; rewrite Hk; reflexivity).
  set (w1 := log (CallFromKey key) w).
  assert (Hc1 : chain_state w1 = chain_state w) by reflexivity.
  assert (Hs1 : store w1 = store w) by reflexivity.
  clearbody w1.
  destruct (get_all_lp_balances_run self account scan_range true w1) as (_ & Hs2 & _).
  rewrite Hc1, Hs1 in Hs2.
  run_call (Pool.get_all_lp_balances self account scan_range true) w1 positions w2 H2;
    cbn [snd] in Hs2; [|right; now split].
  destruct positions as [|p ps]; [right; now split|].
  cbn [Py.nonempty negb].
  pose proof (approve_lp_tokens_same_store Config.ROUTER_ADDRESS key w2) as Hs3.
  run_call (Pool.approve_lp_tokens Config.ROUTER_ADDRESS key) w2 ok w3 H3;
    unfold same_store in Hs3; cbn [snd] in Hs3;
    [|right; split; [reflexivity | cbn; congruence]].
  destruct ok; cbn [negb]; [|right; split; [reflexivity | cbn; congruence]].
  cbv zeta.
  assert (Hs4 : same_store w3 (snd (call_latestTimestamp w3)))
    by apply (read_same_store CallLatestBlock latestTimestamp).
  run_call call_latestTimestamp w3 now w4 H4;
    unfold same_store in Hs4; cbn [snd] in Hs4; [|right; split; [reflexivity | cbn; congruence]].
  match goal with
  | |- context [bind (call_transact ?a ?k ?g ?tx) _ w4] =>
      pose proof (transact_same_store a k g tx w4) as Hs5;
      run_call (call_transact a k g tx) w4 receipt w5 H5
  end;
    unfold same_store in Hs5; cbn [snd] in Hs5;
    [|right; split; [reflexivity | cbn; congruence]].
  destruct (status receipt =? 1); [|right; split; [reflexivity | cbn; congruence]].
  left. unfold bind at 1. unfold db at 1. cbn [Db.record_operation].
  unfold bind at 1.
  match goal with
  | |- context [for_each ?l ?body tt ?w6] =>
      pose proof (deactivate_removed_loop_returns account l w6) as Hloop;
      destruct (for_each l body tt w6) as [[u|] w7]; cbn [fst] in Hloop; [|discriminate]
  end.
  reflexivity.
Qed.

Lemma get_wallet_address_returns key (w : World chain) :
  exists account,
    fst (Wallet.get_wallet_address key w) = Some account.
Proof.
  unfold Wallet.get_wallet_address. destruct (bool_decide (key = "")); [now eexists|].
  unfold try_except, bind, call_from_key, read, ret.
  destruct (from_key key); now eexists.
Qed.

Lemma get_wallet_address_chain key (w : World chain) :
  chain_state (snd (Wallet.get_wallet_address key w)) = chain_state w.
Proof.
  unfold Wallet.get_wallet_address. destruct (bool_decide (key = "")); [reflexivity|].
  unfold try_except, bind, call_from_key, read, ret.
  destruct (from_key key); reflexivity.
Qed.

End Withdrawal.

(** C2 (as amended): when the withdrawal step of a rebalance fails, the
    executor returns false and stops there: it makes no call after the
    failed step, so no add-liquidity transaction is sent and no operation is
    recorded.  The store it leaves is the one the position resolution at the
    head of the withdrawal step left (refreshed, deactivated or newly
    inserted rows), or the initial store when resolution was not reached. *)
Theorem rebalance_aborts_when_removal_fails {chain : Type} `{!Gateway chain}
    (pool : Pool.LiquidityPool) (private_key : string) (active_id : Z) (w : World chain) :
  let phase1 := Pool.remove_all_liquidity pool private_key Config.DEFAULT_BIN_SCAN_RANGE
                  (snd (Wallet.get_wallet_address private_key w)) in
  fst phase1 = Some false ->
  let out := AutoRebalance.rebalance_liquidity pool private_key active_id w in
  fst out = Some false /\
  snd out = snd phase1 /\
  add_liquidity_calls (trace (snd out)) = add_liquidity_calls (trace w) /\
  Db.operations (store (snd out)) = Db.operations (store w) /\
  store (snd out) =
    match from_key private_key with
    | Some account =>
        store (snd (Pool.get_all_lp_balances pool account Config.DEFAULT_BIN_SCAN_RANGE true w))
    | None => store w
    end.
Proof.
  cbv zeta. intros Hfail.
  destruct (get_wallet_address_returns private_key w) as [account Hacc].
  pose proof (get_wallet_address_chain private_key w) as Hc1.
  pose proof (get_wallet_address_same_store private_key w) as Hs1.
  pose proof (get_wallet_address_no_add private_key w) as Ht1.
  unfold same_store in Hs1. unfold no_add_liquidity in Ht1.
  pose proof (remove_all_liquidity_no_add pool private_key Config.DEFAULT_BIN_SCAN_RANGE
                (snd (Wallet.get_wallet_address private_key w))) as Ht2.
  unfold no_add_liquidity in Ht2.
  destruct (remove_all_liquidity_outcome pool private_key Config.DEFAULT_BIN_SCAN_RANGE
              (snd (Wallet.get_wallet_address private_key w))) as [Htrue | [_ Hstore]];
    [congruence|].
  set (phase1 := Pool.remove_all_liquidity pool private_key Config.DEFAULT_BIN_SCAN_RANGE
                   (snd (Wallet.get_wallet_address private_key w))) in *.
  set (out := AutoRebalance.rebalance_liquidity pool private_key active_id w).
  assert (Hout : out = (Some false, snd phase1)).
  { subst out. unfold AutoRebalance.rebalance_liquidity.
    destruct (Wallet.get_wallet_address private_key w) as [oa w1] eqn:Hw.
    cbn [fst snd] in *. subst oa. rewrite (bind_ok _ _ _ _ _ Hw).
    subst phase1.
    destruct (Pool.remove_all_liquidity pool private_key Config.DEFAULT_BIN_SCAN_RANGE w1)
      as [r w2] eqn:Hr.
    cbn [fst snd] in *. subst r. rewrite (bind_ok _ _ _ _ _ Hr). reflexivity. }
  rewrite Hout. cbn [fst snd].
  assert (Hfinal : store (snd phase1) =
    match from_key private_key with
    | Some account0 =>
        store (snd (Pool.get_all_lp_balances pool account0 Config.DEFAULT_BIN_SCAN_RANGE true w))
    | None => store w
    end).
  { rewrite Hstore. unfold store_after_resolution. rewrite Hc1, Hs1.
    destruct (from_key private_key) as [a|]; [|reflexivity].
    now destruct (get_all_lp_balances_run pool a Config.DEFAULT_BIN_SCAN_RANGE true w)
      as (_ & -> & _). }
  repeat split.
  - congruence.
  - rewrite Hstore. unfold store_after_resolution. rewrite Hs1.
    destruct (from_key private_key); [apply resolved_operations | reflexivity].
  - exact Hfinal.
Qed.

Lemma rebalance_aborts_when_removal_fails_witness :
  let w := Sim.world (Sim.reverting 100 [(101, 7000000000000000000)]) Db.empty in
  let out := AutoRebalance.rebalance_liquidity Sim.pool Sim.private_key 100 w in
  fst out = Some false /\
  snd out = snd (Pool.remove_all_liquidity Sim.pool Sim.private_key
                   Config.DEFAULT_BIN_SCAN_RANGE
                   (snd (Wallet.get_wallet_address Sim.private_key w))) /\
  add_liquidity_calls (trace (snd out)) = add_liquidity_calls (trace w) /\
  Db.operations (store (snd out)) = Db.operations (store w) /\
  store (snd out) =
    store (snd (Pool.get_all_lp_balances Sim.pool Sim.wallet
                  Config.DEFAULT_BIN_SCAN_RANGE true w)).
Proof.
  intros w.
  assert (Hfail : fst (Pool.remove_all_liquidity Sim.pool Sim.private_key
                         Config.DEFAULT_BIN_SCAN_RANGE
                         (snd (Wallet.get_wallet_address Sim.private_key w))) = Some false)
    by (vm_compute; reflexivity).
  exact (rebalance_aborts_when_removal_fails Sim.pool Sim.private_key 100 w Hfail).
Defined.

(* C2 as stated fails: the withdrawal reverts, the executor returns false
   and sends no add-liquidity transaction, yet the store has gained the row
   that position resolution inserted for bin 101. *)
Lemma rebalance_failure_changes_store :
  let w := Sim.world (Sim.reverting 100 [(101, 7000000000000000000)]) Db.empty in
  let out := AutoRebalance.rebalance_liquidity Sim.pool Sim.private_key 100 w in
  fst (Pool.remove_all_liquidity Sim.pool Sim.private_key Config.DEFAULT_BIN_SCAN_RANGE
         (snd (Wallet.get_wallet_address Sim.private_key w))) = Some false /\
  fst out = Some false /\
  add_liquidity_calls (trace (snd out)) = [] /\
  Db.positions (store (snd out)) =
    [Sim.row 101 (Py.from_units 7000000000000000000 18) true] /\
  store (snd out) <> store w.
Proof.
  vm_compute. repeat split. discriminate.
Qed.

(** C4: the removal path of a rebalance scans with half-width
    DEFAULT_BIN_SCAN_RANGE, which is 10 and so lies outside 50..1000.  With
    the active bin at 100 and nothing stored, the balance reads cover bins
    90 to 110 only; liquidity held in bin 130 is not found and the rebalance
    gives up, whereas the interactive removal of main.py, which widens the
    half-width to 100, finds and removes it. *)
Theorem rebalance_scans_default_range :
  let w := Sim.world (Sim.chain0 100 [(130, 5000000000000000000)]) Db.empty in
  let out := AutoRebalance.rebalance_liquidity Sim.pool Sim.private_key 100 w in
  Config.DEFAULT_BIN_SCAN_RANGE = 10 /\
  Main.removal_scan_range = 100 /\
  balance_checks (trace (snd out)) = map (pair Sim.wallet) (Py.range (100 - 10) (100 + 10 + 1)) /\
  fst out = Some false /\
  fst (Main.remove_all_confirmed Sim.pool Sim.private_key w) = Some true.
Proof.
  vm_compute. repeat split.
Qed.

Lemma sim_store_one_active :
  one_active_per_bin (Sim.store_of [Sim.row 101 5 true; Sim.row 101 3 false]).
Proof.
  intros i j ri rj Hi Hj Hai Haj _.
  destruct i as [|[|i]], j as [|[|j]]; cbn in Hi, Hj;
    try discriminate; try reflexivity;
    inversion Hi; inversion Hj; subst; discriminate.
Qed.

Lemma operations_keep_one_active_per_bin_witness :
  let w := Sim.world (Sim.funded 103 [(101, 7000000000000000000)] 2000000000000000000 0)
                     (Sim.store_of [Sim.row 101 5 true; Sim.row 101 3 false]) in
  one_active_per_bin (store w) /\
  one_active_per_bin (store (snd (Pool.get_all_lp_balances Sim.pool Sim.wallet 50 true w))) /\
  one_active_per_bin (store (snd (Pool.add_liquidity Sim.pool 104 1 0 Sim.private_key w))) /\
  one_active_per_bin (store (snd (Pool.remove_liquidity Sim.pool 101 0 Sim.private_key w))) /\
  one_active_per_bin (store (snd (Pool.remove_all_liquidity Sim.pool Sim.private_key 100 w))) /\
  one_active_per_bin
    (store (snd (AutoRebalance.rebalance_liquidity Sim.pool Sim.private_key 103 w))).
Proof.
  intros w.
  destruct (operations_keep_one_active_per_bin Sim.pool w sim_store_one_active)
    as (Hres & Hadd & Hrem & Hall & Hreb).
  split; [exact sim_store_one_active|].
  split; [apply Hres|]. split; [apply Hadd|]. split; [apply Hrem|].
  split; [apply Hall | apply Hreb].
Defined.

(** * Further properties *)

(** ** The position store on its own *)

Lemma with_ids_alter f n i rows :
  Db.with_ids n (alter f i rows) =
  map (fun ir => if (fst ir =? n + i)%nat then (fst ir, f (snd ir)) else ir)
      (Db.with_ids n rows).
Proof.
  revert n i. induction rows as [|r rows IH]; intros n i; [reflexivity|].
  destruct i as [|i]; cbn [alter list_alter Db.with_ids map fst snd].
  - rewrite Nat.add_0_r, Nat.eqb_refl. f_equal.
    rewrite <- (List.map_id (Db.with_ids (S n) rows)) at 1.
    apply List.map_ext_in. intros [id r'] Hin. apply with_ids_In in Hin. cbn [fst].
    destruct (Nat.eqb_spec id n); [lia | reflexivity].
  - destruct (Nat.eqb_spec n (n + S i)); [lia|]. f_equal.
    change (list_alter f i rows) with (alter f i rows). rewrite IH.
    apply List.map_ext. intros [id r']. cbn [fst snd].
    now replace (S n + i)%nat with (n + S i)%nat by lia.
Qed.

Lemma with_ids_update id amt act rows :
  Db.with_ids 1 (Db.update_rows id amt act rows) =
  map (fun ir => if (fst ir =? id)%nat
                 then (fst ir, Db.set_amount_active amt act (snd ir)) else ir)
      (Db.with_ids 1 rows).
Proof.
  unfold Db.update_rows. destruct id as [|i].
  - rewrite <- (List.map_id (Db.with_ids 1 rows)) at 1.
    apply List.map_ext_in. intros [id r] Hin. apply with_ids_In in Hin. cbn [fst].
    destruct (Nat.eqb_spec id 0); [lia | reflexivity].
  - rewrite with_ids_alter. reflexivity.
Qed.

Lemma filter_map_same {A} (P : A -> bool) (g : A -> A) (l : list A) :
  (forall x, In x l -> P (g x) = P x) ->
  List.filter P (map g l) = map g (List.filter P l).
Proof.
  induction l as [|x l IH]; intros Hg; [reflexivity|].
  cbn [map List.filter]. rewrite (Hg x (or_introl eq_refl)).
  rewrite IH by (intros y Hy; apply Hg; now right).
  now destruct (P x).
Qed.

Lemma is_active_for_active wallet pool r :
  Db.is_active_for wallet pool r = true -> Db.active r = true.
Proof.
  unfold Db.is_active_for. destruct (Db.active r); [reflexivity|].
  now rewrite andb_false_r.
Qed.

Lemma add_position_found s wallet bin amt tx ty pool :
  Db.get_position_by_bin s wallet bin pool = None ->
  Db.get_position_by_bin (snd (Db.add_position s wallet bin amt tx ty pool)) wallet bin pool =
    Some (S (length (Db.positions s)), Db.new_row wallet bin amt tx ty pool).
Proof.
  intros Hnone. unfold Db.add_position. cbn [snd].
  destruct s as [rows ops]. cbn [Db.positions Db.operations].
  rewrite get_position_by_bin_app, Hnone.
  cbn [Db.with_ids List.filter snd]. now rewrite is_active_at_new_row, Z.eqb_refl.
Qed.

(** X1: an insert made for a bin with no active row is what the next lookup
    of that bin returns, under the id the insert reported; an insert made
    although an active row exists is shadowed by the older row; and lookups
    of any other wallet, bin or pool are not affected. *)
Theorem add_position_then_lookup (s : Db.Store) (wallet : string) (bin : Z) (amt : Q)
    (tx ty pool : string) :
  let added := Db.add_position s wallet bin amt tx ty pool in
  (Db.get_position_by_bin s wallet bin pool = None ->
   Db.get_position_by_bin (snd added) wallet bin pool =
     Some (fst added, Db.new_row wallet bin amt tx ty pool)) /\
  (forall p, Db.get_position_by_bin s wallet bin pool = Some p ->
     Db.get_position_by_bin (snd added) wallet bin pool = Some p) /\
  (forall wallet' bin' pool',
     (wallet', bin', pool') <> (wallet, bin, pool) ->
     Db.get_position_by_bin (snd added) wallet' bin' pool' =
     Db.get_position_by_bin s wallet' bin' pool').
Proof.
  cbv zeta. unfold Db.add_position. cbn [fst snd].
  destruct s as [rows ops]. cbn [Db.positions Db.operations].
  split; [|split].
  - intros Hnone.
    exact (add_position_found {| Db.positions := rows; Db.operations := ops |}
             wallet bin amt tx ty pool Hnone).
  - intros p Hp. now rewrite get_position_by_bin_app, Hp.
  - intros wallet' bin' pool' Hne. rewrite get_position_by_bin_app.
    destruct (Db.get_position_by_bin _ wallet' bin' pool') as [p|] eqn:Hq; [reflexivity|].
    cbn [Db.with_ids List.filter snd].
    assert (Hoff : Db.is_active_at wallet' bin' pool' (Db.new_row wallet bin amt tx ty pool) = false).
    { unfold Db.is_active_at, Db.new_row.
      cbn [Db.wallet_address Db.bin_id Db.pool_address Db.active].
      destruct (bool_decide_reflect (wallet = wallet')) as [->|]; [|reflexivity].
      destruct (Z.eqb_spec bin bin') as [->|]; [|reflexivity].
      destruct (bool_decide_reflect (pool = pool')) as [->|]; [|reflexivity].
      now destruct Hne. }
    now rewrite Hoff.
Qed.

Lemma add_position_then_lookup_witness :
  Db.get_position_by_bin
    (snd (Db.add_position (Sim.store_of [Sim.row 101 5 false]) Sim.wallet 101 7
            Config.WAVAX_ADDRESS Config.BTCB_ADDRESS Config.POOL_ADDRESS))
    Sim.wallet 101 Config.POOL_ADDRESS =
  Some (2%nat, Sim.row 101 7 true).
Proof.
  apply (proj1 (add_position_then_lookup (Sim.store_of [Sim.row 101 5 false]) Sim.wallet 101 7
                  Config.WAVAX_ADDRESS Config.BTCB_ADDRESS Config.POOL_ADDRESS)).
  reflexivity.
Defined.

Lemma deactivated_row_not_found s wallet bin pool id r :
  one_active_per_bin s ->
  Db.get_position_by_bin s wallet bin pool = Some (id, r) ->
  Db.get_position_by_bin (snd (Db.deactivate_position s id)) wallet bin pool = None.
Proof.
  intros Hinv Hq. apply get_position_by_bin_Some in Hq. destruct Hq as (Hid & Hr & Hact).
  apply get_position_by_bin_None. intros r' Hr'.
  apply list_elem_of_In, list_elem_of_lookup in Hr'. destruct Hr' as [j Hj].
  unfold Db.deactivate_position, Db.update_position in Hj. cbn [snd Db.positions] in Hj.
  unfold Db.update_rows in Hj. destruct id as [|k]; [lia|].
  replace (S k - 1)%nat with k in Hr by lia.
  rewrite list_lookup_alter in Hj. destruct (decide (k = j)) as [->|Hne].
  - rewrite Hr in Hj. cbn in Hj. inversion Hj; subst.
    unfold Db.is_active_at, Db.set_amount_active. cbn [Db.active]. apply andb_false_r.
  - destruct (Db.is_active_at wallet bin pool r') eqn:Hact'; [|reflexivity]. exfalso.
    apply Hne. apply (Hinv k j r r' Hr Hj).
    + unfold Db.is_active_at in Hact. destruct (Db.active r); [reflexivity|].
      now rewrite andb_false_r in Hact.
    + unfold Db.is_active_at in Hact'. destruct (Db.active r'); [reflexivity|].
      now rewrite andb_false_r in Hact'.
    + unfold Db.is_active_at in Hact, Hact'.
      apply andb_prop in Hact as [Hact _]. apply andb_prop in Hact as [Hact Hp].
      apply andb_prop in Hact as [Hw Hb].
      apply andb_prop in Hact' as [Hact' _]. apply andb_prop in Hact' as [Hact' Hp'].
      apply andb_prop in Hact' as [Hw' Hb'].
      apply bool_decide_eq_true_1 in Hw, Hw', Hp, Hp'.
      apply Z.eqb_eq in Hb, Hb'. repeat split; congruence.
Qed.

Lemma deactivate_keeps_untracked s id wallet bin pool :
  Db.get_position_by_bin s wallet bin pool = None ->
  Db.get_position_by_bin (snd (Db.deactivate_position s id)) wallet bin pool = None.
Proof.
  rewrite !get_position_by_bin_None. intros Hnone r' Hr'.
  apply list_elem_of_In, list_elem_of_lookup in Hr'. destruct Hr' as [j Hj].
  unfold Db.deactivate_position, Db.update_position in Hj. cbn [snd Db.positions] in Hj.
  unfold Db.update_rows in Hj. destruct id as [|k].
  - apply Hnone. apply list_elem_of_In, list_elem_of_lookup. eauto.
  - rewrite list_lookup_alter in Hj. destruct (decide (k = j)) as [->|Hne].
    + destruct (Db.positions s !! j); [|discriminate]. cbn in Hj. inversion Hj; subst.
      unfold Db.is_active_at, Db.set_amount_active. cbn [Db.active]. apply andb_false_r.
    + apply Hnone. apply list_elem_of_In, list_elem_of_lookup. eauto.
Qed.

(** X2: in a store with at most one active row per (wallet, pool, bin),
    deactivating the row a lookup returned leaves the bin with no active row:
    the same lookup then finds nothing.  Deactivating any row never makes a
    bin that had no active row appear tracked. *)
Theorem deactivate_then_lookup (s : Db.Store) (wallet : string) (bin : Z) (pool : string)
    (id : nat) (r : Db.PositionRow) :
  one_active_per_bin s ->
  Db.get_position_by_bin s wallet bin pool = Some (id, r) ->
  Db.get_position_by_bin (snd (Db.deactivate_position s id)) wallet bin pool = None /\
  (forall wallet' bin' pool',
     Db.get_position_by_bin s wallet' bin' pool' = None ->
     Db.get_position_by_bin (snd (Db.deactivate_position s id)) wallet' bin' pool' = None).
Proof.
  intros Hinv Hq. split.
  - now apply (deactivated_row_not_found s wallet bin pool id r).
  - intros wallet' bin' pool'. apply deactivate_keeps_untracked.
Qed.

Lemma deactivate_then_lookup_witness :
  Db.get_position_by_bin
    (snd (Db.deactivate_position (Sim.store_of [Sim.row 101 5 true; Sim.row 101 3 false]) 1))
    Sim.wallet 101 Config.POOL_ADDRESS = None.
Proof.
  apply (proj1 (deactivate_then_lookup
                  (Sim.store_of [Sim.row 101 5 true; Sim.row 101 3 false])
                  Sim.wallet 101 Config.POOL_ADDRESS 1 (Sim.row 101 5 true)
                  sim_store_one_active eq_refl)).
Defined.

(** X3: updating the amount of a row listed by [get_active_positions], by the
    id it was listed under, changes that entry of the listing and no other:
    the same rows are listed again, in the same order, with the new amount
    in place; and the operation log is not touched. *)
Theorem update_position_then_list (s : Db.Store) (wallet : string) (pool : option string)
    (id : nat) (r : Db.PositionRow) (amt : Q) :
  In (id, r) (Db.get_active_positions s wallet pool) ->
  let s' := snd (Db.update_position s id amt true) in
  Db.get_active_positions s' wallet pool =
    map (fun ir => if (fst ir =? id)%nat
                   then (fst ir, Db.set_amount_active amt true (snd ir)) else ir)
        (Db.get_active_positions s wallet pool) /\
  Db.operations s' = Db.operations s.
Proof.
  intros Hin. cbv zeta. split; [|reflexivity].
  unfold Db.get_active_positions, Db.update_position. cbn [snd Db.positions].
  rewrite with_ids_update. apply filter_map_same.
  intros [id' r'] Hin'. cbn [fst snd]. destruct (Nat.eqb_spec id' id) as [->|]; [|reflexivity].
  cbn [snd].
  unfold Db.get_active_positions in Hin. apply List.filter_In in Hin.
  destruct Hin as [Hin Hp]. cbn [snd] in Hp.
  apply with_ids_In in Hin. apply with_ids_In in Hin'.
  destruct Hin as [_ Hl], Hin' as [_ Hl']. rewrite Hl in Hl'. inversion Hl'; subst r'.
  pose proof (is_active_for_active _ _ _ Hp) as Hact. rewrite Hp.
  unfold Db.is_active_for, Db.set_amount_active in *.
  cbn [Db.wallet_address Db.active Db.pool_address]. now rewrite Hact in Hp.
Qed.

Lemma update_position_then_list_witness :
  Db.get_active_positions
    (snd (Db.update_position (Sim.store_of [Sim.row 101 5 true; Sim.row 99 3 true]) 2 4 true))
    Sim.wallet (Some Config.POOL_ADDRESS) =
  [(1%nat, Sim.row 101 5 true); (2%nat, Sim.row 99 4 true)].
Proof.
  apply (proj1 (update_position_then_list
                  (Sim.store_of [Sim.row 101 5 true; Sim.row 99 3 true])
                  Sim.wallet (Some Config.POOL_ADDRESS) 2 (Sim.row 99 3 true) 4
                  ltac:(right; left; reflexivity))).
Defined.

(** ** What position resolution returns *)

Section ResolutionResults.
Context {chain : Type} `{!Gateway chain}.
Variable self : Pool.LiquidityPool.
Variable wallet : string.

Lemma emit_inv (c : chain) A bin p :
  In p (emit self c wallet A bin) ->
  exists balance x y,
    balanceOf c wallet bin = Some balance /\ 0 < balance /\
    getBin c bin = Some (x, y) /\
    p = Pool.mk_position self bin balance x y A.
Proof.
  unfold emit, probe. intros Hp.
  destruct (balanceOf c wallet bin) as [balance|]; [|destruct Hp].
  destruct (Z.ltb_spec 0 balance); [|destruct Hp].
  destruct (getBin c bin) as [[x y]|]; [|destruct Hp].
  destruct Hp as [<-|[]]. exists balance, x, y. auto.
Qed.

Lemma emit_bins (c : chain) A (l : list Z) bin :
  In bin (map Pool.bin_id (flat_map (emit self c wallet A) l)) -> In bin l.
Proof.
  rewrite List.in_map_iff. intros (p & <- & Hp). apply List.in_flat_map in Hp.
  destruct Hp as (b & Hb & Hp). apply emit_inv in Hp.
  destruct Hp as (balance & x & y & _ & _ & _ & ->). exact Hb.
Qed.

Lemma emit_NoDup (c : chain) A (l : list Z) :
  List.NoDup l -> List.NoDup (map Pool.bin_id (flat_map (emit self c wallet A) l)).
Proof.
  induction 1 as [|bin l Hnotin Hnd IH]; [constructor|].
  cbn [flat_map]. rewrite List.map_app.
  assert (Hone : map Pool.bin_id (emit self c wallet A bin) = [] \/
                 map Pool.bin_id (emit self c wallet A bin) = [bin]).
  { unfold emit. destruct (probe c wallet bin); auto. }
  destruct Hone as [-> | ->]; [exact IH|].
  constructor; [|exact IH]. intros Hin. apply Hnotin. eapply emit_bins. exact Hin.
Qed.

Lemma invariant_tail r rows ops :
  one_active_per_bin {| Db.positions := r :: rows; Db.operations := ops |} ->
  one_active_per_bin {| Db.positions := rows; Db.operations := ops |} /\
  (Db.active r = true ->
   forall r', In r' rows -> Db.active r' = true -> ~ same_key r r').
Proof.
  intros Hinv. split.
  - intros i j ri rj Hi Hj Hai Haj Hkey.
    assert (S i = S j) by (apply (Hinv (S i) (S j) ri rj); auto). lia.
  - intros Hact r' Hr' Hact' Hkey.
    apply list_elem_of_In, list_elem_of_lookup in Hr'. destruct Hr' as [j Hj].
    assert (0%nat = S j) by (apply (Hinv 0%nat (S j) r r'); auto). lia.
Qed.

Lemma row_emits_bins (c : chain) A rows bin :
  In bin (map Pool.bin_id (flat_map (row_emits self c wallet A) rows)) ->
  exists r, In r rows /\ Db.is_active_for wallet (Some Config.POOL_ADDRESS) r = true /\
            Db.bin_id r = bin.
Proof.
  rewrite List.in_map_iff. intros (p & <- & Hp). apply List.in_flat_map in Hp.
  destruct Hp as (r & Hr & Hp). unfold row_emits in Hp.
  destruct (Db.is_active_for wallet (Some Config.POOL_ADDRESS) r) eqn:Hact; [|destruct Hp].
  apply emit_inv in Hp. destruct Hp as (balance & x & y & _ & _ & _ & ->).
  exists r. auto.
Qed.

Lemma is_active_for_same_key r r' :
  Db.is_active_for wallet (Some Config.POOL_ADDRESS) r = true ->
  Db.is_active_for wallet (Some Config.POOL_ADDRESS) r' = true ->
  Db.bin_id r = Db.bin_id r' ->
  same_key r r'.
Proof.
  intros Hr Hr' Hbin.
  pose proof (is_active_at_for wallet (Db.bin_id r) r) as H1.
  pose proof (is_active_at_for wallet (Db.bin_id r) r') as H2.
  rewrite Hr, Z.eqb_refl in H1. rewrite Hr', <- Hbin, Z.eqb_refl in H2.
  unfold Db.is_active_at in H1, H2. cbn [andb] in H1, H2.
  apply andb_prop in H1 as [H1 _]. apply andb_prop in H1 as [H1 Hp].
  apply andb_prop in H1 as [Hw _].
  apply andb_prop in H2 as [H2 _]. apply andb_prop in H2 as [H2 Hp'].
  apply andb_prop in H2 as [Hw' _].
  apply bool_decide_eq_true_1 in Hw, Hw', Hp, Hp'. repeat split; congruence.
Qed.

Lemma cached_NoDup (c : chain) A s :
  one_active_per_bin s -> List.NoDup (map Pool.bin_id (cached self c wallet A s)).
Proof.
  rewrite cached_rows. destruct s as [rows ops]. cbn [Db.positions].
  induction rows as [|r rows IH]; intros Hinv; [constructor|].
  apply invariant_tail in Hinv. destruct Hinv as [Htail Hfresh].
  cbn [flat_map]. rewrite List.map_app.
  assert (Hone : map Pool.bin_id (row_emits self c wallet A r) = [] \/
                 (map Pool.bin_id (row_emits self c wallet A r) = [Db.bin_id r] /\
                  Db.is_active_for wallet (Some Config.POOL_ADDRESS) r = true)).
  { unfold row_emits. destruct (Db.is_active_for wallet (Some Config.POOL_ADDRESS) r); auto.
    unfold emit. destruct (probe c wallet (Db.bin_id r)); auto. }
  destruct Hone as [-> | [-> Hact]]; [now apply IH|].
  constructor; [|now apply IH]. intros Hin.
  apply row_emits_bins in Hin. destruct Hin as (r' & Hr' & Hact' & Hbin).
  apply (Hfresh (is_active_for_active _ _ _ Hact) r' Hr' (is_active_for_active _ _ _ Hact')).
  now apply is_active_for_same_key.
Qed.

End ResolutionResults.

(** X4: position resolution raises exactly when the read of the active bin
    raises.  A failing balance or reserve read of an individual bin never
    makes the call fail. *)
Theorem get_all_lp_balances_raises_iff {chain : Type} `{!Gateway chain}
    (self : Pool.LiquidityPool) (wallet : string) (scan_range : Z) (use_db_first : bool)
    (w : World chain) :
  fst (Pool.get_all_lp_balances self wallet scan_range use_db_first w) = None <->
  getActiveId (chain_state w) = None.
Proof.
  destruct (get_all_lp_balances_run self wallet scan_range use_db_first w) as (-> & _ & _).
  unfold resolved. destruct (getActiveId (chain_state w)) as [A|].
  - destruct (Py.nonempty _); cbn [fst]; split; discriminate.
  - split; reflexivity.
Qed.

(** X5: every position returned by position resolution was seen live during
    the call: the balance read of its bin answered a positive balance, the
    reserve read answered, and the position carries that balance, those
    reserves and the bin's offset from the active bin. *)
Theorem get_all_lp_balances_sound {chain : Type} `{!Gateway chain}
    (self : Pool.LiquidityPool) (wallet : string) (scan_range : Z) (use_db_first : bool)
    (w : World chain) (positions : list Pool.Position) :
  fst (Pool.get_all_lp_balances self wallet scan_range use_db_first w) = Some positions ->
  exists A,
    getActiveId (chain_state w) = Some A /\
    forall p, In p positions ->
      exists balance x y,
        balanceOf (chain_state w) wallet (Pool.bin_id p) = Some balance /\
        0 < balance /\
        getBin (chain_state w) (Pool.bin_id p) = Some (x, y) /\
        p = {| Pool.bin_id := Pool.bin_id p;
               Pool.lp_balance := Py.from_units balance 18;
               Pool.token_x := Pool.self_token_x self;
               Pool.token_y := Pool.self_token_y self;
               Pool.reserve_x := x;
               Pool.reserve_y := y;
               Pool.distance_from_active := Pool.bin_id p - A |}.
Proof.
  destruct (get_all_lp_balances_run self wallet scan_range use_db_first w) as (-> & _ & _).
  unfold resolved. destruct (getActiveId (chain_state w)) as [A|]; [|discriminate].
  intros Hres. exists A. split; [reflexivity|]. intros p Hp.
  assert (Hemit : exists bin, In p (emit self (chain_state w) wallet A bin)).
  { destruct (Py.nonempty _); cbn [fst] in Hres; inversion Hres; subst positions.
    - destruct use_db_first; [|destruct Hp].
      unfold cached in Hp. apply List.in_flat_map in Hp. destruct Hp as (pos & _ & Hp). eauto.
    - apply List.in_flat_map in Hp. destruct Hp as (bin & _ & Hp). eauto. }
  destruct Hemit as [bin Hemit]. apply emit_inv in Hemit.
  destruct Hemit as (balance & x & y & Hbal & Hpos & Hres' & ->).
  exists balance, x, y. cbn. auto.
Qed.

Lemma get_all_lp_balances_sound_witness :
  exists A,
    getActiveId (Sim.chain0 100 [(101, 7000000000000000000)]) = Some A /\
    forall p, In p [Pool.mk_position Sim.pool 101 7000000000000000000 1000 2000 100] ->
      exists balance x y,
        balanceOf (Sim.chain0 100 [(101, 7000000000000000000)]) Sim.wallet (Pool.bin_id p)
          = Some balance /\
        0 < balance /\
        getBin (Sim.chain0 100 [(101, 7000000000000000000)]) (Pool.bin_id p) = Some (x, y) /\
        p = {| Pool.bin_id := Pool.bin_id p;
               Pool.lp_balance := Py.from_units balance 18;
               Pool.token_x := Pool.self_token_x Sim.pool;
               Pool.token_y := Pool.self_token_y Sim.pool;
               Pool.reserve_x := x;
               Pool.reserve_y := y;
               Pool.distance_from_active := Pool.bin_id p - A |}.
Proof.
  apply (get_all_lp_balances_sound Sim.pool Sim.wallet 10 true
           (Sim.world (Sim.chain0 100 [(101, 7000000000000000000)]) Db.empty)).
  vm_compute. reflexivity.
Defined.

(** X6: a scan that does not use the database returns the funded bins of the
    window and nothing else: the bins of the returned positions are the bins
    from [max(0, A - scan_range)] to [A + scan_range] whose balance read is
    positive and whose reserve read answers, in ascending order; and the
    store is left as it was. *)
Theorem scan_returns_funded_bins {chain : Type} `{!Gateway chain}
    (self : Pool.LiquidityPool) (wallet : string) (scan_range : Z)
    (w : World chain) (A : Z) :
  getActiveId (chain_state w) = Some A ->
  let out := Pool.get_all_lp_balances self wallet scan_range false w in
  exists positions,
    fst out = Some positions /\
    map Pool.bin_id positions =
      List.filter
        (fun bin =>
           match balanceOf (chain_state w) wallet bin, getBin (chain_state w) bin with
           | Some balance, Some _ => 0 <? balance
           | _, _ => false
           end)
        (Py.range (Z.max 0 (A - scan_range)) (A + scan_range + 1)) /\
    store (snd out) = store w.
Proof.
  intros HA. cbv zeta.
  destruct (get_all_lp_balances_run self wallet scan_range false w) as (-> & -> & _).
  unfold resolved. rewrite HA. cbn [Py.nonempty fst snd].
  eexists. split; [reflexivity|]. split; [|apply discover_off].
  unfold scan_window. induction (Py.range _ _) as [|bin l IH]; [reflexivity|].
  cbn [flat_map List.filter]. rewrite List.map_app, IH. unfold emit, probe.
  destruct (balanceOf (chain_state w) wallet bin) as [balance|]; [|reflexivity].
  destruct (0 <? balance); [|now destruct (getBin (chain_state w) bin)].
  now destruct (getBin (chain_state w) bin).
Qed.

Lemma scan_returns_funded_bins_witness :
  let w := Sim.world (Sim.chain0 100 [(101, 7000000000000000000); (95, 1); (300, 5)])
                     Db.empty in
  exists positions,
    fst (Pool.get_all_lp_balances Sim.pool Sim.wallet 10 false w) = Some positions /\
    map Pool.bin_id positions = [95; 101] /\
    store (snd (Pool.get_all_lp_balances Sim.pool Sim.wallet 10 false w)) = store w.
Proof.
  intros w.
  exact (scan_returns_funded_bins Sim.pool Sim.wallet 10 w 100 eq_refl).
Defined.

(** X7: started from a store with at most one active row per (wallet, pool,
    bin), position resolution never returns two positions for the same bin. *)
Theorem get_all_lp_balances_distinct_bins {chain : Type} `{!Gateway chain}
    (self : Pool.LiquidityPool) (wallet : string) (scan_range : Z) (use_db_first : bool)
    (w : World chain) (positions : list Pool.Position) :
  one_active_per_bin (store w) ->
  fst (Pool.get_all_lp_balances self wallet scan_range use_db_first w) = Some positions ->
  List.NoDup (map Pool.bin_id positions).
Proof.
  intros Hinv.
  destruct (get_all_lp_balances_run self wallet scan_range use_db_first w) as (-> & _ & _).
  unfold resolved. destruct (getActiveId (chain_state w)) as [A|]; [|discriminate].
  destruct (Py.nonempty _) eqn:Hne; cbn [fst]; intros Hres; inversion Hres; subst positions.
  - destruct use_db_first; [now apply cached_NoDup | constructor].
  - apply emit_NoDup, range_NoDup.
Qed.

Lemma get_all_lp_balances_distinct_bins_witness :
  List.NoDup (map Pool.bin_id
                [Pool.mk_position Sim.pool 101 7000000000000000000 1000 2000 103]).
Proof.
  apply (get_all_lp_balances_distinct_bins Sim.pool Sim.wallet 50 true
           (Sim.world (Sim.funded 103 [(101, 7000000000000000000)] 2000000000000000000 0)
                      (Sim.store_of [Sim.row 101 5 true; Sim.row 101 3 false]))).
  - exact sim_store_one_active.
  - vm_compute. reflexivity.
Defined.

(** ** The store only grows *)

Lemma same_columns_refl r : same_columns r r.
Proof. repeat split. Qed.

Lemma same_columns_trans r1 r2 r3 :
  same_columns r1 r2 -> same_columns r2 r3 -> same_columns r1 r3.
Proof. unfold same_columns. intuition congruence. Qed.

Lemma log_extends_refl s : log_extends s s.
Proof. exists []. now rewrite app_nil_r. Qed.

Lemma log_extends_trans s1 s2 s3 : log_extends s1 s2 -> log_extends s2 s3 -> log_extends s1 s3.
Proof.
  intros [e1 H1] [e2 H2]. exists (e1 ++ e2). now rewrite H2, H1, app_assoc.
Qed.

Lemma rows_kept_refl s : rows_kept s s.
Proof. intros i r Hr. exists r. auto using same_columns_refl. Qed.

Lemma rows_kept_trans s1 s2 s3 : rows_kept s1 s2 -> rows_kept s2 s3 -> rows_kept s1 s3.
Proof.
  intros H1 H2 i r Hr. destruct (H1 i r Hr) as (r2 & Hr2 & Hc2).
  destruct (H2 i r2 Hr2) as (r3 & Hr3 & Hc3). exists r3.
  split; [exact Hr3 | eapply same_columns_trans; eauto].
Qed.

Lemma store_grows_refl {chain} (w : World chain) : store_grows w w.
Proof. split; [apply log_extends_refl | apply rows_kept_refl]. Qed.

Lemma store_grows_trans {chain} (w1 w2 w3 : World chain) :
  store_grows w1 w2 -> store_grows w2 w3 -> store_grows w1 w3.
Proof.
  intros [Hl1 Hr1] [Hl2 Hr2].
  split; [eapply log_extends_trans | eapply rows_kept_trans]; eauto.
Qed.

Lemma same_store_grows {chain} (w w' : World chain) : same_store w w' -> store_grows w w'.
Proof. unfold same_store, store_grows. intros ->. apply store_grows_refl. Qed.

Lemma update_position_grows s id amt act :
  log_extends s (snd (Db.update_position s id amt act)) /\
  rows_kept s (snd (Db.update_position s id amt act)).
Proof.
  split; [exists []; cbn; now rewrite app_nil_r|].
  intros i r Hr. unfold Db.update_position, Db.update_rows. cbn [snd Db.positions].
  destruct id as [|k]; [exists r; auto using same_columns_refl|].
  rewrite list_lookup_alter. destruct (decide (k = i)) as [->|].
  - rewrite Hr. eexists. split; [reflexivity|]. repeat split.
  - exists r. auto using same_columns_refl.
Qed.

Lemma add_position_grows s wallet bin amt tx ty pool :
  log_extends s (snd (Db.add_position s wallet bin amt tx ty pool)) /\
  rows_kept s (snd (Db.add_position s wallet bin amt tx ty pool)).
Proof.
  split; [exists []; cbn; now rewrite app_nil_r|].
  intros i r Hr. exists r. split; [|apply same_columns_refl].
  unfold Db.add_position. cbn [snd Db.positions].
  apply lookup_app_Some. now left.
Qed.

Lemma record_operation_grows s op :
  log_extends s (snd (Db.record_operation s op)) /\
  rows_kept s (snd (Db.record_operation s op)).
Proof.
  split; [now exists [op]|].
  intros i r Hr. exists r. split; [exact Hr | apply same_columns_refl].
Qed.

Section Growth.
Context {chain : Type} `{!Gateway chain}.
Variable self : Pool.LiquidityPool.

Lemma db_grows {A} (f : Db.Store -> A * Db.Store) :
  (forall s, log_extends s (snd (f s)) /\ rows_kept s (snd (f s))) ->
  steps (chain := chain) store_grows (db f).
Proof.
  intros Hf w. unfold store_grows, db. specialize (Hf (store w)).
  now destruct (f (store w)).
Qed.

Ltac grows_leaf :=
  first
    [ apply db_grows; intros ?;
      first [ apply update_position_grows | apply add_position_grows
            | apply record_operation_grows
            | unfold Db.deactivate_position; apply update_position_grows
            | split; [apply log_extends_refl | apply rows_kept_refl] ]
    | apply (steps_weaken same_store store_grows);
      [ exact same_store_grows
      | first [ apply approve_token_same_store | apply approve_lp_tokens_same_store
              | apply get_lp_balance_same_store | apply get_balance_same_store
              | apply get_wallet_address_same_store
              | unfold call_from_key, call_getActiveId, call_balanceOf, call_getBin,
                  call_tokenBalanceOf, call_allowance, call_latestTimestamp,
                  Pool.get_active_bin;
                first [apply read_same_store | apply transact_same_store
                      | apply db_query_same_store] ] ] ].

Ltac grows_structure :=
  lazymatch goal with
  | |- steps _ (ret _) => apply steps_ret; exact store_grows_refl
  | |- steps _ (bind _ _) => apply steps_bind; [exact store_grows_trans | | intros ?]
  | |- steps _ (try_except _ _) => apply steps_try; [exact store_grows_trans | | ]
  | |- steps _ (for_each _ _ _) =>
      apply steps_for_each; [exact store_grows_refl | exact store_grows_trans | intros ? ?]
  | |- steps _ (if ?b then _ else _) => destruct b
  | |- steps _ (match ?o with Some _ => _ | None => _ end) => destruct o
  end.

Ltac grows := cbv zeta; repeat (first [grows_leaf | grows_structure]; cbv zeta).

Lemma get_all_lp_balances_grows wallet scan_range use_db_first :
  steps (chain := chain) store_grows
        (Pool.get_all_lp_balances self wallet scan_range use_db_first).
Proof.
  unfold Pool.get_all_lp_balances, Pool.verify_db_positions, Pool.scan_blockchain.
  grows; unfold Pool.verify_db_position, Pool.scan_bin; grows.
Qed.

Lemma add_liquidity_grows bin avax btc key :
  steps (chain := chain) store_grows (Pool.add_liquidity self bin avax btc key).
Proof. unfold Pool.add_liquidity. grows. Qed.

Lemma remove_liquidity_grows bin amount key :
  steps (chain := chain) store_grows (Pool.remove_liquidity self bin amount key).
Proof. unfold Pool.remove_liquidity. grows. Qed.

Lemma deactivate_removed_grows account u pos :
  steps (chain := chain) store_grows (Pool.deactivate_removed account u pos).
Proof. unfold Pool.deactivate_removed. grows. Qed.

Lemma remove_all_liquidity_grows key scan_range :
  steps (chain := chain) store_grows (Pool.remove_all_liquidity self key scan_range).
Proof.
  unfold Pool.remove_all_liquidity. cbv zeta.
  repeat (first [ apply get_all_lp_balances_grows
                | apply deactivate_removed_grows
                | grows_leaf | grows_structure ]; cbv zeta).
Qed.

Lemma rebalance_liquidity_grows key active_id :
  steps (chain := chain) store_grows (AutoRebalance.rebalance_liquidity self key active_id).
Proof.
  unfold AutoRebalance.rebalance_liquidity. cbv zeta.
  repeat (first [ apply remove_all_liquidity_grows | apply add_liquidity_grows
                | grows_leaf | grows_structure ]; cbv zeta).
Qed.

Lemma add_initial_positions_grows key :
  steps (chain := chain) store_grows (AutoRebalance.add_initial_positions self key).
Proof.
  unfold AutoRebalance.add_initial_positions. cbv zeta.
  repeat (first [ apply add_liquidity_grows | grows_leaf | grows_structure ]; cbv zeta).
Qed.

Lemma monitor_check_grows key account :
  steps (chain := chain) store_grows (AutoRebalance.monitor_check self key account).
Proof.
  unfold AutoRebalance.monitor_check. cbv zeta.
  repeat (first [ apply get_all_lp_balances_grows | apply rebalance_liquidity_grows
                | apply add_initial_positions_grows | grows_leaf | grows_structure ];
          cbv zeta).
Qed.

Lemma world_after_grows op (w : World chain) : store_grows w (world_after self op w).
Proof.
  destruct op; cbn [world_after].
  - apply get_all_lp_balances_grows.
  - apply add_liquidity_grows.
  - apply remove_liquidity_grows.
  - apply remove_all_liquidity_grows.
  - apply rebalance_liquidity_grows.
  - apply add_initial_positions_grows.
  - apply monitor_check_grows.
Qed.

End Growth.

(** X8: the operation log is append-only.  Whatever call is made on the
    engine (resolution, add, remove, remove-all, rebalance, initial deposit,
    monitoring check), whatever the chain answers and whether the call
    returns or raises, the log afterwards is the log before followed by the
    records the call appended. *)
Theorem operation_log_append_only {chain : Type} `{!Gateway chain}
    (pool : Pool.LiquidityPool) (op : EngineOp) (w : World chain) :
  exists appended,
    Db.operations (store (world_after pool op w)) = Db.operations (store w) ++ appended.
Proof. exact (proj1 (world_after_grows pool op w)). Qed.

(** X9: no call on the engine deletes or re-keys a position row: every row
    of the table is still there afterwards under the same id, with the same
    wallet, bin, token pair and pool; only its amount and active flag may
    differ. *)
Theorem position_rows_persist {chain : Type} `{!Gateway chain}
    (pool : Pool.LiquidityPool) (op : EngineOp) (w : World chain)
    (id : nat) (r : Db.PositionRow) :
  Db.positions (store w) !! id = Some r ->
  exists r',
    Db.positions (store (world_after pool op w)) !! id = Some r' /\
    Db.wallet_address r' = Db.wallet_address r /\
    Db.bin_id r' = Db.bin_id r /\
    Db.token_x r' = Db.token_x r /\
    Db.token_y r' = Db.token_y r /\
    Db.pool_address r' = Db.pool_address r.
Proof. exact (proj2 (world_after_grows pool op w) id r). Qed.

(** ** The writing calls, outcome by outcome *)

Lemma try_except_returns {chain A} (m : M chain A) (a : A) (w : World chain) :
  exists b, fst (try_except m (ret a) w) = Some b.
Proof. unfold try_except. destruct (m w) as [[b|] w']; eauto. Qed.

Lemma update_position_then_lookup s wallet bin pool id r amt :
  Db.get_position_by_bin s wallet bin pool = Some (id, r) ->
  Db.get_position_by_bin (snd (Db.update_position s id amt true)) wallet bin pool =
    Some (id, Db.set_amount_active amt true r).
Proof.
  intros Hq. pose proof (get_position_by_bin_Some _ _ _ _ _ _ Hq) as (Hid & Hr & Hact).
  unfold Db.get_position_by_bin, Db.update_position in *. cbn [snd Db.positions].
  rewrite with_ids_update, filter_map_same.
  - destruct (List.filter _ _) as [|x l]; [discriminate|]. inversion Hq; subst x.
    cbn [map head fst snd]. now rewrite Nat.eqb_refl.
  - intros [id' r'] Hin. cbn [fst snd]. destruct (Nat.eqb_spec id' id) as [->|]; [|reflexivity].
    apply with_ids_In in Hin. destruct Hin as [_ Hl]. rewrite Hr in Hl. inversion Hl; subst r'.
    cbn [snd]. rewrite Hact. unfold Db.is_active_at, Db.set_amount_active in *.
    cbn [Db.wallet_address Db.bin_id Db.pool_address Db.active].
    apply andb_prop in Hact as [Hact _]. now rewrite Hact.
Qed.

Section WriteOutcomes.
Context {chain : Type} `{!Gateway chain}.
Variable self : Pool.LiquidityPool.

Ltac run_call m w a w1 Hm :=
  destruct (m w) as [[a|] w1] eqn:Hm;
  [rewrite (bind_ok _ _ _ _ _ Hm) | rewrite (bind_raise _ _ _ _ Hm)].

Lemma approve_token_returns token spender amount key (w : World chain) :
  exists b, fst (Pool.approve_token token spender amount key w) = Some b.
Proof. unfold Pool.approve_token. apply try_except_returns. Qed.

Lemma add_liquidity_outcome bin avax_amount btc_amount key (w : World chain) :
  let out := Pool.add_liquidity self bin avax_amount btc_amount key w in
  (fst out = Some false /\ Db.positions (store (snd out)) = Db.positions (store w)) \/
  (fst out = Some true /\ add_recorded bin key w (snd out)).
Proof.
  cbv zeta. unfold Pool.add_liquidity, try_except.
  destruct (from_key key) as [account|] eqn:Hk.
  2:{ erewrite bind_raise by (unfold call_from_key, read; rewrite Hk; reflexivity).
      left. now split. }
  erewrite bind_ok by (unfold call_from_key, read; rewrite Hk; reflexivity).
  set (w1 := log (CallFromKey key) w).
  assert (Hs1 : store w1 = store w) by reflexivity. clearbody w1.
  (* WAVAX approval *)
  match goal with
  | |- context [bind ?m _ w1] =>
      assert (Hs2 : same_store w1 (snd (m w1)))
        by (destruct (Py.gt avax_amount 0);
            [apply approve_token_same_store | reflexivity]);
      run_call m w1 avax_ok w2 H2
  end; unfold same_store in Hs2; cbn [snd] in Hs2;
    [|left; split; [reflexivity | cbn; congruence]].
  destruct avax_ok; cbn [negb]; [|left; split; [reflexivity | cbn; congruence]].
  cbv zeta.
  (* BTC.b approval *)
  match goal with
  | |- context [bind ?m _ w2] =>
      assert (Hs3 : same_store w2 (snd (m w2)))
        by (destruct (Py.gt btc_amount 0);
            [apply approve_token_same_store | reflexivity]);
      run_call m w2 btc_ok w3 H3
  end; unfold same_store in Hs3; cbn [snd] in Hs3;
    [|left; split; [reflexivity | cbn; congruence]].
  destruct btc_ok; cbn [negb]; [|left; split; [reflexivity | cbn; congruence]].
  cbv zeta.
  assert (Hs4 : same_store w3 (snd (call_latestTimestamp w3)))
    by apply (read_same_store CallLatestBlock latestTimestamp).
  run_call call_latestTimestamp w3 now w4 H4;
    unfold same_store in Hs4; cbn [snd] in Hs4;
    [|left; split; [reflexivity | cbn; congruence]].
  match goal with
  | |- context [bind (call_transact ?a ?k ?g ?tx) _ w4] =>
      pose proof (transact_same_store a k g tx w4) as Hs5;
      run_call (call_transact a k g tx) w4 receipt w5 H5
  end;
    unfold same_store in Hs5; cbn [snd] in Hs5;
    [|left; split; [reflexivity | cbn; congruence]].
  destruct (status receipt =? 1); [|left; split; [reflexivity | cbn; congruence]].
  (* the transaction is mined: record, read the balance, upsert *)
  match goal with
  | |- context [bind (db (fun s => Db.record_operation s ?op)) _ w5] => set (the_op := op)
  end.
  pose (w6 := {| chain_state := chain_state w5;
                 store := snd (Db.record_operation (store w5) the_op);
                 trace := trace w5 |}).
  assert (H6 : db (fun s => Db.record_operation s the_op) w5 =
               (Some (fst (Db.record_operation (store w5) the_op)), w6)) by reflexivity.
  rewrite (bind_ok _ _ _ _ _ H6).
  destruct (balanceOf (chain_state w6) account bin) as [balance|] eqn:Hbal.
  2:{ assert (H7 : Pool.get_lp_balance bin account w6 =
                   (None, log (CallBalanceOf account bin) w6))
        by (unfold Pool.get_lp_balance, bind, call_balanceOf, read; now rewrite Hbal).
      rewrite (bind_raise _ _ _ _ H7).
      left. split; [reflexivity|]. cbn. congruence. }
  pose (w7 := log (CallBalanceOf account bin) w6).
  assert (H7 : Pool.get_lp_balance bin account w6 = (Some (Py.from_units balance 18), w7))
    by (unfold Pool.get_lp_balance, bind, call_balanceOf, read, ret; now rewrite Hbal).
  rewrite (bind_ok _ _ _ _ _ H7).
  assert (H8 : db_query (fun s => Db.get_position_by_bin s account bin Config.POOL_ADDRESS) w7 =
               (Some (Db.get_position_by_bin (store w7) account bin Config.POOL_ADDRESS), w7))
    by reflexivity.
  rewrite (bind_ok _ _ _ _ _ H8).
  right.
  assert (Hops : Db.operations (store w7) = Db.operations (store w) ++ [the_op])
    by (cbn; congruence).
  destruct (Db.get_position_by_bin (store w7) account bin Config.POOL_ADDRESS)
    as [[id r]|] eqn:Hq.
  - cbn [fst]. erewrite bind_ok by reflexivity. split; [reflexivity|].
    exists account, the_op, balance, id, (Db.set_amount_active (Py.from_units balance 18) true r).
    cbn [snd ret store chain_state].
    repeat split; try reflexivity; try assumption.
    now apply update_position_then_lookup.
  - erewrite bind_ok by reflexivity. split; [reflexivity|].
    exists account, the_op, balance.
    exists (S (length (Db.positions (store w7)))),
           (Db.new_row account bin (Py.from_units balance 18)
              (Pool.self_token_x self) (Pool.self_token_y self) Config.POOL_ADDRESS).
    cbn [snd ret store chain_state].
    repeat split; try reflexivity; try assumption.
    apply (add_position_found (store w7)). exact Hq.
Qed.

End WriteOutcomes.

(** X10: [add_liquidity] never raises.  When it returns False the positions
    table is as it was.  When it returns True, one operation of type add for
    the bin has been appended to the log, and the bin is tracked: a lookup
    of (account, bin, pool) finds an active row whose amount is the LP
    balance the chain reports after the transaction. *)
Theorem add_liquidity_outcomes {chain : Type} `{!Gateway chain}
    (self : Pool.LiquidityPool) (bin : Z) (avax_amount btc_amount : Q) (private_key : string)
    (w : World chain) :
  let out := Pool.add_liquidity self bin avax_amount btc_amount private_key w in
  (exists b, fst out = Some b) /\
  (fst out = Some false -> Db.positions (store (snd out)) = Db.positions (store w)) /\
  (fst out = Some true ->
   exists account op balance id r,
     from_key private_key = Some account /\
     Db.operations (store (snd out)) = Db.operations (store w) ++ [op] /\
     Db.operation_type op = "add" /\
     Db.op_bin_id op = Some bin /\
     Db.op_wallet_address op = account /\
     balanceOf (chain_state (snd out)) account bin = Some balance /\
     Db.get_position_by_bin (store (snd out)) account bin Config.POOL_ADDRESS = Some (id, r) /\
     Db.amount r = Py.from_units balance 18).
Proof.
  cbv zeta.
  destruct (add_liquidity_outcome self bin avax_amount btc_amount private_key w)
    as [[Hf Hpos] | [Ht Hrec]].
  - split; [eauto|]. split; [auto | congruence].
  - split; [eauto|]. split; [congruence | auto].
Qed.

Lemma add_liquidity_outcomes_witness :
  let w := Sim.world (Sim.funded 103 [] 2000000000000000000 0) Db.empty in
  let out := Pool.add_liquidity Sim.pool 104 1 0 Sim.private_key w in
  exists account op balance id r,
    from_key Sim.private_key = Some account /\
    Db.operations (store (snd out)) = Db.operations (store w) ++ [op] /\
    Db.operation_type op = "add" /\
    Db.op_bin_id op = Some 104 /\
    Db.op_wallet_address op = account /\
    balanceOf (chain_state (snd out)) account 104 = Some balance /\
    Db.get_position_by_bin (store (snd out)) account 104 Config.POOL_ADDRESS = Some (id, r) /\
    Db.amount r = Py.from_units balance 18.
Proof.
  intros w out.
  apply (proj2 (proj2 (add_liquidity_outcomes Sim.pool 104 1 0 Sim.private_key w))).
  vm_compute. reflexivity.
Defined.

Lemma get_position_by_bin_rows s s' wallet bin pool :
  Db.positions s = Db.positions s' ->
  Db.get_position_by_bin s wallet bin pool = Db.get_position_by_bin s' wallet bin pool.
Proof. unfold Db.get_position_by_bin. now intros ->. Qed.

Lemma one_active_per_bin_rows s s' :
  Db.positions s = Db.positions s' -> one_active_per_bin s -> one_active_per_bin s'.
Proof. unfold one_active_per_bin. now intros ->. Qed.

Lemma le_from_units_0 balance : Py.le (Py.from_units balance 18) 0 = (balance <=? 0).
Proof.
  unfold Py.le, Py.from_units.
  destruct (Z.leb_spec balance 0) as [Hle|Hgt].
  - apply Qle_bool_iff. unfold Qle. cbn [Qnum Qden]. lia.
  - destruct (Qle_bool _ 0) eqn:Hq; [|reflexivity].
    apply Qle_bool_iff in Hq. unfold Qle in Hq. cbn [Qnum Qden] in Hq. lia.
Qed.

Section RemoveOutcomes.
Context {chain : Type} `{!Gateway chain}.
Variable self : Pool.LiquidityPool.

Ltac run_call m w a w1 Hm :=
  destruct (m w) as [[a|] w1] eqn:Hm;
  [rewrite (bind_ok _ _ _ _ _ Hm) | rewrite (bind_raise _ _ _ _ Hm)].

Lemma remove_liquidity_outcome bin liquidity_amount key (w : World chain) :
  let out := Pool.remove_liquidity self bin liquidity_amount key w in
  (fst out = Some false /\ Db.positions (store (snd out)) = Db.positions (store w)) \/
  (fst out = Some true /\ remove_recorded bin key w (snd out)).
Proof.
  cbv zeta. unfold Pool.remove_liquidity, try_except.
  destruct (from_key key) as [account|] eqn:Hk.
  2:{ erewrite bind_raise by (unfold call_from_key, read; rewrite Hk; reflexivity).
      left. now split. }
  erewrite bind_ok by (unfold call_from_key, read; rewrite Hk; reflexivity).
  set (w1 := log (CallFromKey key) w).
  assert (Hs1 : store w1 = store w) by reflexivity. clearbody w1.
  match goal with
  | |- context [bind ?m _ w1] =>
      assert (Hs2 : same_store w1 (snd (m w1)))
        by (destruct (Py.le liquidity_amount 0);
            [apply get_lp_balance_same_store | reflexivity]);
      run_call m w1 amount w2 H2
  end; unfold same_store in Hs2; cbn [snd] in Hs2;
    [|left; split; [reflexivity | cbn; congruence]].
  destruct (Py.le amount 0); [left; split; [reflexivity | cbn; congruence]|].
  cbv zeta.
  pose proof (approve_lp_tokens_same_store Config.ROUTER_ADDRESS key w2) as Hs3.
  run_call (Pool.approve_lp_tokens Config.ROUTER_ADDRESS key) w2 ok w3 H3;
    unfold same_store in Hs3; cbn [snd] in Hs3;
    [|left; split; [reflexivity | cbn; congruence]].
  destruct ok; cbn [negb]; [|left; split; [reflexivity | cbn; congruence]].
  assert (Hs4 : same_store w3 (snd (call_latestTimestamp w3)))
    by apply (read_same_store CallLatestBlock latestTimestamp).
  run_call call_latestTimestamp w3 now w4 H4;
    unfold same_store in Hs4; cbn [snd] in Hs4;
    [|left; split; [reflexivity | cbn; congruence]].
  match goal with
  | |- context [bind (call_transact ?a ?k ?g ?tx) _ w4] =>
      pose proof (transact_same_store a k g tx w4) as Hs5;
      run_call (call_transact a k g tx) w4 receipt w5 H5
  end;
    unfold same_store in Hs5; cbn [snd] in Hs5;
    [|left; split; [reflexivity | cbn; congruence]].
  destruct (status receipt =? 1); [|left; split; [reflexivity | cbn; congruence]].
  match goal with
  | |- context [bind (db (fun s => Db.record_operation s ?op)) _ w5] => set (the_op := op)
  end.
  pose (w6 := {| chain_state := chain_state w5;
                 store := snd (Db.record_operation (store w5) the_op);
                 trace := trace w5 |}).
  assert (H6 : db (fun s => Db.record_operation s the_op) w5 =
               (Some (fst (Db.record_operation (store w5) the_op)), w6)) by reflexivity.
  rewrite (bind_ok _ _ _ _ _ H6).
  destruct (balanceOf (chain_state w6) account bin) as [balance|] eqn:Hbal.
  2:{ assert (H7 : Pool.get_lp_balance bin account w6 =
                   (None, log (CallBalanceOf account bin) w6))
        by (unfold Pool.get_lp_balance, bind, call_balanceOf, read; now rewrite Hbal).
      rewrite (bind_raise _ _ _ _ H7).
      left. split; [reflexivity|]. cbn. congruence. }
  pose (w7 := log (CallBalanceOf account bin) w6).
  assert (H7 : Pool.get_lp_balance bin account w6 = (Some (Py.from_units balance 18), w7))
    by (unfold Pool.get_lp_balance, bind, call_balanceOf, read, ret; now rewrite Hbal).
  rewrite (bind_ok _ _ _ _ _ H7).
  assert (H8 : db_query (fun s => Db.get_position_by_bin s account bin Config.POOL_ADDRESS) w7 =
               (Some (Db.get_position_by_bin (store w7) account bin Config.POOL_ADDRESS), w7))
    by reflexivity.
  rewrite (bind_ok _ _ _ _ _ H8).
  right.
  assert (Hops : Db.operations (store w7) = Db.operations (store w) ++ [the_op])
    by (cbn; congruence).
  assert (Hrows : Db.positions (store w7) = Db.positions (store w)) by (cbn; congruence).
  rewrite (get_position_by_bin_rows (store w7) (store w)) by exact Hrows.
  rewrite le_from_units_0.
  destruct (Db.get_position_by_bin (store w) account bin Config.POOL_ADDRESS)
    as [[id r]|] eqn:Hq.
  - cbn [fst]. destruct (Z.leb_spec balance 0) as [Hle|Hgt].
    + erewrite bind_ok by reflexivity. split; [reflexivity|].
      exists account, the_op, balance. cbn [snd ret store chain_state].
      repeat split; try reflexivity; try assumption.
      * intros Hpos. lia.
      * intros _ Hinv.
        apply (deactivated_row_not_found (store w7) account bin Config.POOL_ADDRESS id r).
        -- now apply (one_active_per_bin_rows (store w)).
        -- now rewrite (get_position_by_bin_rows (store w7) (store w)).
      * intros Hn. rewrite Hq in Hn. discriminate.
    + erewrite bind_ok by reflexivity. split; [reflexivity|].
      exists account, the_op, balance. cbn [snd ret store chain_state].
      repeat split; try reflexivity; try assumption.
      * intros _ id' r' Hq'. rewrite Hq in Hq'. inversion Hq'; subst id' r'.
        apply (update_position_then_lookup (store w7)).
        now rewrite (get_position_by_bin_rows (store w7) (store w)).
      * intros Hle. lia.
      * intros Hn. rewrite Hq in Hn. discriminate.
  - split; [reflexivity|].
    exists account, the_op, balance. cbn [snd ret store chain_state].
    repeat split; try reflexivity; try assumption.
    + intros _ id' r' Hq'. rewrite Hq in Hq'. discriminate.
    + intros _ _. now rewrite (get_position_by_bin_rows (store w7) (store w)).
    + intros _. exact Hrows.
Qed.

End RemoveOutcomes.
(** X11: [remove_liquidity] never raises.  When it returns False the
    positions table is as it was.  When it returns True, one operation of
    type remove for the bin has been appended to the log and the bin's row
    follows the LP balance the chain reports after the transaction: with a
    positive balance the row found before keeps its id and carries the live
    amount; with a zero balance (and at most one active row per bin before)
    the bin is no longer tracked; and a bin that was not tracked gets no row. *)
Theorem remove_liquidity_outcomes {chain : Type} `{!Gateway chain}
    (self : Pool.LiquidityPool) (bin : Z) (liquidity_amount : Q) (private_key : string)
    (w : World chain) :
  let out := Pool.remove_liquidity self bin liquidity_amount private_key w in
  (exists b, fst out = Some b) /\
  (fst out = Some false -> Db.positions (store (snd out)) = Db.positions (store w)) /\
  (fst out = Some true ->
   exists account op balance,
     from_key private_key = Some account /\
     Db.operations (store (snd out)) = Db.operations (store w) ++ [op] /\
     Db.operation_type op = "remove" /\
     Db.op_bin_id op = Some bin /\
     Db.op_wallet_address op = account /\
     balanceOf (chain_state (snd out)) account bin = Some balance /\
     (0 < balance ->
      forall id r,
        Db.get_position_by_bin (store w) account bin Config.POOL_ADDRESS = Some (id, r) ->
        Db.get_position_by_bin (store (snd out)) account bin Config.POOL_ADDRESS =
          Some (id, Db.set_amount_active (Py.from_units balance 18) true r)) /\
     (balance <= 0 ->
      one_active_per_bin (store w) ->
      Db.get_position_by_bin (store (snd out)) account bin Config.POOL_ADDRESS = None) /\
     (Db.get_position_by_bin (store w) account bin Config.POOL_ADDRESS = None ->
      Db.positions (store (snd out)) = Db.positions (store w))).
Proof.
  cbv zeta.
  destruct (remove_liquidity_outcome self bin liquidity_amount private_key w)
    as [[Hf Hpos] | [Ht Hrec]].
  - split; [eauto|]. split; [auto | congruence].
  - split; [eauto|]. split; [congruence | auto].
Qed.

Lemma remove_liquidity_outcomes_witness :
  let w := Sim.world (Sim.chain0 100 [(101, 7000000000000000000)])
                     (Sim.store_of [Sim.row 101 7 true]) in
  let out := Pool.remove_liquidity Sim.pool 101 0 Sim.private_key w in
  fst out = Some true /\
  Db.get_position_by_bin (store (snd out)) Sim.wallet 101 Config.POOL_ADDRESS = None.
Proof.
  intros w out.
  assert (Htrue : fst out = Some true) by (vm_compute; reflexivity).
  split; [exact Htrue|].
  destruct (proj2 (proj2 (remove_liquidity_outcomes Sim.pool 101 0 Sim.private_key w)) Htrue)
    as (account & op & balance & Hk & _ & _ & _ & _ & Hbal & _ & Hgone & _).
  assert (Ha : account = Sim.wallet) by (vm_compute in Hk; now inversion Hk).
  subst account.
  assert (Hb : balance = 0) by (vm_compute in Hbal; now inversion Hbal).
  apply Hgone; [lia|].
  intros i j ri rj Hi Hj _ _ _.
  destruct i as [|i], j as [|j]; cbn in Hi, Hj; try discriminate; reflexivity.
Defined.

(** X12: asked to remove everything from a bin ([liquidity_amount <= 0]) in
    which the wallet holds no LP tokens, [remove_liquidity] returns False
    after the balance read: it sends no transaction, and the store and the
    chain are as they were. *)
Theorem remove_liquidity_nothing_to_remove {chain : Type} `{!Gateway chain}
    (self : Pool.LiquidityPool) (bin : Z) (liquidity_amount : Q)
    (private_key account : string) (balance : Z) (w : World chain) :
  from_key private_key = Some account ->
  (liquidity_amount <= 0)%Q ->
  balanceOf (chain_state w) account bin = Some balance ->
  balance <= 0 ->
  let out := Pool.remove_liquidity self bin liquidity_amount private_key w in
  fst out = Some false /\
  store (snd out) = store w /\
  chain_state (snd out) = chain_state w /\
  trace (snd out) = trace w ++ [CallFromKey private_key; CallBalanceOf account bin].
Proof.
  intros Hk Hamt Hbal Hle. cbv zeta.
  unfold Pool.remove_liquidity, try_except.
  erewrite bind_ok by (unfold call_from_key, read; rewrite Hk; reflexivity).
  assert (Hle0 : Py.le liquidity_amount 0 = true) by now apply Qle_bool_iff.
  rewrite Hle0.
  assert (H2 : Pool.get_lp_balance bin account (log (CallFromKey private_key) w) =
               (Some (Py.from_units balance 18),
                log (CallBalanceOf account bin) (log (CallFromKey private_key) w)))
    by (unfold Pool.get_lp_balance, bind, call_balanceOf, read, ret; cbn [chain_state log];
        now rewrite Hbal).
  rewrite (bind_ok _ _ _ _ _ H2).
  rewrite le_from_units_0. destruct (Z.leb_spec balance 0); [|lia].
  cbn. rewrite <- app_assoc. auto.
Qed.

Lemma remove_liquidity_nothing_to_remove_witness :
  let w := Sim.world (Sim.chain0 100 []) Db.empty in
  let out := Pool.remove_liquidity Sim.pool 101 0 Sim.private_key w in
  fst out = Some false /\
  store (snd out) = store w /\
  chain_state (snd out) = chain_state w /\
  trace (snd out) = trace w ++ [CallFromKey Sim.private_key; CallBalanceOf Sim.wallet 101].
Proof.
  intros w out.
  apply (remove_liquidity_nothing_to_remove Sim.pool 101 0 Sim.private_key Sim.wallet 0 w).
  - reflexivity.
  - apply Qle_refl.
  - reflexivity.
  - lia.
Defined.

(** ** A successful remove-all *)

Lemma untrack_invariant account s bin :
  one_active_per_bin s -> one_active_per_bin (untrack account s bin).
Proof.
  intros Hinv. unfold untrack.
  destruct (Db.get_position_by_bin s account bin Config.POOL_ADDRESS);
    [now apply invariant_deactivate | exact Hinv].
Qed.

Lemma untrack_keeps_untracked account s bin bin' :
  Db.get_position_by_bin s account bin' Config.POOL_ADDRESS = None ->
  Db.get_position_by_bin (untrack account s bin) account bin' Config.POOL_ADDRESS = None.
Proof.
  intros Hnone. unfold untrack.
  destruct (Db.get_position_by_bin s account bin Config.POOL_ADDRESS);
    [now apply deactivate_keeps_untracked | exact Hnone].
Qed.

Lemma untrack_untracks account s bin :
  one_active_per_bin s ->
  Db.get_position_by_bin (untrack account s bin) account bin Config.POOL_ADDRESS = None.
Proof.
  intros Hinv. unfold untrack.
  destruct (Db.get_position_by_bin s account bin Config.POOL_ADDRESS) as [[id r]|] eqn:Hq;
    [|exact Hq].
  now apply (deactivated_row_not_found s account bin Config.POOL_ADDRESS id r).
Qed.

Lemma untrack_fold_keeps account (l : list Z) s bin :
  Db.get_position_by_bin s account bin Config.POOL_ADDRESS = None ->
  Db.get_position_by_bin (foldl (untrack account) s l) account bin Config.POOL_ADDRESS = None.
Proof.
  revert s. induction l as [|b l IH]; intros s Hnone; [exact Hnone|].
  cbn [foldl]. apply IH. now apply untrack_keeps_untracked.
Qed.

Lemma untrack_fold_untracks account (l : list Z) s bin :
  one_active_per_bin s -> In bin l ->
  Db.get_position_by_bin (foldl (untrack account) s l) account bin Config.POOL_ADDRESS = None.
Proof.
  revert s. induction l as [|b l IH]; intros s Hinv Hin; [destruct Hin|].
  cbn [foldl]. destruct Hin as [->|Hin].
  - apply untrack_fold_keeps. now apply untrack_untracks.
  - apply IH; [now apply untrack_invariant | exact Hin].
Qed.

Lemma untrack_fold_operations account (l : list Z) s :
  Db.operations (foldl (untrack account) s l) = Db.operations s.
Proof.
  revert s. induction l as [|b l IH]; intros s; [reflexivity|].
  cbn [foldl]. rewrite IH. unfold untrack.
  now destruct (Db.get_position_by_bin s account b Config.POOL_ADDRESS).
Qed.

Section RemoveAll.
Context {chain : Type} `{!Gateway chain}.
Variable self : Pool.LiquidityPool.

Ltac run_call m w a w1 Hm :=
  destruct (m w) as [[a|] w1] eqn:Hm;
  [rewrite (bind_ok _ _ _ _ _ Hm) | rewrite (bind_raise _ _ _ _ Hm)].

Lemma deactivate_removed_run account u pos (w : World chain) :
  Pool.deactivate_removed account u pos w =
  (Some tt, after w (untrack account (store w) (Pool.bin_id pos)) []).
Proof.
  unfold Pool.deactivate_removed, untrack, bind, db_query, db, ret, after. cbn.
  rewrite app_nil_r.
  destruct (Db.get_position_by_bin (store w) account (Pool.bin_id pos) Config.POOL_ADDRESS);
    cbn; [reflexivity | now destruct w].
Qed.

Lemma deactivate_removed_loop_run account (l : list Pool.Position) (w : World chain) :
  for_each l (Pool.deactivate_removed account) tt w =
  (Some tt, after w (foldl (untrack account) (store w) (map Pool.bin_id l)) []).
Proof.
  revert w. induction l as [|pos l IH]; intros w.
  - unfold after. cbn. rewrite app_nil_r. now destruct w.
  - cbn [for_each map foldl]. erewrite bind_ok by apply deactivate_removed_run.
    rewrite IH. unfold after. cbn. now rewrite !app_nil_r.
Qed.

Lemma remove_all_liquidity_success key scan_range (w : World chain) :
  fst (Pool.remove_all_liquidity self key scan_range w) = Some true ->
  exists account positions op,
    from_key key = Some account /\
    fst (Pool.get_all_lp_balances self account scan_range true w) = Some positions /\
    positions <> [] /\
    Db.op_wallet_address op = account /\
    Db.operation_type op = "remove_all" /\
    store (snd (Pool.remove_all_liquidity self key scan_range w)) =
      foldl (untrack account)
            (snd (Db.record_operation
                    (store (snd (Pool.get_all_lp_balances self account scan_range true w))) op))
            (map Pool.bin_id positions).
Proof.
  unfold Pool.remove_all_liquidity, try_except.
  destruct (from_key key) as [account|] eqn:Hk.
  2:{ erewrite bind_raise by (unfold call_from_key, read; rewrite Hk; reflexivity).
      discriminate. }
  erewrite bind_ok by (unfold call_from_key, read; rewrite Hk; reflexivity).
  set (w1 := log (CallFromKey key) w).
  assert (Hc1 : chain_state w1 = chain_state w) by reflexivity.
  assert (Hs1 : store w1 = store w) by reflexivity.
  clearbody w1.
  destruct (get_all_lp_balances_run self account scan_range true w1) as (Hr2 & Hs2 & _).
  destruct (get_all_lp_balances_run self account scan_range true w) as (Hr0 & Hs0 & _).
  rewrite Hc1, Hs1, <- Hr0 in Hr2. rewrite Hc1, Hs1, <- Hs0 in Hs2.
  run_call (Pool.get_all_lp_balances self account scan_range true) w1 positions w2 H2;
    cbn [fst snd] in Hr2, Hs2; [|discriminate].
  destruct positions as [|p ps]; [discriminate|].
  cbn [Py.nonempty negb].
  pose proof (approve_lp_tokens_same_store Config.ROUTER_ADDRESS key w2) as Hs3.
  run_call (Pool.approve_lp_tokens Config.ROUTER_ADDRESS key) w2 ok w3 H3;
    unfold same_store in Hs3; cbn [snd] in Hs3; [|discriminate].
  destruct ok; cbn [negb]; [|discriminate].
  cbv zeta.
  assert (Hs4 : same_store w3 (snd (call_latestTimestamp w3)))
    by apply (read_same_store CallLatestBlock latestTimestamp).
  run_call call_latestTimestamp w3 now w4 H4;
    unfold same_store in Hs4; cbn [snd] in Hs4; [|discriminate].
  match goal with
  | |- context [bind (call_transact ?a ?k ?g ?tx) _ w4] =>
      pose proof (transact_same_store a k g tx w4) as Hs5;
      run_call (call_transact a k g tx) w4 receipt w5 H5
  end;
    unfold same_store in Hs5; cbn [snd] in Hs5; [|discriminate].
  destruct (status receipt =? 1); [|discriminate].
  match goal with
  | |- context [bind (db (fun s => Db.record_operation s ?op)) _ w5] => set (the_op := op)
  end.
  pose (w6 := {| chain_state := chain_state w5;
                 store := snd (Db.record_operation (store w5) the_op);
                 trace := trace w5 |}).
  assert (H6 : db (fun s => Db.record_operation s the_op) w5 =
               (Some (fst (Db.record_operation (store w5) the_op)), w6)) by reflexivity.
  rewrite (bind_ok _ _ _ _ _ H6).
  erewrite bind_ok by apply deactivate_removed_loop_run.
  intros _. exists account, (p :: ps), the_op.
  repeat split; try reflexivity; try assumption; try discriminate.
  - now rewrite Hr2.
  - unfold ret. cbn [snd after store]. subst w6. cbn [store].
    replace (store w5) with (store w2) by congruence. now rewrite Hs2.
Qed.

End RemoveAll.

(** X13: when [remove_all_liquidity] returns True, one operation of type
    remove_all has been appended to the log, and (starting from a store with
    at most one active row per bin) none of the bins position resolution
    returned is tracked any more: a lookup of each finds no active row. *)
Theorem remove_all_liquidity_untracks {chain : Type} `{!Gateway chain}
    (self : Pool.LiquidityPool) (private_key : string) (scan_range : Z) (w : World chain) :
  one_active_per_bin (store w) ->
  let out := Pool.remove_all_liquidity self private_key scan_range w in
  fst out = Some true ->
  exists account positions op,
    from_key private_key = Some account /\
    fst (Pool.get_all_lp_balances self account scan_range true w) = Some positions /\
    positions <> [] /\
    Db.operations (store (snd out)) = Db.operations (store w) ++ [op] /\
    Db.operation_type op = "remove_all" /\
    forall p, In p positions ->
      Db.get_position_by_bin (store (snd out)) account (Pool.bin_id p) Config.POOL_ADDRESS = None.
Proof.
  intros Hinv out Htrue. subst out.
  destruct (remove_all_liquidity_success self private_key scan_range w Htrue)
    as (account & positions & op & Hk & Hres & Hne & _ & Hty & Hstore).
  exists account, positions, op. rewrite Hstore.
  repeat split; try assumption.
  - rewrite untrack_fold_operations. cbn [Db.record_operation snd Db.operations].
    destruct (get_all_lp_balances_run self account scan_range true w) as (_ & -> & _).
    now rewrite resolved_operations.
  - intros p Hp. apply untrack_fold_untracks; [|now apply List.in_map].
    apply invariant_record_operation.
    now apply get_all_lp_balances_keeps_invariant.
Qed.

Lemma remove_all_liquidity_untracks_witness :
  let w := Sim.world (Sim.funded 103 [(101, 7000000000000000000)] 2000000000000000000 0)
                     (Sim.store_of [Sim.row 101 5 true; Sim.row 101 3 false]) in
  let out := Pool.remove_all_liquidity Sim.pool Sim.private_key 10 w in
  exists account positions op,
    from_key Sim.private_key = Some account /\
    fst (Pool.get_all_lp_balances Sim.pool account 10 true w) = Some positions /\
    positions <> [] /\
    Db.operations (store (snd out)) = Db.operations (store w) ++ [op] /\
    Db.operation_type op = "remove_all" /\
    forall p, In p positions ->
      Db.get_position_by_bin (store (snd out)) account (Pool.bin_id p) Config.POOL_ADDRESS = None.
Proof.
  intros w out.
  apply (remove_all_liquidity_untracks Sim.pool Sim.private_key 10 w sim_store_one_active).
  vm_compute. reflexivity.
Defined.

(** ** A successful rebalance *)

Section RebalanceSuccess.
Context {chain : Type} `{!Gateway chain}.
Variable pool : Pool.LiquidityPool.

Ltac run_call m w a w1 Hm :=
  destruct (m w) as [[a|] w1] eqn:Hm;
  [rewrite (bind_ok _ _ _ _ _ Hm) | rewrite (bind_raise _ _ _ _ Hm)].

Lemma remove_all_liquidity_success_log key scan_range (w : World chain) :
  fst (Pool.remove_all_liquidity pool key scan_range w) = Some true ->
  exists op,
    Db.operations (store (snd (Pool.remove_all_liquidity pool key scan_range w))) =
      Db.operations (store w) ++ [op] /\
    Db.operation_type op = "remove_all".
Proof.
  intros Htrue.
  destruct (remove_all_liquidity_success pool key scan_range w Htrue)
    as (account & positions & op & _ & _ & _ & _ & Hty & ->).
  exists op. split; [|exact Hty].
  rewrite untrack_fold_operations. cbn [Db.record_operation snd Db.operations].
  destruct (get_all_lp_balances_run pool account scan_range true w) as (_ & -> & _).
  now rewrite resolved_operations.
Qed.

(* One of the two guarded deposits of Step 4. *)
Lemma deposit_step (cond : bool) bin avax btc key (count : Z) (w : World chain) :
  exists n w',
    (if cond then
       added <- Pool.add_liquidity pool bin avax btc key ;;
       ret (if added then count + 1 else count)
     else ret count) w = (Some n, w') /\
    log_extends (store w) (store w') /\
    (n = count \/
     (n = count + 1 /\
      exists op, Db.operations (store w') = Db.operations (store w) ++ [op] /\
                 Db.operation_type op = "add" /\ Db.op_bin_id op = Some bin)).
Proof.
  destruct cond.
  - pose proof (add_liquidity_grows pool bin avax btc key w) as [Hlog _].
    destruct (add_liquidity_outcome pool bin avax btc key w) as [[Hf _] | [Ht Hrec]];
      destruct (Pool.add_liquidity pool bin avax btc key w) as [r w'] eqn:Hadd;
      cbn [fst snd] in *; subst r.
    + exists count, w'. split; [unfold bind; rewrite Hadd; reflexivity|].
      split; [exact Hlog | now left].
    + exists (count + 1), w'. split; [unfold bind; rewrite Hadd; reflexivity|].
      split; [exact Hlog|]. right. split; [reflexivity|].
      destruct Hrec as (account & op & balance & id & r & _ & Hops & Hty & Hbin & _).
      eauto.
  - exists count, w. split; [reflexivity|]. split; [apply log_extends_refl | now left].
Qed.

Lemma rebalance_liquidity_success key active_id (w : World chain) :
  fst (AutoRebalance.rebalance_liquidity pool key active_id w) = Some true ->
  exists removal before deposit after,
    Db.operations (store (snd (AutoRebalance.rebalance_liquidity pool key active_id w))) =
      Db.operations (store w) ++ removal :: before ++ deposit :: after /\
    Db.operation_type removal = "remove_all" /\
    Db.operation_type deposit = "add" /\
    (Db.op_bin_id deposit = Some (active_id + 1) \/
     Db.op_bin_id deposit = Some (active_id - 1)).
Proof.
  unfold AutoRebalance.rebalance_liquidity.
  pose proof (get_wallet_address_same_store key w) as Hs1.
  destruct (get_wallet_address_returns key w) as [oa Hoa].
  destruct (Wallet.get_wallet_address key w) as [r1 w1] eqn:H1.
  cbn [fst snd] in Hoa, Hs1. subst r1. unfold same_store in Hs1.
  rewrite (bind_ok _ _ _ _ _ H1).
  pose proof (remove_all_liquidity_success_log key Config.DEFAULT_BIN_SCAN_RANGE w1) as Hrm.
  run_call (Pool.remove_all_liquidity pool key Config.DEFAULT_BIN_SCAN_RANGE) w1 ok w2 H2;
    cbn [fst snd] in Hrm; [|discriminate].
  destruct ok; cbn [negb]; [|discriminate].
  destruct (Hrm eq_refl) as (removal & Hops2 & Hty2). clear Hrm.
  pose proof (get_balance_same_store Config.WAVAX_ADDRESS oa w2) as Hs3.
  run_call (Pool.get_balance Config.WAVAX_ADDRESS oa) w2 avax w3 H3;
    unfold same_store in Hs3; cbn [snd] in Hs3; [|discriminate].
  pose proof (get_balance_same_store Config.BTCB_ADDRESS oa w3) as Hs4.
  run_call (Pool.get_balance Config.BTCB_ADDRESS oa) w3 btc w4 H4;
    unfold same_store in Hs4; cbn [snd] in Hs4; [|discriminate].
  cbv zeta.
  match goal with
  | |- context [bind (if ?c then (added <- Pool.add_liquidity pool ?b ?x ?y key ;; _)
                      else ret 0) _ w4] =>
      destruct (deposit_step c b x y key 0 w4) as (n1 & w5 & H5 & Hlog5 & Hn1)
  end.
  rewrite (bind_ok _ _ _ _ _ H5).
  match goal with
  | |- context [bind (if ?c then (added <- Pool.add_liquidity pool ?b ?x ?y key ;; _)
                      else ret n1) _ w5] =>
      destruct (deposit_step c b x y key n1 w5) as (n2 & w6 & H6 & Hlog6 & Hn2)
  end.
  rewrite (bind_ok _ _ _ _ _ H6).
  destruct (Z.ltb_spec 0 n2) as [Hpos|Hzero]; [|discriminate].
  pose proof (get_balance_same_store Config.WAVAX_ADDRESS oa w6) as Hs7.
  run_call (Pool.get_balance Config.WAVAX_ADDRESS oa) w6 avax' w7 H7;
    unfold same_store in Hs7; cbn [snd] in Hs7; [|discriminate].
  pose proof (get_balance_same_store Config.BTCB_ADDRESS oa w7) as Hs8.
  run_call (Pool.get_balance Config.BTCB_ADDRESS oa) w7 btc' w8 H8;
    unfold same_store in Hs8; cbn [snd] in Hs8; [|discriminate].
  intros _. cbn [snd ret].
  assert (Hops4 : Db.operations (store w4) = Db.operations (store w) ++ [removal])
    by congruence.
  replace (store w8) with (store w6) by congruence.
  unfold AutoRebalance.get_optimal_bin in *. cbn [bool_decide decide_rel] in *.
  destruct Hlog5 as [extra5 Hx5]. destruct Hlog6 as [extra6 Hx6].
  destruct Hn1 as [-> | [-> (op1 & Hop1 & Hty1 & Hbin1)]].
  - destruct Hn2 as [-> | [-> (op2 & Hop2 & Hty2' & Hbin2)]]; [lia|].
    exists removal, extra5, op2, []. rewrite Hop2, Hx5, Hops4, <- !app_assoc.
    repeat split; auto.
  - exists removal, [], op1, extra6. rewrite Hx6, Hop1, Hops4, <- !app_assoc.
    repeat split; auto.
Qed.

End RebalanceSuccess.

(** X14: [rebalance_liquidity] returns True only after the store has logged
    the withdrawal and at least one deposit into an optimal bin: the log
    then continues the earlier log with an operation of type remove_all
    followed, later, by an operation of type add for bin [active_id + 1] or
    [active_id - 1]. *)
Theorem rebalance_success_is_logged {chain : Type} `{!Gateway chain}
    (pool : Pool.LiquidityPool) (private_key : string) (active_id : Z) (w : World chain) :
  let out := AutoRebalance.rebalance_liquidity pool private_key active_id w in
  fst out = Some true ->
  exists removal before deposit after,
    Db.operations (store (snd out)) =
      Db.operations (store w) ++ removal :: before ++ deposit :: after /\
    Db.operation_type removal = "remove_all" /\
    Db.operation_type deposit = "add" /\
    (Db.op_bin_id deposit = Some (active_id + 1) \/
     Db.op_bin_id deposit = Some (active_id - 1)).
Proof. cbv zeta. apply rebalance_liquidity_success. Qed.

Lemma rebalance_success_is_logged_witness :
  let w := Sim.world (Sim.funded 103 [(101, 7000000000000000000)] 2000000000000000000 0)
                     (Sim.store_of [Sim.row 101 5 true; Sim.row 101 3 false]) in
  let out := AutoRebalance.rebalance_liquidity Sim.pool Sim.private_key 103 w in
  exists removal before deposit after,
    Db.operations (store (snd out)) =
      Db.operations (store w) ++ removal :: before ++ deposit :: after /\
    Db.operation_type removal = "remove_all" /\
    Db.operation_type deposit = "add" /\
    (Db.op_bin_id deposit = Some (103 + 1) \/ Db.op_bin_id deposit = Some (103 - 1)).
Proof.
  intros w out.
  apply (rebalance_success_is_logged Sim.pool Sim.private_key 103 w).
  vm_compute. reflexivity.
Defined.

(** ** Calls that send nothing *)

Lemma sends_nothing_refl {chain} (w : World chain) : sends_nothing w w.
Proof. split; reflexivity. Qed.

Lemma sends_nothing_trans {chain} (w1 w2 w3 : World chain) :
  sends_nothing w1 w2 -> sends_nothing w2 w3 -> sends_nothing w1 w3.
Proof. unfold sends_nothing. intros [H1 H2] [H3 H4]. split; congruence. Qed.

Lemma transactions_snoc t e : is_transact e = false -> transactions (t ++ [e]) = transactions t.
Proof.
  intros He. unfold transactions. rewrite List.filter_app. cbn. rewrite He. apply app_nil_r.
Qed.

Section Quiet.
Context {chain : Type} `{!Gateway chain}.
Variable pool : Pool.LiquidityPool.

Lemma read_sends_nothing {A} (c : Call) (f : chain -> option A) :
  is_transact c = false -> steps sends_nothing (read c f).
Proof.
  intros Hc w. split; [reflexivity|]. unfold read, log. cbn. now apply transactions_snoc.
Qed.

Lemma db_sends_nothing {A} (f : Db.Store -> A * Db.Store) :
  steps sends_nothing (@db chain A f).
Proof. intros w. unfold db. destruct (f (store w)). split; reflexivity. Qed.

Ltac quiet_leaf :=
  unfold call_from_key, call_getActiveId, call_balanceOf, call_getBin,
    call_tokenBalanceOf, call_allowance, call_latestTimestamp, Pool.get_active_bin, db_query;
  first [ apply read_sends_nothing; reflexivity | apply db_sends_nothing ].

Ltac quiet_structure :=
  lazymatch goal with
  | |- steps _ (ret _) => apply steps_ret; exact sends_nothing_refl
  | |- steps _ (bind _ _) => apply steps_bind; [exact sends_nothing_trans | | intros ?]
  | |- steps _ (try_except _ _) => apply steps_try; [exact sends_nothing_trans | | ]
  | |- steps _ (for_each _ _ _) =>
      apply steps_for_each; [exact sends_nothing_refl | exact sends_nothing_trans | intros ? ?]
  | |- steps _ (if ?b then _ else _) => destruct b
  | |- steps _ (match ?o with Some _ => _ | None => _ end) => destruct o
  end.

Ltac quiet := cbv zeta; repeat (first [quiet_structure | quiet_leaf]; cbv zeta).

Lemma get_balance_sends_nothing token wallet :
  steps (chain := chain) sends_nothing (Pool.get_balance token wallet).
Proof. unfold Pool.get_balance. quiet. Qed.

Lemma get_wallet_address_sends_nothing key :
  steps (chain := chain) sends_nothing (Wallet.get_wallet_address key).
Proof. unfold Wallet.get_wallet_address. quiet. Qed.

Lemma get_all_lp_balances_sends_nothing wallet scan_range use_db_first :
  steps (chain := chain) sends_nothing
        (Pool.get_all_lp_balances pool wallet scan_range use_db_first).
Proof.
  unfold Pool.get_all_lp_balances, Pool.verify_db_positions, Pool.scan_blockchain.
  quiet; unfold Pool.verify_db_position, Pool.scan_bin; quiet.
Qed.

End Quiet.

Lemma gt_max0_le (q t : Q) : (0 <= t)%Q -> (q <= t)%Q -> Py.gt (Py.max0 q) t = false.
Proof.
  intros H0 Hq. unfold Py.max0. destruct (Py.gt q 0); unfold Py.gt.
  - apply negb_false_iff. now apply Qle_bool_iff.
  - apply negb_false_iff. now apply Qle_bool_iff.
Qed.

Lemma avax_below_dust x :
  x <= 10001000000000000 ->
  (Py.from_units x 18 - AutoRebalance.AVAX_RESERVE <= 1 # 100)%Q.
Proof.
  intros Hx. unfold Py.from_units, AutoRebalance.AVAX_RESERVE.
  change (Z.to_pos (10 ^ 18)) with 1000000000000000000%positive.
  unfold Qle, Qminus, Qplus, Qopp. cbn [Qnum Qden]. lia.
Qed.

Lemma btc_below_dust y :
  y <= 10000 ->
  (Py.from_units y Config.BTCB_DECIMALS - AutoRebalance.BTC_RESERVE <= 1 # 10000)%Q.
Proof.
  intros Hy. unfold Py.from_units, AutoRebalance.BTC_RESERVE, Config.BTCB_DECIMALS.
  change (Z.to_pos (10 ^ 8)) with 100000000%positive.
  unfold Qle, Qminus, Qplus, Qopp. cbn [Qnum Qden]. lia.
Qed.

Section QuietCalls.
Context {chain : Type} `{!Gateway chain}.
Variable pool : Pool.LiquidityPool.

Lemma get_balance_wavax_run oa x (w : World chain) :
  tokenBalanceOf (chain_state w) Config.WAVAX_ADDRESS oa = Some x ->
  Pool.get_balance Config.WAVAX_ADDRESS oa w =
  (Some (Py.from_units x 18), log (CallTokenBalance Config.WAVAX_ADDRESS oa) w).
Proof.
  intros Hx. unfold Pool.get_balance, bind, call_tokenBalanceOf, read. now rewrite Hx.
Qed.

Lemma get_balance_btcb_run oa y (w : World chain) :
  tokenBalanceOf (chain_state w) Config.BTCB_ADDRESS oa = Some y ->
  Pool.get_balance Config.BTCB_ADDRESS oa w =
  (Some (Py.from_units y Config.BTCB_DECIMALS), log (CallTokenBalance Config.BTCB_ADDRESS oa) w).
Proof.
  intros Hy. unfold Pool.get_balance, bind, call_tokenBalanceOf, read. now rewrite Hy.
Qed.

Lemma add_initial_positions_dust key oa A x y (w : World chain) :
  fst (Wallet.get_wallet_address key w) = Some oa ->
  getActiveId (chain_state w) = Some A ->
  tokenBalanceOf (chain_state w) Config.WAVAX_ADDRESS oa = Some x ->
  tokenBalanceOf (chain_state w) Config.BTCB_ADDRESS oa = Some y ->
  x <= 10001000000000000 ->
  y <= 10000 ->
  fst (AutoRebalance.add_initial_positions pool key w) = Some false /\
  store (snd (AutoRebalance.add_initial_positions pool key w)) = store w /\
  sends_nothing w (snd (AutoRebalance.add_initial_positions pool key w)).
Proof.
  intros Hoa HA Hx Hy Hxs Hys. unfold AutoRebalance.add_initial_positions.
  pose proof (get_wallet_address_sends_nothing key w) as Hq1.
  pose proof (get_wallet_address_same_store key w) as Hs1.
  destruct (Wallet.get_wallet_address key w) as [r1 w1] eqn:H1.
  cbn [fst snd] in Hoa, Hq1, Hs1. subst r1. unfold same_store in Hs1.
  destruct Hq1 as [Hc1 Ht1].
  rewrite (bind_ok _ _ _ _ _ H1).
  assert (H2 : Pool.get_active_bin w1 = (Some A, log CallActiveId w1))
    by (unfold Pool.get_active_bin, call_getActiveId, read; now rewrite Hc1, HA).
  rewrite (bind_ok _ _ _ _ _ H2).
  rewrite (bind_ok _ _ _ _ _
             (get_balance_wavax_run oa x (log CallActiveId w1) ltac:(cbn; now rewrite Hc1))).
  rewrite (bind_ok _ _ _ _ _
             (get_balance_btcb_run oa y
                (log (CallTokenBalance Config.WAVAX_ADDRESS oa) (log CallActiveId w1))
                ltac:(cbn; now rewrite Hc1))).
  assert (Hend : forall b : bool,
    let w4 := log (CallTokenBalance Config.BTCB_ADDRESS oa)
                (log (CallTokenBalance Config.WAVAX_ADDRESS oa) (log CallActiveId w1)) in
    fst (ret b w4) = Some b /\ store (snd (ret b w4)) = store w /\
    sends_nothing w (snd (ret b w4))).
  { intros b. unfold ret, log. cbn [fst snd store chain_state trace].
    repeat split; [exact Hs1 | exact Hc1 |].
    cbn [trace]. rewrite !transactions_snoc by reflexivity. exact Ht1. }
  destruct (Py.lt _ _ && Py.lt _ _); [apply Hend|].
  cbv zeta.
  rewrite (gt_max0_le _ (1 # 100)) by (try apply avax_below_dust; easy).
  erewrite bind_ok by reflexivity.
  rewrite (gt_max0_le _ (1 # 10000)) by (try apply btc_below_dust; easy).
  erewrite bind_ok by reflexivity.
  apply Hend.
Qed.

Lemma should_rebalance_quiet positions A :
  (forall p, In p positions -> Z.abs (Pool.bin_id p - A) < 2) ->
  fst (AutoRebalance.should_rebalance pool positions A) = false.
Proof.
  intros Hnear. unfold AutoRebalance.should_rebalance.
  destruct (negb (Py.nonempty positions)); [reflexivity|].
  destruct (fst (AutoRebalance.first_breach positions A)) eqn:Hb; [|reflexivity].
  apply first_breach_true in Hb. destruct Hb as (p & Hp & Hd).
  specialize (Hnear p Hp). unfold AutoRebalance.DISTANCE_THRESHOLD in Hd. lia.
Qed.

Lemma monitor_check_quiet key account A positions (w : World chain) :
  getActiveId (chain_state w) = Some A ->
  fst (Pool.get_all_lp_balances pool account 50 true w) = Some positions ->
  positions <> [] ->
  (forall p, In p positions -> Z.abs (Pool.bin_id p - A) < 2) ->
  fst (AutoRebalance.monitor_check pool key account w) = Some tt /\
  sends_nothing w (snd (AutoRebalance.monitor_check pool key account w)).
Proof.
  intros HA Hres Hne Hnear. unfold AutoRebalance.monitor_check, try_except.
  assert (H1 : Pool.get_active_bin w = (Some A, log CallActiveId w))
    by (unfold Pool.get_active_bin, call_getActiveId, read; now rewrite HA).
  rewrite (bind_ok _ _ _ _ _ H1).
  set (w1 := log CallActiveId w).
  destruct (get_all_lp_balances_run pool account 50 true w1) as (Hr2 & _ & _).
  destruct (get_all_lp_balances_run pool account 50 true w) as (Hr0 & _ & _).
  change (chain_state w1) with (chain_state w) in Hr2.
  change (store w1) with (store w) in Hr2.
  rewrite <- Hr0, Hres in Hr2.
  pose proof (get_all_lp_balances_sends_nothing pool account 50 true w1) as Hq2.
  destruct (Pool.get_all_lp_balances pool account 50 true w1) as [r2 w2] eqn:H2.
  cbn [fst snd] in Hr2, Hq2. subst r2.
  rewrite (bind_ok _ _ _ _ _ H2).
  destruct positions as [|p ps]; [congruence|]. cbn [Py.nonempty]. cbv zeta.
  rewrite (should_rebalance_quiet (p :: ps) A Hnear).
  cbn [fst snd ret]. split; [reflexivity|].
  apply (sends_nothing_trans w w1 w2); [|exact Hq2].
  split; [reflexivity|]. subst w1. unfold log. cbn. now apply transactions_snoc.
Qed.

End QuietCalls.

(** X15: with at most 0.010001 WAVAX and at most 0.0001 BTC.b in the wallet
    (balances in wei and satoshi: what is left after the reserves is not
    above the dust thresholds), [add_initial_positions] returns False after
    reading the balances: it sends no transaction and leaves the store and
    the chain as they were. *)
Theorem add_initial_positions_declines_dust {chain : Type} `{!Gateway chain}
    (pool : Pool.LiquidityPool) (private_key : string) (account : option string)
    (A avax_wei btc_sat : Z) (w : World chain) :
  fst (Wallet.get_wallet_address private_key w) = Some account ->
  getActiveId (chain_state w) = Some A ->
  tokenBalanceOf (chain_state w) Config.WAVAX_ADDRESS account = Some avax_wei ->
  tokenBalanceOf (chain_state w) Config.BTCB_ADDRESS account = Some btc_sat ->
  avax_wei <= 10001000000000000 ->
  btc_sat <= 10000 ->
  let out := AutoRebalance.add_initial_positions pool private_key w in
  fst out = Some false /\
  store (snd out) = store w /\
  chain_state (snd out) = chain_state w /\
  transactions (trace (snd out)) = transactions (trace w).
Proof.
  intros Hoa HA Hx Hy Hxs Hys. cbv zeta.
  destruct (add_initial_positions_dust pool private_key account A avax_wei btc_sat w
              Hoa HA Hx Hy Hxs Hys) as (Hr & Hs & Hc & Ht).
  auto.
Qed.

Lemma add_initial_positions_declines_dust_witness :
  let w := Sim.world (Sim.funded 100 [] 10001000000000000 10000) Db.empty in
  let out := AutoRebalance.add_initial_positions Sim.pool Sim.private_key w in
  fst out = Some false /\
  store (snd out) = store w /\
  chain_state (snd out) = chain_state w /\
  transactions (trace (snd out)) = transactions (trace w).
Proof.
  intros w out.
  apply (add_initial_positions_declines_dust Sim.pool Sim.private_key (Some Sim.wallet)
           100 10001000000000000 10000 w);
    first [reflexivity | lia].
Defined.

(** X16: a monitoring check that finds positions, all of them less than two
    bins from the active bin, does not rebalance: it returns without sending
    any transaction and the chain is as it was. *)
Theorem monitor_check_within_threshold {chain : Type} `{!Gateway chain}
    (pool : Pool.LiquidityPool) (private_key account_address : string) (A : Z)
    (positions : list Pool.Position) (w : World chain) :
  getActiveId (chain_state w) = Some A ->
  fst (Pool.get_all_lp_balances pool account_address 50 true w) = Some positions ->
  positions <> [] ->
  (forall p, In p positions -> Z.abs (Pool.bin_id p - A) < 2) ->
  let out := AutoRebalance.monitor_check pool private_key account_address w in
  fst out = Some tt /\
  chain_state (snd out) = chain_state w /\
  transactions (trace (snd out)) = transactions (trace w).
Proof.
  intros HA Hres Hne Hnear. cbv zeta.
  destruct (monitor_check_quiet pool private_key account_address A positions w
              HA Hres Hne Hnear) as (Hr & Hc & Ht).
  auto.
Qed.

Lemma monitor_check_within_threshold_witness :
  let w := Sim.world (Sim.funded 100 [(101, 7000000000000000000)] 2000000000000000000 0)
                     (Sim.store_of [Sim.row 101 7 true]) in
  let out := AutoRebalance.monitor_check Sim.pool Sim.private_key Sim.wallet w in
  fst out = Some tt /\
  chain_state (snd out) = chain_state w /\
  transactions (trace (snd out)) = transactions (trace w).
Proof.
  intros w out.
  apply (monitor_check_within_threshold Sim.pool Sim.private_key Sim.wallet 100
           [Pool.mk_position Sim.pool 101 7000000000000000000 1000 2000 100] w).
  - reflexivity.
  - vm_compute. reflexivity.
  - discriminate.
  - intros p [<-|[]]. cbn. lia.
Defined.

(** ** Every store the engine produces *)

Ltac invariant_leaf :=
  first
    [ apply upsert_keeps_invariant
    | apply settle_keeps_invariant
    | apply deactivate_removed_keeps_invariant
    | apply record_operation_keeps_invariant
    | apply get_all_lp_balances_keeps_invariant
    | apply add_liquidity_keeps_invariant
    | apply remove_all_liquidity_keeps_invariant
    | apply rebalance_liquidity_keeps_invariant
    | apply (steps_weaken same_store keeps_invariant);
      [ exact same_store_keeps_invariant
      | first [ apply approve_token_same_store | apply approve_lp_tokens_same_store
              | apply get_lp_balance_same_store | apply get_balance_same_store
              | apply get_wallet_address_same_store
              | unfold Pool.get_active_bin, call_getActiveId; apply read_same_store ] ]
    | steps_structure ].

Section Reachable.
Context {chain : Type} `{!Gateway chain}.
Variable pool : Pool.LiquidityPool.

Lemma add_initial_positions_keeps_invariant key :
  steps (chain := chain) keeps_invariant (AutoRebalance.add_initial_positions pool key).
Proof.
  unfold AutoRebalance.add_initial_positions. cbv zeta.
  repeat (invariant_leaf; cbv zeta).
Qed.

Lemma monitor_check_keeps_invariant key account :
  steps (chain := chain) keeps_invariant (AutoRebalance.monitor_check pool key account).
Proof.
  unfold AutoRebalance.monitor_check. cbv zeta.
  repeat (first [apply add_initial_positions_keeps_invariant | invariant_leaf]; cbv zeta).
Qed.

Lemma world_after_keeps_invariant op (w : World chain) :
  keeps_invariant w (world_after pool op w).
Proof.
  destruct op; cbn [world_after].
  - apply get_all_lp_balances_keeps_invariant.
  - apply add_liquidity_keeps_invariant.
  - apply remove_liquidity_keeps_invariant.
  - apply remove_all_liquidity_keeps_invariant.
  - apply rebalance_liquidity_keeps_invariant.
  - apply add_initial_positions_keeps_invariant.
  - apply monitor_check_keeps_invariant.
Qed.

Lemma empty_store_invariant : one_active_per_bin Db.empty.
Proof. intros i j ri rj Hi. destruct i; discriminate. Qed.

End Reachable.

(** X17: starting from an empty database, no sequence of calls on the engine
    (including the initial deposit and the monitoring check), interleaved
    with arbitrary changes of the on-chain state, ever produces a store with
    two active rows for the same (wallet, pool, bin). *)
Theorem reachable_stores_one_active_per_bin {chain : Type} `{!Gateway chain}
    (pool : Pool.LiquidityPool) (w : World chain) :
  reachable pool w -> one_active_per_bin (store w).
Proof.
  induction 1 as [c t | op w Hw IH | c w Hw IH].
  - apply empty_store_invariant.
  - now apply world_after_keeps_invariant.
  - exact IH.
Qed.

Lemma reachable_stores_one_active_per_bin_witness :
  one_active_per_bin
    (store (world_after Sim.pool (OpRebalance Sim.private_key 103)
              (world_after Sim.pool (OpAddLiquidity 101 1 0 Sim.private_key)
                 (Sim.world (Sim.funded 100 [] 2000000000000000000 0) Db.empty)))).
Proof.
  apply (reachable_stores_one_active_per_bin Sim.pool).
  apply reach_call. apply reach_call.
  exact (reach_fresh Sim.pool (Sim.funded 100 [] 2000000000000000000 0) []).
Defined.

Lemma position_rows_persist_witness :
  let w := Sim.world (Sim.funded 103 [(101, 7000000000000000000)] 2000000000000000000 0)
                     (Sim.store_of [Sim.row 101 5 true; Sim.row 101 3 false]) in
  exists r',
    Db.positions (store (world_after Sim.pool (OpRebalance Sim.private_key 103) w)) !! 0%nat
      = Some r' /\
    Db.wallet_address r' = Sim.wallet /\
    Db.bin_id r' = 101 /\
    Db.token_x r' = Config.WAVAX_ADDRESS /\
    Db.token_y r' = Config.BTCB_ADDRESS /\
    Db.pool_address r' = Config.POOL_ADDRESS.
Proof.
  intros w.
  exact (position_rows_persist Sim.pool (OpRebalance Sim.private_key 103) w 0
           (Sim.row 101 5 true) eq_refl).
Defined.

(** ** Placement and threshold together *)

(** X18: for positions placed by [get_optimal_bin] around active bin A, what
    [should_rebalance] answers once the active bin is A': holding both sides
    it asks for a rebalance as soon as the active bin differs from A;
    holding the WAVAX side alone (bin A + 1) only when the active bin is
    below A or at least A + 3; holding the BTC.b side alone (bin A - 1) only
    when it is above A or at most A - 3. *)
Theorem optimal_bins_and_threshold (pool : Pool.LiquidityPool) (A A' : Z)
    (wavax_pos btc_pos : Pool.Position) :
  Pool.bin_id wavax_pos = AutoRebalance.get_optimal_bin pool A "WAVAX" ->
  Pool.bin_id btc_pos = AutoRebalance.get_optimal_bin pool A "BTC.b" ->
  (fst (AutoRebalance.should_rebalance pool [wavax_pos; btc_pos] A') = true <-> A' <> A) /\
  (fst (AutoRebalance.should_rebalance pool [wavax_pos] A') = true <->
     A' <= A - 1 \/ A + 3 <= A') /\
  (fst (AutoRebalance.should_rebalance pool [btc_pos] A') = true <->
     A' <= A - 3 \/ A + 1 <= A').
Proof.
  intros Hw Hb.
  change (AutoRebalance.get_optimal_bin pool A "WAVAX") with (A + 1) in Hw.
  change (AutoRebalance.get_optimal_bin pool A "BTC.b") with (A - 1) in Hb.
  unfold AutoRebalance.should_rebalance, AutoRebalance.first_breach,
    AutoRebalance.DISTANCE_THRESHOLD.
  cbn [Py.nonempty negb]. rewrite Hw, Hb.
  repeat split;
    repeat (match goal with
            | |- context [?a <=? ?b] => destruct (Z.leb_spec a b)
            end; cbn [fst]);
    intros; try lia; try reflexivity; try discriminate.
Qed.

Lemma optimal_bins_and_threshold_witness :
  (fst (AutoRebalance.should_rebalance Sim.pool [Sim.position 101; Sim.position 99] 101)
     = true <-> 101 <> 100) /\
  (fst (AutoRebalance.should_rebalance Sim.pool [Sim.position 101] 101) = true <->
     101 <= 100 - 1 \/ 100 + 3 <= 101) /\
  (fst (AutoRebalance.should_rebalance Sim.pool [Sim.position 99] 101) = true <->
     101 <= 100 - 3 \/ 100 + 1 <= 101).
Proof.
  apply (optimal_bins_and_threshold Sim.pool 100 101 (Sim.position 101) (Sim.position 99));
    reflexivity.
Defined.

(** ** Token approval *)

(** X19: [approve_token] never raises, and when the allowance the router
    already holds covers the amount (converted with 8 decimals for BTC.b and
    18 otherwise) it returns True without sending an approve transaction:
    the chain and the store are as they were. *)
Theorem approve_token_skips_when_allowed {chain : Type} `{!Gateway chain}
    (token spender : string) (amount : Q) (private_key account : string)
    (allowed : Z) (w : World chain) :
  let out := Pool.approve_token token spender amount private_key w in
  (exists b, fst out = Some b) /\
  (from_key private_key = Some account ->
   allowance (chain_state w) token account spender = Some allowed ->
   Py.to_units amount
     (if bool_decide (token = Config.BTCB_ADDRESS) then Config.BTCB_DECIMALS else 18)
     <= allowed ->
   fst out = Some true /\
   store (snd out) = store w /\
   chain_state (snd out) = chain_state w /\
   transactions (trace (snd out)) = transactions (trace w)).
Proof.
  cbv zeta. split; [apply approve_token_returns|].
  intros Hk Hal Hle. unfold Pool.approve_token, try_except.
  erewrite bind_ok by (unfold call_from_key, read; rewrite Hk; reflexivity).
  cbv zeta.
  erewrite bind_ok by (unfold call_allowance, read; cbn [chain_state log]; rewrite Hal;
                       reflexivity).
  assert (Hwei : (if bool_decide (token = Config.WAVAX_ADDRESS) then Py.to_units amount 18
                  else if bool_decide (token = Config.BTCB_ADDRESS)
                       then Py.to_units amount Config.BTCB_DECIMALS
                       else Py.to_units amount 18) =
                 Py.to_units amount
                   (if bool_decide (token = Config.BTCB_ADDRESS)
                    then Config.BTCB_DECIMALS else 18)).
  { destruct (bool_decide_reflect (token = Config.WAVAX_ADDRESS)) as [->|]; [reflexivity|].
    now destruct (bool_decide (token = Config.BTCB_ADDRESS)). }
  rewrite Hwei. destruct (Z.leb_spec (Py.to_units amount
     (if bool_decide (token = Config.BTCB_ADDRESS) then Config.BTCB_DECIMALS else 18)) allowed);
    [|lia].
  unfold ret, log. cbn [fst snd store chain_state trace].
  repeat split. now rewrite !transactions_snoc.
Qed.

Lemma approve_token_skips_when_allowed_witness :
  let w := Sim.world (Sim.chain0 100 []) Db.empty in
  let out := Pool.approve_token Config.WAVAX_ADDRESS Config.ROUTER_ADDRESS 0
               Sim.private_key w in
  fst out = Some true /\
  store (snd out) = store w /\
  chain_state (snd out) = chain_state w /\
  transactions (trace (snd out)) = transactions (trace w).
Proof.
  intros w out.
  apply (proj2 (approve_token_skips_when_allowed Config.WAVAX_ADDRESS Config.ROUTER_ADDRESS 0
                  Sim.private_key Sim.wallet 0 w));
    [reflexivity | reflexivity | vm_compute; discriminate].
Defined.

(** ** More calls that send nothing *)

Section MoreQuiet.
Context {chain : Type} `{!Gateway chain}.
Variable pool : Pool.LiquidityPool.

Lemma get_wallet_address_fst key (w w' : World chain) :
  fst (Wallet.get_wallet_address key w) = fst (Wallet.get_wallet_address key w').
Proof.
  unfold Wallet.get_wallet_address. destruct (bool_decide (key = "")); [reflexivity|].
  unfold try_except, bind, call_from_key, read, ret. now destruct (from_key key).
Qed.

Lemma monitor_check_dust key account A x y (w : World chain) :
  fst (Wallet.get_wallet_address key w) = Some (Some account) ->
  getActiveId (chain_state w) = Some A ->
  fst (Pool.get_all_lp_balances pool account 50 true w) = Some [] ->
  tokenBalanceOf (chain_state w) Config.WAVAX_ADDRESS (Some account) = Some x ->
  tokenBalanceOf (chain_state w) Config.BTCB_ADDRESS (Some account) = Some y ->
  x <= 10001000000000000 ->
  y <= 10000 ->
  fst (AutoRebalance.monitor_check pool key account w) = Some tt /\
  sends_nothing w (snd (AutoRebalance.monitor_check pool key account w)).
Proof.
  intros Hoa HA Hres Hx Hy Hxs Hys. unfold AutoRebalance.monitor_check, try_except.
  assert (H1 : Pool.get_active_bin w = (Some A, log CallActiveId w))
    by (unfold Pool.get_active_bin, call_getActiveId, read; now rewrite HA).
  rewrite (bind_ok _ _ _ _ _ H1).
  set (w1 := log CallActiveId w).
  assert (Hq1 : sends_nothing w w1)
    by (split; [reflexivity | now apply transactions_snoc]).
  destruct (get_all_lp_balances_run pool account 50 true w1) as (Hr2 & _ & _).
  destruct (get_all_lp_balances_run pool account 50 true w) as (Hr0 & _ & _).
  change (chain_state w1) with (chain_state w) in Hr2.
  change (store w1) with (store w) in Hr2.
  rewrite <- Hr0, Hres in Hr2.
  pose proof (get_all_lp_balances_sends_nothing pool account 50 true w1) as Hq2.
  destruct (Pool.get_all_lp_balances pool account 50 true w1) as [r2 w2] eqn:H2.
  cbn [fst snd] in Hr2, Hq2. subst r2.
  rewrite (bind_ok _ _ _ _ _ H2). cbn [Py.nonempty].
  pose proof (sends_nothing_trans _ _ _ Hq1 Hq2) as Hq. destruct Hq as [Hc2 Ht2].
  rewrite (bind_ok _ _ _ _ _
             (get_balance_wavax_run (Some account) x w2 ltac:(now rewrite Hc2))).
  rewrite (bind_ok _ _ _ _ _
             (get_balance_btcb_run (Some account) y
                (log (CallTokenBalance Config.WAVAX_ADDRESS (Some account)) w2)
                ltac:(cbn; now rewrite Hc2))).
  set (w4 := log (CallTokenBalance Config.BTCB_ADDRESS (Some account))
               (log (CallTokenBalance Config.WAVAX_ADDRESS (Some account)) w2)).
  assert (Hq4 : sends_nothing w w4).
  { split; [exact Hc2|]. subst w4. unfold log. cbn [trace].
    now rewrite !transactions_snoc. }
  destruct (Py.gt _ _ || Py.gt _ _); [|now split].
  destruct (add_initial_positions_dust pool key (Some account) A x y w4) as (Hr & _ & Hq5);
    try assumption.
  - now rewrite (get_wallet_address_fst key w4 w).
  - now rewrite (proj1 Hq4).
  - now rewrite (proj1 Hq4).
  - now rewrite (proj1 Hq4).
  - destruct (AutoRebalance.add_initial_positions pool key w4) as [r5 w5] eqn:H5.
    cbn [fst snd] in Hr, Hq5. subst r5. rewrite (bind_ok _ _ _ _ _ H5).
    split; [reflexivity|]. cbn [snd ret]. eapply sends_nothing_trans; eauto.
Qed.

Lemma remove_all_liquidity_nothing_found key account scan_range (w : World chain) :
  from_key key = Some account ->
  fst (Pool.get_all_lp_balances pool account scan_range true w) = Some [] ->
  fst (Pool.remove_all_liquidity pool key scan_range w) = Some false /\
  sends_nothing w (snd (Pool.remove_all_liquidity pool key scan_range w)).
Proof.
  intros Hk Hres. unfold Pool.remove_all_liquidity, try_except.
  erewrite bind_ok by (unfold call_from_key, read; rewrite Hk; reflexivity).
  set (w1 := log (CallFromKey key) w).
  assert (Hq1 : sends_nothing w w1)
    by (split; [reflexivity | now apply transactions_snoc]).
  destruct (get_all_lp_balances_run pool account scan_range true w1) as (Hr2 & _ & _).
  destruct (get_all_lp_balances_run pool account scan_range true w) as (Hr0 & _ & _).
  change (chain_state w1) with (chain_state w) in Hr2.
  change (store w1) with (store w) in Hr2.
  rewrite <- Hr0, Hres in Hr2.
  pose proof (get_all_lp_balances_sends_nothing pool account scan_range true w1) as Hq2.
  destruct (Pool.get_all_lp_balances pool account scan_range true w1) as [r2 w2] eqn:H2.
  cbn [fst snd] in Hr2, Hq2. subst r2.
  rewrite (bind_ok _ _ _ _ _ H2). cbn [Py.nonempty negb fst snd ret].
  split; [reflexivity|]. eapply sends_nothing_trans; eauto.
Qed.

End MoreQuiet.

(** X20: a monitoring check that finds no position, with at most 0.010001
    WAVAX and 0.0001 BTC.b in the wallet, makes no deposit: whether the
    check stops at its own balance test or [add_initial_positions] declines,
    no transaction is sent and the chain is as it was. *)
Theorem monitor_check_declines_dust {chain : Type} `{!Gateway chain}
    (pool : Pool.LiquidityPool) (private_key account_address : string)
    (A avax_wei btc_sat : Z) (w : World chain) :
  fst (Wallet.get_wallet_address private_key w) = Some (Some account_address) ->
  getActiveId (chain_state w) = Some A ->
  fst (Pool.get_all_lp_balances pool account_address 50 true w) = Some [] ->
  tokenBalanceOf (chain_state w) Config.WAVAX_ADDRESS (Some account_address) = Some avax_wei ->
  tokenBalanceOf (chain_state w) Config.BTCB_ADDRESS (Some account_address) = Some btc_sat ->
  avax_wei <= 10001000000000000 ->
  btc_sat <= 10000 ->
  let out := AutoRebalance.monitor_check pool private_key account_address w in
  fst out = Some tt /\
  chain_state (snd out) = chain_state w /\
  transactions (trace (snd out)) = transactions (trace w).
Proof.
  intros Hoa HA Hres Hx Hy Hxs Hys. cbv zeta.
  destruct (monitor_check_dust pool private_key account_address A avax_wei btc_sat w
              Hoa HA Hres Hx Hy Hxs Hys) as (Hr & Hc & Ht).
  auto.
Qed.

Lemma monitor_check_declines_dust_witness :
  let w := Sim.world (Sim.funded 100 [] 10001000000000000 10000) Db.empty in
  let out := AutoRebalance.monitor_check Sim.pool Sim.private_key Sim.wallet w in
  fst out = Some tt /\
  chain_state (snd out) = chain_state w /\
  transactions (trace (snd out)) = transactions (trace w).
Proof.
  intros w out.
  apply (monitor_check_declines_dust Sim.pool Sim.private_key Sim.wallet
           100 10001000000000000 10000 w);
    first [lia | vm_compute; reflexivity].
Defined.

(** X21: when position resolution finds nothing, [remove_all_liquidity]
    returns False at once: no LP approval and no removal transaction is
    sent, and the chain is as it was. *)
Theorem remove_all_liquidity_nothing_to_remove {chain : Type} `{!Gateway chain}
    (pool : Pool.LiquidityPool) (private_key account : string) (scan_range : Z)
    (w : World chain) :
  from_key private_key = Some account ->
  fst (Pool.get_all_lp_balances pool account scan_range true w) = Some [] ->
  let out := Pool.remove_all_liquidity pool private_key scan_range w in
  fst out = Some false /\
  chain_state (snd out) = chain_state w /\
  transactions (trace (snd out)) = transactions (trace w).
Proof.
  intros Hk Hres. cbv zeta.
  destruct (remove_all_liquidity_nothing_found pool private_key account scan_range w Hk Hres)
    as (Hr & Hc & Ht).
  auto.
Qed.

Lemma remove_all_liquidity_nothing_to_remove_witness :
  let w := Sim.world (Sim.chain0 100 [(130, 5000000000000000000)]) Db.empty in
  let out := Pool.remove_all_liquidity Sim.pool Sim.private_key 10 w in
  fst out = Some false /\
  chain_state (snd out) = chain_state w /\
  transactions (trace (snd out)) = transactions (trace w).
Proof.
  intros w out.
  apply (remove_all_liquidity_nothing_to_remove Sim.pool Sim.private_key Sim.wallet 10 w);
    vm_compute; reflexivity.
Defined.

(** X22: when the database-first pass finds at least one live position, the
    call returns what that pass found and scans nothing: the balance reads
    it issues are one per stored active row, in the order of the rows. *)
Theorem get_all_lp_balances_cache_hit {chain : Type} `{!Gateway chain}
    (self : Pool.LiquidityPool) (wallet : string) (scan_range : Z) (w : World chain)
    (p : Pool.Position) (ps : list Pool.Position) :
  fst (Pool.verify_db_positions self wallet w) = Some (p :: ps) ->
  let out := Pool.get_all_lp_balances self wallet scan_range true w in
  fst out = Some (p :: ps) /\
  balance_checks (trace (snd out)) =
    balance_checks (trace w) ++
    map (fun pos => (wallet, Db.bin_id (snd pos)))
        (Db.get_active_positions (store w) wallet (Some Config.POOL_ADDRESS)).
Proof.
  intros Hpass. cbv zeta. unfold Pool.get_all_lp_balances.
  fold (stored wallet (store w)).
  destruct (list_eq_nil_dec (stored wallet (store w))) as [Hs|Hs];
    [rewrite (verify_db_positions_none self wallet w Hs) in Hpass; discriminate|].
  destruct (getActiveId (chain_state w)) as [A|] eqn:HA;
    [|rewrite (verify_db_positions_raise self wallet w Hs HA) in Hpass; discriminate].
  pose proof (verify_db_positions_run self wallet w A Hs HA) as Hrun.
  rewrite Hrun in Hpass. cbn [fst] in Hpass.
  erewrite bind_ok by exact Hrun. inversion Hpass as [Hps]. rewrite Hps.
  cbn [Py.nonempty fst snd ret after trace]. split; [reflexivity|].
  rewrite balance_checks_app. f_equal.
  change (balance_checks (CallActiveId :: ?t)) with (balance_checks t).
  clear. induction (stored wallet (store w)) as [|pos l IH]; [reflexivity|].
  cbn [flat_map map]. rewrite balance_checks_app, IH. f_equal.
  unfold probe_calls.
  destruct (balanceOf (chain_state w) wallet (Db.bin_id (snd pos))) as [b|];
    [destruct (0 <? b)|]; reflexivity.
Qed.

Lemma get_all_lp_balances_cache_hit_witness :
  let w := Sim.world (Sim.chain0 100 [(101, 7000000000000000000)])
                     (Sim.store_of [Sim.row 101 5 true; Sim.row 99 3 true]) in
  let out := Pool.get_all_lp_balances Sim.pool Sim.wallet 1000 true w in
  fst out = Some [Pool.mk_position Sim.pool 101 7000000000000000000 1000 2000 100] /\
  balance_checks (trace (snd out)) = [(Sim.wallet, 101); (Sim.wallet, 99)].
Proof.
  intros w out.
  apply (get_all_lp_balances_cache_hit Sim.pool Sim.wallet 1000 w
           (Pool.mk_position Sim.pool 101 7000000000000000000 1000 2000 100) []).
  vm_compute. reflexivity.
Defined.
